(** * A CORS forwarding proxy: shallow embedding and verified properties

    The development embeds two programs of the repository:

    - the stand-alone proxy ([handler] and its helpers: [rateLimitAllow],
      [getClientIP], [getTargetFromRequest], [isHttpHttps],
      [isBlockedPrivateHost], [reflectCors], [preflight], [fail],
      [scrubRequestHeaders], [scrubResponseHeaders]);
    - the serverless wrapper around cors-anywhere of [src/api/proxy.js]
      ([makeCorsAnywherePath] and the exported function).

    JavaScript strings are modelled as [string] (sequences of bytes; the
    case mapping and the white space of the model are the ASCII ones),
    numbers as [Z], [Map]s and header objects as [gmap string _].  The
    mutable response object [res] is threaded explicitly.  What the
    JavaScript host provides ([new URL], [decodeURIComponent], [fetch],
    [Date.now]) enters the model through the class [Host] and through the
    arguments of [handler]. *)

From Stdlib Require Import ZArith Ascii String List Bool Lia.
From Stdlib Require Import Numbers.DecimalString.
From stdpp Require Import base option list strings gmap.

(** ** JavaScript primitives *)

Module JS.

(** Truthiness of a string: only the empty string is falsy. *)
Definition truthy (s : string) : bool :=
  match s with EmptyString => false | String _ _ => true end.

(** [a || b] on strings. *)
Definition or_else (a b : string) : string := if truthy a then a else b.

(** [o || b] where [o] may be [undefined]. *)
Definition opt_or (o : option string) (b : string) : string :=
  match o with Some a => or_else a b | None => b end.

Definition is_upper (c : ascii) : bool :=
  let n := Ascii.N_of_ascii c in ((65 <=? n) && (n <=? 90))%N.

Definition lowerChar (c : ascii) : ascii :=
  if is_upper c then Ascii.ascii_of_N (Ascii.N_of_ascii c + 32) else c.

(** [s.toLowerCase()] *)
Fixpoint toLowerCase (s : string) : string :=
  match s with
  | EmptyString => EmptyString
  | String c s' => String (lowerChar c) (toLowerCase s')
  end.

(** [s.startsWith(p)] *)
Fixpoint startsWith (s p : string) : bool :=
  match p with
  | EmptyString => true
  | String b p' =>
      match s with
      | EmptyString => false
      | String a s' => if Ascii.eqb a b then startsWith s' p' else false
      end
  end.

(** The rest of [s] after the prefix [p], when [s] starts with [p]. *)
Fixpoint stripPrefix (s p : string) : option string :=
  match p with
  | EmptyString => Some s
  | String b p' =>
      match s with
      | EmptyString => None
      | String a s' => if Ascii.eqb a b then stripPrefix s' p' else None
      end
  end.

(** [s.indexOf(p)]: [None] stands for [-1]. *)
Fixpoint indexOf (s p : string) : option nat :=
  if startsWith s p then Some 0%nat
  else match s with
       | EmptyString => None
       | String _ s' => S <$> indexOf s' p
       end.

(** [s.slice(n)] for [0 <= n]. *)
Fixpoint slice (s : string) (n : nat) : string :=
  match n, s with
  | O, _ => s
  | S n', String _ s' => slice s' n'
  | S _, EmptyString => EmptyString
  end.

Definition is_space (c : ascii) : bool :=
  match c with
  | "009" | "010" | "011" | "012" | "013" | " " => true
  | _ => false
  end%char.

Fixpoint trimStart (s : string) : string :=
  match s with
  | String c s' => if is_space c then trimStart s' else s
  | EmptyString => EmptyString
  end.

(** Drops trailing white space: a space is kept only when something
    that is kept follows it. *)
Fixpoint trimEnd (s : string) : string :=
  match s with
  | EmptyString => EmptyString
  | String c s' =>
      match trimEnd s' with
      | EmptyString => if is_space c then EmptyString else String c EmptyString
      | t => String c t
      end
  end.

(** [s.trim()] *)
Definition trim (s : string) : string := trimEnd (trimStart s).

(** [s.split(sep)] for a one-character separator: the pieces between
    the separators, at least one piece. *)
Fixpoint split (sep : ascii) (s : string) : list string :=
  match s with
  | EmptyString => [EmptyString]
  | String c s' =>
      if Ascii.eqb c sep then EmptyString :: split sep s'
      else match split sep s' with
           | p :: ps => String c p :: ps
           | [] => [String c EmptyString]
           end
  end.

Definition digit (c : ascii) : option Z :=
  let n := Ascii.N_of_ascii c in
  if ((48 <=? n) && (n <=? 57))%N then Some (Z.of_N n - 48)%Z else None.

Fixpoint digits (acc : Z) (s : string) : Z :=
  match s with
  | String c s' =>
      match digit c with
      | Some d => digits (10 * acc + d) s'
      | None => acc
      end
  | EmptyString => acc
  end.

Definition unsigned10 (s : string) : option Z :=
  match s with
  | String c _ => match digit c with Some _ => Some (digits 0 s) | None => None end
  | EmptyString => None
  end.

(** [parseInt(s, 10)]: leading white space, an optional sign, then the
    longest run of decimal digits; [None] stands for [NaN]. *)
Definition parseInt (s : string) : option Z :=
  match trimStart s with
  | String "-" s' => Z.opp <$> unsigned10 s'
  | String "+" s' => unsigned10 s'
  | s' => unsigned10 s'
  end.

(** [n || d] on numbers: [NaN] and [0] are falsy. *)
Definition num_or (n : option Z) (d : Z) : Z :=
  match n with
  | Some v => if (v =? 0)%Z then d else v
  | None => d
  end.

(** [String(n)] for an integer [n]. *)
Definition String_ (n : Z) : string :=
  NilZero.string_of_int (Z.to_int n).

Definition hexDigit (n : N) : ascii :=
  if (n <? 10)%N then Ascii.ascii_of_N (48 + n) else Ascii.ascii_of_N (87 + n).

Definition dquote : ascii := "034"%char.
Definition backslash : ascii := "092"%char.

(** The escape of one character inside a JSON string literal. *)
Definition quoteChar (c : ascii) : string :=
  let n := Ascii.N_of_ascii c in
  if Ascii.eqb c dquote then String backslash (String dquote EmptyString)
  else if Ascii.eqb c backslash then String backslash (String backslash EmptyString)
  else if (n =? 8)%N then String backslash "b"
  else if (n =? 9)%N then String backslash "t"
  else if (n =? 10)%N then String backslash "n"
  else if (n =? 12)%N then String backslash "f"
  else if (n =? 13)%N then String backslash "r"
  else if (n <? 32)%N then
    String backslash ("u00" +:+ String (hexDigit (n / 16)) (String (hexDigit (n mod 16)) EmptyString))
  else String c EmptyString.

Fixpoint quoteBody (s : string) : string :=
  match s with
  | EmptyString => EmptyString
  | String c s' => quoteChar c +:+ quoteBody s'
  end.

(** [JSON.stringify] of a string. *)
Definition quote (s : string) : string :=
  String dquote (quoteBody s +:+ String dquote EmptyString).

(** The JSON values the programs serialise: objects whose fields are
    strings. *)
Definition jsobject := list (string * string).

Fixpoint stringifyFields (fs : jsobject) : string :=
  match fs with
  | [] => EmptyString
  | [(k, v)] => quote k +:+ ":" +:+ quote v
  | (k, v) :: fs' => quote k +:+ ":" +:+ quote v +:+ "," +:+ stringifyFields fs'
  end.

(** [JSON.stringify] of such an object. *)
Definition stringify (o : jsobject) : string :=
  "{" +:+ stringifyFields o +:+ "}".

End JS.

(** ** Regular expressions

    The fragment of JavaScript regular expressions the programs use for
    their anchored tests: literals, character ranges, [\d], sequence,
    alternation and [?], with the [i] flag. *)

Module Regex.

Inductive regex : Type :=
| Lit (s : string)
| Range (lo hi : ascii)
| Digit
| Seq (r1 r2 : regex)
| Alt (r1 r2 : regex)
| Opt (r : regex).

Definition canon (ci : bool) (c : ascii) : ascii :=
  if ci then JS.lowerChar c else c.

Fixpoint lit (ci : bool) (p s : string) : option string :=
  match p with
  | EmptyString => Some s
  | String b p' =>
      match s with
      | EmptyString => None
      | String a s' =>
          if Ascii.eqb (canon ci a) (canon ci b) then lit ci p' s' else None
      end
  end.

Definition inRange (lo hi c : ascii) : bool :=
  ((Ascii.N_of_ascii lo <=? Ascii.N_of_ascii c)
   && (Ascii.N_of_ascii c <=? Ascii.N_of_ascii hi))%N.

(** Backtracking matcher in continuation-passing style: [k] receives
    the rest of the subject after a match of [r]. *)
Fixpoint run (ci : bool) (r : regex) (s : string) (k : string -> bool) : bool :=
  match r with
  | Lit p => match lit ci p s with Some s' => k s' | None => false end
  | Range lo hi =>
      match s with
      | String a s' => if inRange lo hi a then k s' else false
      | EmptyString => false
      end
  | Digit =>
      match s with
      | String a s' => if inRange "0" "9" a then k s' else false
      | EmptyString => false
      end
  | Seq r1 r2 => run ci r1 s (fun s' => run ci r2 s' k)
  | Alt r1 r2 => run ci r1 s k || run ci r2 s k
  | Opt r' => run ci r' s k || k s
  end.

(** [/^r/.test(s)] and [/^r/i.test(s)] *)
Definition test (r : regex) (s : string) : bool := run false r s (fun _ => true).
Definition testi (r : regex) (s : string) : bool := run true r s (fun _ => true).

End Regex.

(** ** The JavaScript host

    [new URL] and [decodeURIComponent] are provided by the runtime, not by
    the repository.  The programs are embedded over an arbitrary [Host];
    [refHost] below is a reference model used to run them on concrete
    requests. *)

Module Url.

(** The fields of a [URL] object the programs read.  [search] holds the
    decoded name/value pairs of [searchParams]. *)
Record URL : Type := mkURL {
  protocol : string;
  hostname : string;
  pathname : string;
  search : list (string * string)
}.

(** [u.searchParams.get(name)]: the first value, [None] for [null]. *)
Definition searchParams_get (u : URL) (name : string) : option string :=
  snd <$> List.find (fun kv => String.eqb (fst kv) name) (search u).

End Url.

Class Host : Type := {
  (** [new URL(input)] and [new URL(input, base)]; [None] when the
      constructor throws. *)
  URL_new : string -> option string -> option Url.URL;
  (** [decodeURIComponent(s)]; [None] when it throws. *)
  decodeURIComponent : string -> option string
}.

(** *** Reference host

    A model of the URL parser of the host for URLs of the plain shape
    [scheme://userinfo@host:port/path?query#fragment] and for
    request targets resolved against a base with an empty path.  As the
    URL Standard prescribes, the scheme and the host are lower-cased and
    the [hostname] of an IPv6 literal keeps its square brackets.  Not
    modelled: the rewriting of IPv4 spellings such as [127.1] to dotted
    decimal, the compression of IPv6 addresses, IDNA, dot segments and
    the percent-encoding of paths; on such inputs [refHost] is not used. *)

Module RefHost.

Import Url.

Fixpoint span (stop : ascii -> bool) (s : string) : string * string :=
  match s with
  | EmptyString => (EmptyString, EmptyString)
  | String c s' =>
      if stop c then (EmptyString, s)
      else let '(a, b) := span stop s' in (String c a, b)
  end.

Fixpoint splitLast (sep : ascii) (s : string) : option (string * string) :=
  match s with
  | EmptyString => None
  | String c s' =>
      match splitLast sep s' with
      | Some (a, b) => Some (String c a, b)
      | None => if Ascii.eqb c sep then Some (EmptyString, s') else None
      end
  end.

Fixpoint forallb_string (p : ascii -> bool) (s : string) : bool :=
  match s with
  | EmptyString => true
  | String c s' => p c && forallb_string p s'
  end.

Definition is_alpha (c : ascii) : bool :=
  let n := Ascii.N_of_ascii (JS.lowerChar c) in ((97 <=? n) && (n <=? 122))%N.

Definition is_digit (c : ascii) : bool :=
  match JS.digit c with Some _ => true | None => false end.

Definition hexVal (c : ascii) : option N :=
  let n := Ascii.N_of_ascii (JS.lowerChar c) in
  if ((48 <=? n) && (n <=? 57))%N then Some (n - 48)%N
  else if ((97 <=? n) && (n <=? 102))%N then Some (n - 87)%N
  else None.

Definition one_of (cs : string) (c : ascii) : bool :=
  existsb (Ascii.eqb c) (list_ascii_of_string cs).

Definition is_schemeChar (c : ascii) : bool :=
  is_alpha c || is_digit c || one_of "+-." c.

(** [scheme ":" rest], the scheme lower-cased. *)
Definition splitScheme (s : string) : option (string * string) :=
  match s with
  | String c _ =>
      if is_alpha c then
        match span (fun c => negb (is_schemeChar c)) s with
        | (sch, String ":" rest) => Some (JS.toLowerCase sch, rest)
        | _ => None
        end
      else None
  | EmptyString => None
  end.

Definition is_slash (c : ascii) : bool :=
  Ascii.eqb c "/" || Ascii.eqb c JS.backslash.

Fixpoint dropSlashes (s : string) : string :=
  match s with
  | String c s' => if is_slash c then dropSlashes s' else s
  | EmptyString => EmptyString
  end.

Definition is_special (scheme : string) : bool :=
  existsb (String.eqb scheme) ["http"; "https"; "ws"; "wss"; "ftp"].

(** Percent-decoding; the strict variant fails on a malformed escape. *)
Fixpoint pctDecode (strict : bool) (s : string) : option string :=
  match s with
  | EmptyString => Some EmptyString
  | String c t =>
      if Ascii.eqb c "%" then
        match t with
        | String a (String b u) =>
            match hexVal a, hexVal b with
            | Some x, Some y =>
                String (Ascii.ascii_of_N (16 * x + y)) <$> pctDecode strict u
            | _, _ => if strict then None else String c <$> pctDecode strict t
            end
        | _ => if strict then None else String c <$> pctDecode strict t
        end
      else String c <$> pctDecode strict t
  end.

Fixpoint plusToSpace (s : string) : string :=
  match s with
  | EmptyString => EmptyString
  | String c s' => String (if Ascii.eqb c "+" then " "%char else c) (plusToSpace s')
  end.

Definition formDecode (s : string) : string :=
  default s (pctDecode false (plusToSpace s)).

Definition parsePair (p : string) : string * string :=
  let '(n, v) := span (Ascii.eqb "=") p in
  (formDecode n, formDecode (match v with String _ v' => v' | EmptyString => EmptyString end)).

(** The pairs of a query string (without its question mark). *)
Definition parseQuery (q : string) : list (string * string) :=
  parsePair <$> List.filter JS.truthy (JS.split "&" q).

(** Splits [path ?query #fragment] into the path and the pairs. *)
Definition pathAndQuery (s : string) : string * list (string * string) :=
  let '(p, r) := span (one_of "?#") s in
  match r with
  | String "?" q => (p, parseQuery (fst (span (Ascii.eqb "#") q)))
  | _ => (p, [])
  end.

Definition forbiddenHostChar (c : ascii) : bool :=
  (Ascii.N_of_ascii c <=? 32)%N || (127 <=? Ascii.N_of_ascii c)%N
  || one_of "#/:<>?@[^|%" c || Ascii.eqb c JS.backslash || Ascii.eqb c "]".

Definition validPort (p : string) : bool :=
  forallb_string is_digit p && (JS.digits 0 p <=? 65535)%Z.

(** The serialised host of [host] or [host:port]; an IPv6 literal keeps
    its brackets. *)
Definition parseHost (hp : string) : option string :=
  match hp with
  | String "[" r =>
      match span (Ascii.eqb "]") r with
      | (a, String _ after) =>
          let okAddr := JS.truthy a
            && forallb_string (fun c => match hexVal c with Some _ => true | None => one_of ":." c end) a in
          let okPort := match after with
                        | EmptyString => true
                        | String ":" p => validPort p
                        | _ => false
                        end in
          if okAddr && okPort then Some ("[" +:+ JS.toLowerCase a +:+ "]") else None
      | _ => None
      end
  | _ =>
      let '(h, p) := span (Ascii.eqb ":") hp in
      let okPort := match p with
                    | EmptyString => true
                    | String _ p' => validPort p'
                    end in
      if JS.truthy h && forallb_string (fun c => negb (forbiddenHostChar c)) h && okPort
      then Some (JS.toLowerCase h) else None
  end.

(** [new URL(s)] for a string that carries its scheme. *)
Definition parseAbsolute (s : string) : option URL :=
  '(scheme, rest) ← splitScheme (JS.trim s);
  if is_special scheme then
    let '(auth, tail) :=
      span (fun c => one_of "/?#" c || Ascii.eqb c JS.backslash) (dropSlashes rest) in
    let hp := match splitLast "@" auth with Some (_, h) => h | None => auth end in
    h ← parseHost hp;
    let '(p, q) := pathAndQuery tail in
    Some (mkURL (scheme +:+ ":") h (if JS.truthy p then p else "/") q)
  else
    match rest with
    | String "/" (String "/" r) =>
        let '(auth, tail) := span (one_of "/?#") r in
        let hp := match splitLast "@" auth with Some (_, h) => h | None => auth end in
        let '(p, q) := pathAndQuery tail in
        if JS.truthy hp then
          h ← parseHost hp; Some (mkURL (scheme +:+ ":") h p q)
        else Some (mkURL (scheme +:+ ":") EmptyString p q)
    | _ =>
        let '(p, q) := pathAndQuery rest in
        Some (mkURL (scheme +:+ ":") EmptyString p q)
    end.

(** [new URL(s, base)] for a base with an empty path: a string that
    carries a scheme is parsed on its own, any other one is a reference
    relative to the base. *)
Definition parseRelative (s base : string) : option URL :=
  match splitScheme (JS.trim s) with
  | Some _ => parseAbsolute s
  | None =>
      b ← parseAbsolute base;
      let t := JS.trim s in
      match t with
      | String "/" (String "/" _) => parseAbsolute (protocol b +:+ t)
      | String "/" _ =>
          let '(p, q) := pathAndQuery t in Some (mkURL (protocol b) (hostname b) p q)
      | _ =>
          let '(p, q) := pathAndQuery t in
          Some (mkURL (protocol b) (hostname b) ("/" +:+ p) q)
      end
  end.

Definition parse (s : string) (base : option string) : option URL :=
  match base with
  | None => parseAbsolute s
  | Some b => parseRelative s b
  end.

End RefHost.

#[export] Instance refHost : Host := {|
  URL_new := RefHost.parse;
  decodeURIComponent := RefHost.pctDecode true
|}.

(** ** The stand-alone proxy *)

Module Proxy.

Import Url.

(** *** Configuration via env *)

(** The environment variables the module reads, after the defaults of
    the destructuring have been applied. *)
Record Env : Type := mkEnv {
  ORIGIN_ALLOWLIST : string;
  ORIGIN_DENYLIST : string;
  REQUIRE_HEADER : string;
  API_KEY : string;
  CORS_MAX_AGE : string;
  ENABLE_CREDENTIALS : string;
  RATE_LIMIT : string
}.

Definition defaultEnv : Env :=
  mkEnv EmptyString EmptyString EmptyString EmptyString "600" "false" "0".

(** *** Small helpers *)

(** A [Set] of strings: its elements in insertion order. *)
Definition Set_has (s : list string) (x : string) : bool :=
  existsb (String.eqb x) s.

Definition Set_add (s : list string) (x : string) : list string :=
  if Set_has s x then s else s ++ [x].

(** [new Set(l)] *)
Definition Set_new (l : list string) : list string :=
  fold_left Set_add l [].

(** [s.size] used as a condition. *)
Definition Set_size (s : list string) : bool :=
  match s with [] => false | _ :: _ => true end.

Definition hopByHopHeaders : list string :=
  Set_new ["connection"; "proxy-connection"; "keep-alive"; "transfer-encoding";
           "upgrade"; "te"; "trailer"; "proxy-authorization"; "proxy-authenticate"].

Definition parseCSV (s : string) : list string :=
  List.filter JS.truthy (JS.trim <$> JS.split "," s).

(** The names of the properties every plain object inherits from
    [Object.prototype]. *)
Definition objectPrototypeKeys : list string :=
  ["constructor"; "__defineGetter__"; "__defineSetter__"; "hasOwnProperty";
   "__lookupGetter__"; "__lookupSetter__"; "isPrototypeOf"; "propertyIsEnumerable";
   "toString"; "valueOf"; "__proto__"; "toLocaleString"].

(** [k in obj] for a plain object whose own keys are the keys of [m]:
    the operator follows the prototype chain. *)
Definition hasProperty (k : string) (m : gmap string string) : bool :=
  bool_decide (is_Some (m !! k)) || Set_has objectPrototypeKeys k.

Section WithEnv.

Context (env : Env).

Definition allowlist : list string := Set_new (parseCSV (ORIGIN_ALLOWLIST env)).
Definition denylist : list string := Set_new (parseCSV (ORIGIN_DENYLIST env)).
Definition requiredHeaders : list string :=
  Set_new (JS.toLowerCase <$> parseCSV (REQUIRE_HEADER env)).
Definition credentials : bool :=
  String.eqb (JS.toLowerCase (ENABLE_CREDENTIALS env)) "true".
Definition rateLimitMax : Z :=
  Z.max 0 (JS.num_or (JS.parseInt (RATE_LIMIT env)) 0).

End WithEnv.

(** *** Rate limiting *)

Record Rec : Type := mkRec { count : Z; reset : Z }.

Definition WINDOW_MS : Z := 10 * 60 * 1000.

(** [rateLimitAllow(ip)] at time [t = now()] on the bucket [b]; gives
    the bucket after the call and the answer. *)
Definition rateLimitAllow (env : Env) (t : Z) (ip : string)
    (b : gmap string Rec) : gmap string Rec * bool :=
  if (rateLimitMax env =? 0)%Z then (b, true)
  else
    let rec := default (mkRec 0 (t + WINDOW_MS)) (b !! ip) in
    let rec := if (t >? reset rec)%Z then mkRec 0 (t + WINDOW_MS) else rec in
    let rec := mkRec (count rec + 1) (reset rec) in
    (<[ip := rec]> b, (count rec <=? rateLimitMax env)%Z).

(** *** Requests and responses *)

(** The inbound request: header names are lower-case, as the HTTP layer
    delivers them; [remoteAddress] is [req.socket?.remoteAddress];
    [reqBody] is the concatenation of the chunks of the stream. *)
Record Request : Type := mkRequest {
  method : string;
  url : string;
  headers : gmap string string;
  remoteAddress : option string;
  reqBody : string
}.

(** The response object.  [setHeader] is case-insensitive in the name:
    the headers are keyed by the lower-cased name and keep the name and
    the value of the last call.  [sent] is [None] until [end] is
    called and then holds the payload. *)
Record Response : Type := mkResponse {
  statusCode : Z;
  resHeaders : gmap string (string * string);
  sent : option string
}.

Definition freshResponse : Response := mkResponse 200 ∅ None.

Definition setStatus (code : Z) (res : Response) : Response :=
  mkResponse code (resHeaders res) (sent res).

Definition setHeader (name value : string) (res : Response) : Response :=
  mkResponse (statusCode res)
    (<[JS.toLowerCase name := (name, value)]> (resHeaders res)) (sent res).

Definition getHeader (name : string) (res : Response) : option string :=
  snd <$> resHeaders res !! JS.toLowerCase name.

Definition end_ (payload : string) (res : Response) : Response :=
  mkResponse (statusCode res) (resHeaders res) (Some payload).

Definition getClientIP (req : Request) : string :=
  JS.opt_or (headers req !! "x-real-ip")
    (JS.opt_or
       ((fun v => JS.trim (hd EmptyString (JS.split "," v))) <$> headers req !! "x-forwarded-for")
       (JS.opt_or (remoteAddress req) "0.0.0.0")).

Section WithHost.

Context `{host : Host}.

(** The second source of the target: the path style. *)
Definition targetFromPath (req : Request) : string :=
  match JS.indexOf (url req) "/api/proxy/" with
  | Some idx =>
      let part := JS.slice (url req) (idx + String.length "/api/proxy/") in
      if JS.truthy part then default part (decodeURIComponent part)
      else EmptyString
  | None => EmptyString
  end.

Definition getTargetFromRequest (req : Request) : string :=
  match URL_new (url req) (Some "http://x") ≫= (fun u => searchParams_get u "url") with
  | Some q => if JS.truthy q then q else targetFromPath req
  | None => targetFromPath req
  end.

Definition isHttpHttps (urlStr : string) : bool :=
  match URL_new urlStr None with
  | Some u => String.eqb (protocol u) "http:" || String.eqb (protocol u) "https:"
  | None => false
  end.

(** The tests of [isBlockedPrivateHost] on the host name. *)
Definition blockedHostname (hostname : string) : bool :=
  let h := JS.or_else hostname EmptyString in
  let lower := JS.toLowerCase h in
  if String.eqb lower "localhost" || String.eqb lower "0.0.0.0"
     || String.eqb lower "127.0.0.1" || String.eqb lower "::1" then true
  else if Regex.test (Regex.Lit "10.") lower then true
  else if Regex.test (Regex.Lit "192.168.") lower then true
  else if Regex.test
            (Regex.Seq (Regex.Lit "172.")
               (Regex.Seq
                  (Regex.Alt (Regex.Seq (Regex.Lit "1") (Regex.Range "6" "9"))
                     (Regex.Alt (Regex.Seq (Regex.Lit "2") Regex.Digit)
                        (Regex.Seq (Regex.Lit "3") (Regex.Range "0" "1"))))
                  (Regex.Lit "."))) lower then true
  else if JS.startsWith lower "fc" || JS.startsWith lower "fd" then true
  else false.

Definition isBlockedPrivateHost (urlStr : string) : bool :=
  match URL_new urlStr None with
  | Some u => blockedHostname (hostname u)
  | None => true
  end.

(** *** CORS headers, preflight and errors *)

Definition reflectCors (env : Env) (req : Request) (res : Response) : Response :=
  let origin := JS.opt_or (headers req !! "origin") "*" in
  let res :=
    if credentials env then
      setHeader "Access-Control-Allow-Credentials" "true"
        (setHeader "Vary" "Origin"
           (setHeader "Access-Control-Allow-Origin" origin res))
    else setHeader "Access-Control-Allow-Origin" "*" res in
  setHeader "Access-Control-Expose-Headers" "*" res.

Definition preflight (env : Env) (req : Request) (res : Response) : Response :=
  let res := reflectCors env req res in
  let res := setHeader "Access-Control-Allow-Methods"
               "GET,HEAD,POST,PUT,PATCH,DELETE,OPTIONS" res in
  let res :=
    match headers req !! "access-control-request-headers" with
    | Some reqHeaders =>
        if JS.truthy reqHeaders
        then setHeader "Access-Control-Allow-Headers" reqHeaders res
        else res
    | None => res
    end in
  let res := setHeader "Access-Control-Max-Age"
               (JS.String_ (JS.num_or (JS.parseInt (CORS_MAX_AGE env)) 600)) res in
  end_ EmptyString (setStatus 204 res).

Definition fail (res : Response) (code : Z) (msg : string) : Response :=
  let res := setStatus code res in
  let res := setHeader "Content-Type" "application/json; charset=utf-8" res in
  end_ (JS.stringify [("error", msg)]) res.

(** *** Header scrubbing *)

Definition droppedRequestHeader (k : string) : bool :=
  let lk := JS.toLowerCase k in
  Set_has hopByHopHeaders lk
  || String.eqb lk "host" || String.eqb lk "content-length"
  || String.eqb lk "accept-encoding".

(** The [Headers] object built from the entries of the request
    headers that are kept. *)
Definition scrubRequestHeaders (hs : gmap string string) : gmap string string :=
  list_to_map
    (List.filter (fun kv => negb (droppedRequestHeader (fst kv))) (map_to_list hs)).

(** Defines or updates the own property [k] of a plain object: an
    existing key keeps its place.  The entries are listed in insertion
    order; that [Object.entries] lists integer-like keys first is
    immaterial for the copy below, whose result does not depend on the
    order of distinct names. *)
Fixpoint own_set (k v : string) (out : list (string * string)) : list (string * string) :=
  match out with
  | [] => [(k, v)]
  | (k', v') :: out' =>
      if String.eqb k' k then (k, v) :: out' else (k', v') :: own_set k v out'
  end.

(** [out[k] = v] on a plain object, [v] being a string.  The name
    [__proto__] is the accessor inherited from [Object.prototype]: to
    assign a string to it defines no property and changes nothing. *)
Definition obj_set (k v : string) (out : list (string * string)) : list (string * string) :=
  if String.eqb k "__proto__" then out else own_set k v out.

(** [entries] are the entries of the [Headers] of the upstream
    response; the result lists the entries of the object [out]. *)
Definition scrubResponseHeaders (entries : list (string * string)) : list (string * string) :=
  fold_left
    (fun out kv =>
       if Set_has hopByHopHeaders (JS.toLowerCase (fst kv)) then out
       else obj_set (fst kv) (snd kv) out)
    entries [].

(** *** The upstream call *)

Inductive Redirect : Type := RedirectFollow | RedirectError | RedirectManual.

(** The arguments of [fetch]. *)
Record FetchRequest : Type := mkFetchRequest {
  fTarget : string;
  fMethod : string;
  fHeaders : gmap string string;
  fBody : option string;
  fRedirect : Redirect
}.

(** A thrown [Error]. *)
Record JsError : Type := mkJsError { errName : string; errMessage : string }.

(** [String(err && err.message || err)] *)
Definition errText (err : JsError) : string :=
  JS.or_else (errMessage err) (errName err).

(** The response [fetch] resolves to: [upBody] is what
    [arrayBuffer()] yields, the bytes or a failure. *)
Record Upstream : Type := mkUpstream {
  upStatus : Z;
  upHeaders : list (string * string);
  upBody : string + JsError
}.

Inductive FetchResult : Type :=
| Rejected (err : JsError)
| Fulfilled (up : Upstream).

(** *** The handler *)

(** What a call of [handler] leaves behind: the response, the rate
    limit bucket, and the upstream call it made, if any. *)
Record Outcome : Type := mkOutcome {
  outRes : Response;
  outBucket : gmap string Rec;
  outFetched : option FetchRequest
}.

Definition requestOrigin (req : Request) : string :=
  JS.toLowerCase (JS.opt_or (headers req !! "origin") EmptyString).

(** [denylist.size && denylist.has(requestOrigin)] *)
Definition originDenied (env : Env) (req : Request) : bool :=
  Set_size (denylist env) && Set_has (denylist env) (requestOrigin req).

(** [allowlist.size && !allowlist.has(requestOrigin)] *)
Definition originNotAllowed (env : Env) (req : Request) : bool :=
  Set_size (allowlist env) && negb (Set_has (allowlist env) (requestOrigin req)).

(** The first required header [rh] for which [rh in req.headers] is
    false. *)
Definition missingRequiredHeader (env : Env) (req : Request) : option string :=
  List.find (fun rh => negb (hasProperty rh (headers req))) (requiredHeaders env).

(** [API_KEY && (req.headers["x-proxy-key"] || "") !== API_KEY] *)
Definition keyRejected (env : Env) (req : Request) : bool :=
  JS.truthy (API_KEY env)
  && negb (String.eqb (JS.opt_or (headers req !! "x-proxy-key") EmptyString) (API_KEY env)).

(** The relay of the upstream response: the part of [handler] inside
    [try] after [fetch] has resolved. *)
Definition relay (env : Env) (req : Request) (res : Response) (up : Upstream) : Response :=
  let res := setStatus (upStatus up) res in
  let respHeaders := scrubResponseHeaders (upHeaders up) in
  let res :=
    fold_left
      (fun res kv =>
         if Regex.testi (Regex.Lit "access-control-") (fst kv) then res
         else setHeader (fst kv) (snd kv) res)
      respHeaders res in
  let res := reflectCors env req res in
  match upBody up with
  | inl buf => end_ buf res
  | inr err => fail res 502 ("Upstream fetch failed: " +:+ errText err)
  end.

(** [handler(req, res)] run at time [t] on the bucket [b], [fetch]
    being what the network answers. *)
Definition handler (env : Env) (fetch : FetchRequest -> FetchResult) (t : Z)
    (b : gmap string Rec) (req : Request) (res : Response) : Outcome :=
  if String.eqb (method req) "OPTIONS" then
    mkOutcome (preflight env req (reflectCors env req res)) b None
  else
    let res := reflectCors env req res in
    if originDenied env req then
      mkOutcome (fail res 403 "Origin denied.") b None
    else if originNotAllowed env req then
      mkOutcome (fail res 403 "Origin not allowed.") b None
    else
      match missingRequiredHeader env req with
      | Some rh => mkOutcome (fail res 400 ("Missing required header: " +:+ rh)) b None
      | None =>
          if keyRejected env req then
            mkOutcome (fail res 401 "Invalid or missing API key.") b None
          else
            let ip := getClientIP req in
            let '(b, allowed) := rateLimitAllow env t ip b in
            if negb allowed then
              mkOutcome (fail res 429 "Rate limit exceeded. Try later.") b None
            else
              let target := getTargetFromRequest req in
              if negb (JS.truthy target) then
                mkOutcome
                  (fail res 400 "Provide a target URL via ?url= or path /api/proxy/<url>.")
                  b None
              else if negb (isHttpHttps target) then
                mkOutcome (fail res 400 "Only http(s) URLs are allowed.") b None
              else if isBlockedPrivateHost target then
                mkOutcome (fail res 403 "Target host is blocked.") b None
              else
                let method := JS.or_else (method req) "GET" in
                let upstreamHeaders := scrubRequestHeaders (headers req) in
                let body :=
                  if Set_has ["GET"; "HEAD"] method then None else Some (reqBody req) in
                let call :=
                  mkFetchRequest target method upstreamHeaders body RedirectManual in
                match fetch call with
                | Fulfilled up => mkOutcome (relay env req res up) b (Some call)
                | Rejected err =>
                    mkOutcome
                      (fail res 502 ("Upstream fetch failed: " +:+ errText err))
                      b (Some call)
                end
      end.

End WithHost.

End Proxy.

(** ** The serverless wrapper around cors-anywhere ([src/api/proxy.js]) *)

Module Wrapper.

Import Url.
Import Proxy.

Definition is_lineTerminator (c : ascii) : bool :=
  match c with "010" | "013" => true | _ => false end%char.

(** The longest prefix without a line terminator: what [.+] takes. *)
Fixpoint takeLine (s : string) : string :=
  match s with
  | EmptyString => EmptyString
  | String c s' => if is_lineTerminator c then EmptyString else String c (takeLine s')
  end.

(** The group [m[1]] of [s.match(/\/api\/proxy\/(.+)/)], [None] when
    there is no match: the leftmost occurrence of the prefix that is
    followed by a character of the line. *)
Fixpoint matchApiProxy (s : string) : option string :=
  let next := match s with
              | EmptyString => None
              | String _ s' => matchApiProxy s'
              end in
  match JS.stripPrefix s "/api/proxy/" with
  | Some rest => if JS.truthy (takeLine rest) then Some (takeLine rest) else next
  | None => next
  end.

Section WithHost.

Context `{host : Host}.

(** [None] when [new URL] throws. *)
Definition makeCorsAnywherePath (req : Request) : option string :=
  u ← URL_new (url req) (Some "http://local");
  let target := searchParams_get u "url" in
  let target :=
    if JS.truthy (default EmptyString target) then target
    else
      match matchApiProxy (pathname u) with
      | Some m1 => Some (default m1 (decodeURIComponent m1))
      | None => target
      end in
  let target := default EmptyString target in
  Some
    (if negb (JS.truthy target) then EmptyString
     else if negb (Regex.testi
                     (Regex.Seq (Regex.Lit "http")
                        (Regex.Seq (Regex.Opt (Regex.Lit "s")) (Regex.Lit "://")))
                     target)
          then EmptyString
          else "/" +:+ target).

(** What the exported function does with a request: it answers
    itself, or hands the request with the rewritten [url] to the
    cors-anywhere server. *)
Inductive Result : Type :=
| Responded (res : Response)
| Delegated (path : string).

Definition module_exports (req : Request) (res : Response) : option Result :=
  pathForCorsAnywhere ← makeCorsAnywherePath req;
  Some
    (if negb (JS.truthy pathForCorsAnywhere) then
       Responded
         (end_
            (JS.stringify
               [("error",
                 "Provide target via ?url= or /api/proxy/<url>, only http(s) allowed.")])
            (setHeader "Content-Type" "application/json; charset=utf-8"
               (setStatus 400 res)))
     else Delegated pathForCorsAnywhere).

End WithHost.

End Wrapper.

(** ** Scenarios

    Concrete configurations, requests and upstream answers on which the
    programs are run below. *)

Module Scenario.

Import Proxy.

(** A request with the given method, request target and headers, from a
    socket without a peer address and with an empty body. *)
Definition request (m u : string) (hs : list (string * string)) : Request :=
  mkRequest m u (list_to_map hs) None EmptyString.

(** [GET /api/proxy?url=<target>], the target given percent-encoded. *)
Definition get (encodedTarget : string) : Request :=
  request "GET" ("/api/proxy?url=" +:+ encodedTarget) [].

(** An upstream that answers every call with [200] and the body [ok]. *)
Definition upstreamOk (call : FetchRequest) : FetchResult :=
  Fulfilled (mkUpstream 200 [("content-type", "text/plain")] (inl "ok")).

(** An upstream that cannot be reached. *)
Definition upstreamDown (call : FetchRequest) : FetchResult :=
  Rejected (mkJsError "TypeError" "fetch failed").

Definition withCredentials : Env :=
  mkEnv EmptyString EmptyString EmptyString EmptyString "600" "true" "0".

Definition withMaxAge (age : string) : Env :=
  mkEnv EmptyString EmptyString EmptyString EmptyString age "false" "0".

Definition withRateLimit (limit : string) : Env :=
  mkEnv EmptyString EmptyString EmptyString EmptyString "600" "false" limit.

(** The status, the payload and the target of the upstream call of an
    outcome. *)
Definition summary (o : Outcome) : Z * option string * option string :=
  (statusCode (outRes o), sent (outRes o), fTarget <$> outFetched o).

(** An upstream that answers with the given status, headers and body. *)
Definition upstreamAnswers (status : Z) (hs : list (string * string)) (body : string)
    (call : FetchRequest) : FetchResult :=
  Fulfilled (mkUpstream status hs (inl body)).

(** A locked-down configuration: a deny list, an allow list, a required
    header, an API key and a rate limit of one request. *)
Definition lockedDown : Env :=
  mkEnv "https://app.example" "https://evil.example" "x-requested-with" "s3cret"
    "600" "false" "1".

(** A bucket in which the fallback address has used up its budget. *)
Definition exhausted : gmap string Rec :=
  {[ "0.0.0.0" := mkRec 5 600000 ]}.

(** A preflight from a denied origin, without key or required header. *)
Definition evilPreflight : Request :=
  request "OPTIONS" "/api/proxy?url=https%3A%2F%2Fexample.com%2F"
    [("origin", "https://evil.example"); ("access-control-request-headers", "x-custom")].

(** The same preflight sent with the key and the required header. *)
Definition keyedPreflight : Request :=
  request "OPTIONS" "/api/proxy?url=https%3A%2F%2Fexample.com%2F"
    [("origin", "https://evil.example"); ("access-control-request-headers", "x-custom");
     ("x-proxy-key", "s3cret"); ("x-requested-with", "XMLHttpRequest")].

(** A request for [https://example.com/] that names its client address
    in [x-real-ip]. *)
Definition from (ip : string) : Request :=
  request "GET" "/api/proxy?url=https%3A%2F%2Fexample.com%2F" [("x-real-ip", ip)].




Definition upstreamBreaks (call : FetchRequest) : FetchResult :=
  Fulfilled
    (mkUpstream 200 [("content-length", "1000"); ("etag", "abc")]
       (inr (mkJsError "TypeError" "terminated"))).

End Scenario.

(** ** Vocabulary of the statements *)

Module Spec.

Import Proxy.

(** The response carries the proxy's CORS headers for the request. *)
Definition corsHeaders (env : Env) (req : Request) (res : Response) : Prop :=
  getHeader "Access-Control-Expose-Headers" res = Some "*"
  /\ if credentials env then
       getHeader "Access-Control-Allow-Origin" res
         = Some (JS.opt_or (headers req !! "origin") "*")
       /\ getHeader "Vary" res = Some "Origin"
       /\ getHeader "Access-Control-Allow-Credentials" res = Some "true"
     else getHeader "Access-Control-Allow-Origin" res = Some "*".

(** The lower-case names of the headers [reflectCors] sets. *)
Definition corsNames : list string :=
  ["access-control-allow-origin"; "vary"; "access-control-allow-credentials";
   "access-control-expose-headers"].

(** The response has been ended with a JSON object whose only field is
    [error], and is declared as JSON. *)
Definition jsonError (res : Response) : Prop :=
  (exists msg, sent res = Some (JS.stringify [("error", msg)]))
  /\ getHeader "Content-Type" res = Some "application/json; charset=utf-8".

(** Every run of [handler] ends in one of four ways: the preflight, an
    error found before any upstream call, an upstream call that fails, or
    the relay of the upstream response. *)
Inductive Exit (env : Env) (fetch : FetchRequest -> FetchResult)
    (req : Request) (res : Response) (o : Outcome) : Prop :=
| ExitPreflight :
    method req = "OPTIONS" ->
    outRes o = preflight env req (reflectCors env req res) ->
    outFetched o = None ->
    Exit env fetch req res o
| ExitRejected code msg :
    method req <> "OPTIONS" ->
    code ∈ [400; 401; 403; 429]%Z ->
    outRes o = fail (reflectCors env req res) code msg ->
    outFetched o = None ->
    Exit env fetch req res o
| ExitUpstreamFailed call err :
    method req <> "OPTIONS" ->
    fetch call = Rejected err ->
    outRes o = fail (reflectCors env req res) 502 ("Upstream fetch failed: " +:+ errText err) ->
    outFetched o = Some call ->
    Exit env fetch req res o
| ExitRelayed call up :
    method req <> "OPTIONS" ->
    fetch call = Fulfilled up ->
    fRedirect call = RedirectManual ->
    outRes o = relay env req (reflectCors env req res) up ->
    outFetched o = Some call ->
    Exit env fetch req res o.

(** A call at time [t] opens a new window for [ip]: the bucket has no
    record for it, or the window of its record has elapsed. *)
Definition windowOpens (b : gmap string Rec) (ip : string) (t : Z) : Prop :=
  match b !! ip with
  | None => True
  | Some r => (t > reset r)%Z
  end.

(** The request is not a preflight and passes the four checks of the
    policy gate that come before the rate limit. *)
Definition gatePassed (env : Env) (req : Request) : bool :=
  negb (String.eqb (method req) "OPTIONS")
  && negb (originDenied env req)
  && negb (originNotAllowed env req)
  && bool_decide (missingRequiredHeader env req = None)
  && negb (keyRejected env req).

(** The request passes these checks and names a target the validator
    accepts. *)
Definition admissible `{host : Host} (env : Env) (req : Request) : bool :=
  gatePassed env req
  && JS.truthy (getTargetFromRequest req)
  && isHttpHttps (getTargetFromRequest req)
  && negb (isBlockedPrivateHost (getTargetFromRequest req)).

(** An IPv4 address in dotted decimal, as the host serialises it. *)
Definition dec (n : nat) : string := NilZero.string_of_uint (Nat.to_uint n).

Definition dottedQuad (a b c d : nat) : string :=
  dec a +:+ "." +:+ dec b +:+ "." +:+ dec c +:+ "." +:+ dec d.

(** The upstream call the handler makes for an admissible request. *)
Definition upstreamCall `{host : Host} (req : Request) : FetchRequest :=
  let m := JS.or_else (method req) "GET" in
  mkFetchRequest (getTargetFromRequest req) m (scrubRequestHeaders (headers req))
    (if Set_has ["GET"; "HEAD"] m then None else Some (reqBody req)) RedirectManual.

(** The value of the last entry of [l] whose name satisfies [p]. *)
Fixpoint lastMatch (p : string -> bool) (l : list (string * string)) : option string :=
  match l with
  | [] => None
  | kv :: l' =>
      match lastMatch p l' with
      | Some v => Some v
      | None => if p (fst kv) then Some (snd kv) else None
      end
  end.

(** The value of the header [k] in a list of entries: the last one wins. *)
Definition lastValue (k : string) (l : list (string * string)) : option string :=
  lastMatch (String.eqb k) l.

(** The value [reflectCors] gives to the header of lower-case name [ln],
    if it sets it. *)
Definition corsValue (env : Env) (req : Request) (ln : string) : option string :=
  if String.eqb ln "access-control-expose-headers" then Some "*"
  else if credentials env then
    if String.eqb ln "access-control-allow-credentials" then Some "true"
    else if String.eqb ln "vary" then Some "Origin"
    else if String.eqb ln "access-control-allow-origin"
         then Some (JS.opt_or (headers req !! "origin") "*")
         else None
  else if String.eqb ln "access-control-allow-origin" then Some "*"
  else None.

(** [/^access-control-/i.test(k)] *)
Definition isAccessControl (k : string) : bool :=
  Regex.testi (Regex.Lit "access-control-") k.

(** The names of the [Headers] of a response are lower-case. *)
Definition lowerNames (l : list (string * string)) : Prop :=
  Forall (fun kv => JS.toLowerCase (fst kv) = fst kv) l.

(** The loop of [handler] that copies the scrubbed headers onto [res]. *)
Definition copyHeaders (l : list (string * string)) (res : Response) : Response :=
  fold_left
    (fun res kv => if isAccessControl (fst kv) then res else setHeader (fst kv) (snd kv) res)
    l res.

(** Whether the header of lower-case name [k] is dropped by
    [scrubResponseHeaders]. *)
Definition isHopByHop (k : string) : bool := Set_has hopByHopHeaders k.

(** The name on which an assignment defines no property. *)
Definition isProto (k : string) : bool := String.eqb k "__proto__".

End Spec.

(** ** The wrapper with health endpoints

    The first program of [src/unnamed/part_000]: the wrapper of
    [src/api/proxy.js] extended with health endpoints.  Its
    [makeCorsAnywherePath] is the one of [src/api/proxy.js]. *)

Module HealthWrapper.

Import Url.
Import Proxy.

(** [/^r$/.test(s)]: the match has to use up the subject. *)
Definition testWhole (r : Regex.regex) (s : string) : bool :=
  Regex.run false r s (fun rest => negb (JS.truthy rest)).

(** [/^\/health\/?$/], [/^\/api\/proxy\/?$/] and
    [/^\/api\/proxy\/health\/?$/] *)
Definition optionalSlash (path : string) : Regex.regex :=
  Regex.Seq (Regex.Lit path) (Regex.Opt (Regex.Lit "/")).

Definition healthObject : JS.jsobject :=
  [("status", "ok");
   ("name", "cors-anywhere-serverless");
   ("usage", "GET /api/proxy?url=<absolute-url> or /api/proxy/<encoded-absolute-url>");
   ("version", "1.0.0")].

Definition sendHealthJSON (res : Response) : Response :=
  end_ (JS.stringify healthObject)
    (setHeader "Content-Type" "application/json; charset=utf-8" (setStatus 200 res)).

Definition sendHealthText (res : Response) : Response :=
  end_ "ok" (setHeader "Content-Type" "text/plain; charset=utf-8" (setStatus 200 res)).

Definition errorObject : JS.jsobject :=
  [("error", "Provide target via ?url= or /api/proxy/<url>, only http(s) allowed.");
   ("example", "/api/proxy?url=https%3A%2F%2Fhttpbin.org%2Fget")].

Section WithHost.

Context `{host : Host}.

(** The exported function; [None] when [new URL] throws. *)
Definition module_exports (req : Request) (res : Response) : option Wrapper.Result :=
  url ← URL_new (url req) (Some "http://local");
  let pathname := pathname url in
  if String.eqb (method req) "GET" && String.eqb pathname "/" then
    Some (Wrapper.Responded (sendHealthJSON res))
  else if String.eqb (method req) "GET" && testWhole (optionalSlash "/health") pathname then
    Some (Wrapper.Responded (sendHealthText res))
  else if String.eqb (method req) "GET"
          && testWhole (optionalSlash "/api/proxy") pathname
          && negb (JS.truthy (default EmptyString (searchParams_get url "url"))) then
    Some (Wrapper.Responded (sendHealthJSON res))
  else if String.eqb (method req) "GET"
          && testWhole (optionalSlash "/api/proxy/health") pathname then
    Some (Wrapper.Responded (sendHealthText res))
  else
    pathForCorsAnywhere ← Wrapper.makeCorsAnywherePath req;
    Some
      (if negb (JS.truthy pathForCorsAnywhere) then
         Wrapper.Responded
           (end_ (JS.stringify errorObject)
              (setHeader "Content-Type" "application/json; charset=utf-8"
                 (setStatus 400 res)))
       else Wrapper.Delegated pathForCorsAnywhere).

End WithHost.

End HealthWrapper.

(** ** Vocabulary of the further statements *)

Module Laws.

Import Proxy.

(** [l.join(sep)] *)
Fixpoint join (sep : string) (l : list string) : string :=
  match l with
  | [] => EmptyString
  | [x] => x
  | x :: l' => x +:+ sep +:+ join sep l'
  end.

(** No character of [s] satisfies [p]. *)
Fixpoint free (p : ascii -> bool) (s : string) : bool :=
  match s with
  | EmptyString => true
  | String c s' => negb (p c) && free p s'
  end.

(** A list entry that [parseCSV] gives back as it is: not empty, without
    comma, without white space at either end. *)
Definition cleanEntry (x : string) : Prop :=
  x <> EmptyString /\ free (Ascii.eqb ",") x = true /\ JS.trim x = x.

(** The calls [rateLimitAllow(ip)] made at the times [ts], one after the
    other: the bucket after the last one and the answers. *)
Fixpoint replay (env : Env) (ip : string) (ts : list Z) (b : gmap string Rec)
    : gmap string Rec * list bool :=
  match ts with
  | [] => (b, [])
  | t :: ts' =>
      let '(b1, a) := rateLimitAllow env t ip b in
      let '(b2, answers) := replay env ip ts' b1 in
      (b2, a :: answers)
  end.

(** A header value that JavaScript takes as absent: [undefined] or the
    empty string. *)
Definition unusable (o : option string) : Prop :=
  o = None \/ o = Some EmptyString.

(** [req.headers["x-forwarded-for"]?.split(",")[0]?.trim()] *)
Definition firstForwarded (req : Request) : option string :=
  (fun v => JS.trim (hd EmptyString (JS.split "," v))) <$> headers req !! "x-forwarded-for".

End Laws.

(** * Properties *)

Import Url Proxy Spec.

(** ** Sanity checks of the primitives and of the reference host *)

Example parseInt_600 : JS.parseInt "600" = Some 600%Z.
Proof. reflexivity. Qed.

Example parseInt_junk : JS.parseInt " -12px" = Some (-12)%Z /\ JS.parseInt "abc" = None.
Proof. split; reflexivity. Qed.

Example String_600 : JS.String_ 600 = "600" /\ JS.String_ (-5) = "-5" /\ JS.String_ 0 = "0".
Proof. repeat split; reflexivity. Qed.

Example split_trim :
  JS.trim <$> JS.split "," "a, b ,,c " = ["a"; "b"; EmptyString; "c"].
Proof. reflexivity. Qed.

Example url_plain :
  URL_new "HTTP://Example.COM:8080/a/b?url=x%2Fy&z=1#f" None
  = Some (Url.mkURL "http:" "example.com" "/a/b" [("url", "x/y"); ("z", "1")]).
Proof. reflexivity. Qed.

Example url_ipv6 :
  Url.hostname <$> URL_new "http://[::1]:3000/admin" None = Some "[::1]".
Proof. reflexivity. Qed.

Example url_relative :
  URL_new "/api/proxy?url=https%3A%2F%2Fhttpbin.org%2Fget" (Some "http://x")
  = Some (Url.mkURL "http:" "x" "/api/proxy" [("url", "https://httpbin.org/get")]).
Proof. reflexivity. Qed.

Example url_failures :
  URL_new "not a url" None = None /\ URL_new "/api/proxy" None = None
  /\ URL_new "http://" None = None.
Proof. repeat split; reflexivity. Qed.

Example url_other_schemes :
  Url.protocol <$> URL_new "ftp://x/" None = Some "ftp:"
  /\ Url.protocol <$> URL_new "file:///etc/passwd" None = Some "file:"
  /\ Url.protocol <$> URL_new "javascript:alert(1)" None = Some "javascript:".
Proof. repeat split; reflexivity. Qed.

Example wrapper_delegates :
  Wrapper.module_exports
    (mkRequest "GET" "/api/proxy?url=https%3A%2F%2Fhttpbin.org%2Fget" ∅ None EmptyString)
    freshResponse
  = Some (Wrapper.Delegated "/https://httpbin.org/get").
Proof. reflexivity. Qed.

Example wrapper_path_style :
  Wrapper.makeCorsAnywherePath
    (mkRequest "GET" "/api/proxy/https%3A%2F%2Fhttpbin.org%2Fget" ∅ None EmptyString)
  = Some "/https://httpbin.org/get".
Proof. reflexivity. Qed.

(** ** Response headers *)

Lemma getHeader_setHeader_eq n n' v res :
  JS.toLowerCase n' = JS.toLowerCase n ->
  getHeader n (setHeader n' v res) = Some v.
Proof.
  intros Hn. unfold getHeader, setHeader; simpl.
  rewrite Hn, lookup_insert_eq. reflexivity.
Qed.

Lemma getHeader_setHeader_ne n n' v res :
  JS.toLowerCase n' <> JS.toLowerCase n ->
  getHeader n (setHeader n' v res) = getHeader n res.
Proof.
  intros Hn. unfold getHeader, setHeader; simpl.
  rewrite lookup_insert_ne by exact Hn. reflexivity.
Qed.

Lemma getHeader_setStatus n c res : getHeader n (setStatus c res) = getHeader n res.
Proof. reflexivity. Qed.

Lemma getHeader_end n p res : getHeader n (end_ p res) = getHeader n res.
Proof. reflexivity. Qed.

(** Reads a header through a stack of [setHeader] with literal names. *)
Ltac hdr :=
  repeat first
    [ rewrite getHeader_end
    | rewrite getHeader_setStatus
    | rewrite getHeader_setHeader_eq by reflexivity
    | rewrite getHeader_setHeader_ne by (vm_compute; discriminate) ].

Lemma getHeader_fail n res code msg :
  JS.toLowerCase n <> "content-type" ->
  getHeader n (fail res code msg) = getHeader n res.
Proof.
  intros Hn. unfold fail.
  rewrite getHeader_end, getHeader_setHeader_ne, getHeader_setStatus; [reflexivity|].
  intros E. apply Hn. rewrite <- E. reflexivity.
Qed.

Lemma fail_shape res code msg :
  statusCode (fail res code msg) = code
  /\ sent (fail res code msg) = Some (JS.stringify [("error", msg)])
  /\ getHeader "Content-Type" (fail res code msg) = Some "application/json; charset=utf-8".
Proof. unfold fail. repeat split. hdr. reflexivity. Qed.

(** ** The CORS headers of [reflectCors] *)

Lemma reflectCors_expose env req res :
  getHeader "Access-Control-Expose-Headers" (reflectCors env req res) = Some "*".
Proof. unfold reflectCors. hdr. reflexivity. Qed.

Lemma reflectCors_plain env req res :
  credentials env = false ->
  getHeader "Access-Control-Allow-Origin" (reflectCors env req res) = Some "*".
Proof. intros Hc. unfold reflectCors. rewrite Hc. hdr. reflexivity. Qed.

Lemma reflectCors_credentials env req res :
  credentials env = true ->
  getHeader "Access-Control-Allow-Origin" (reflectCors env req res)
    = Some (JS.opt_or (headers req !! "origin") "*")
  /\ getHeader "Vary" (reflectCors env req res) = Some "Origin"
  /\ getHeader "Access-Control-Allow-Credentials" (reflectCors env req res) = Some "true".
Proof.
  intros Hc. unfold reflectCors. rewrite Hc. repeat split; hdr; reflexivity.
Qed.

(** With credentials and a non-empty [Origin], the origin is echoed. *)
Lemma reflectCors_echo env req res o :
  credentials env = true ->
  headers req !! "origin" = Some o -> o <> EmptyString ->
  getHeader "Access-Control-Allow-Origin" (reflectCors env req res) = Some o.
Proof.
  intros Hc Ho Hne. destruct (reflectCors_credentials env req res Hc) as [-> _].
  rewrite Ho. destruct o; [congruence | reflexivity].
Qed.

(** ** Preflight *)

Section Preflight.

Context `{host : Host}.

Lemma handler_options env fetch t b req res :
  method req = "OPTIONS" ->
  handler env fetch t b req res
  = mkOutcome (preflight env req (reflectCors env req res)) b None.
Proof. intros Hm. unfold handler. rewrite Hm. reflexivity. Qed.

Lemma preflight_status env req res :
  statusCode (preflight env req res) = 204%Z
  /\ sent (preflight env req res) = Some EmptyString.
Proof. split; reflexivity. Qed.

Lemma preflight_methods env req res :
  getHeader "Access-Control-Allow-Methods" (preflight env req res)
  = Some "GET,HEAD,POST,PUT,PATCH,DELETE,OPTIONS".
Proof.
  unfold preflight. hdr.
  destruct (headers req !! "access-control-request-headers") as [v|];
    [destruct (JS.truthy v)|]; hdr; reflexivity.
Qed.

Lemma preflight_max_age env req res :
  getHeader "Access-Control-Max-Age" (preflight env req res)
  = Some (JS.String_ (JS.num_or (JS.parseInt (CORS_MAX_AGE env)) 600)).
Proof. unfold preflight. hdr. reflexivity. Qed.

Lemma preflight_echo env req res v :
  headers req !! "access-control-request-headers" = Some v ->
  v <> EmptyString ->
  getHeader "Access-Control-Allow-Headers" (preflight env req res) = Some v.
Proof.
  intros Hv Hne. unfold preflight. rewrite Hv.
  destruct v; [congruence|]. simpl JS.truthy. cbv iota. hdr. reflexivity.
Qed.

(** The preflight response reads the configuration only through
    [ENABLE_CREDENTIALS] and [CORS_MAX_AGE], and the request only through
    its [Origin] and [Access-Control-Request-Headers] headers. *)
Lemma preflight_depends env1 env2 req1 req2 res :
  ENABLE_CREDENTIALS env1 = ENABLE_CREDENTIALS env2 ->
  CORS_MAX_AGE env1 = CORS_MAX_AGE env2 ->
  headers req1 !! "origin" = headers req2 !! "origin" ->
  headers req1 !! "access-control-request-headers"
    = headers req2 !! "access-control-request-headers" ->
  preflight env1 req1 (reflectCors env1 req1 res)
  = preflight env2 req2 (reflectCors env2 req2 res).
Proof.
  intros Hc Ha Ho Hr. unfold preflight, reflectCors, credentials.
  rewrite Hc, Ha, Ho, Hr. reflexivity.
Qed.

End Preflight.

(** C5 (as stated, refuted): with [CORS_MAX_AGE=0] the preflight response
    announces a max-age of 600, not the configured 0; and an
    [Access-Control-Request-Headers] header that is present with an empty
    value is not echoed. *)
Lemma C5_counterexample :
  JS.parseInt (CORS_MAX_AGE (Scenario.withMaxAge "0")) = Some 0%Z
  /\ getHeader "Access-Control-Max-Age"
       (outRes (handler (Scenario.withMaxAge "0") Scenario.upstreamOk 0 ∅
                  (Scenario.request "OPTIONS" "/api/proxy" []) freshResponse))
     = Some "600"
  /\ headers (Scenario.request "OPTIONS" "/api/proxy"
                [("access-control-request-headers", EmptyString)])
       !! "access-control-request-headers" = Some EmptyString
  /\ getHeader "Access-Control-Allow-Headers"
       (outRes (handler Proxy.defaultEnv Scenario.upstreamOk 0 ∅
                  (Scenario.request "OPTIONS" "/api/proxy"
                     [("access-control-request-headers", EmptyString)])
                  freshResponse))
     = None.
Proof. repeat split; vm_compute; reflexivity. Qed.

(** C5 (amended): every OPTIONS request is answered with status 204 and
    an empty body, [Access-Control-Allow-Methods] is the fixed list, a
    non-empty [Access-Control-Request-Headers] value is echoed into
    [Access-Control-Allow-Headers], [Access-Control-Max-Age] is the
    configured value when [CORS_MAX_AGE] parses to a non-zero integer and
    600 otherwise (600 being also the default), no upstream call is made
    and the rate limit bucket is left as it was. *)
Theorem C5_preflight_response `{host : Host} env fetch t b req res :
  method req = "OPTIONS" ->
  let o := handler env fetch t b req res in
  statusCode (outRes o) = 204%Z
  /\ sent (outRes o) = Some EmptyString
  /\ getHeader "Access-Control-Allow-Methods" (outRes o)
     = Some "GET,HEAD,POST,PUT,PATCH,DELETE,OPTIONS"
  /\ (forall v, headers req !! "access-control-request-headers" = Some v ->
                v <> EmptyString ->
                getHeader "Access-Control-Allow-Headers" (outRes o) = Some v)
  /\ (forall n, JS.parseInt (CORS_MAX_AGE env) = Some n -> n <> 0%Z ->
                getHeader "Access-Control-Max-Age" (outRes o) = Some (JS.String_ n))
  /\ (JS.parseInt (CORS_MAX_AGE env) = None \/ JS.parseInt (CORS_MAX_AGE env) = Some 0%Z ->
      getHeader "Access-Control-Max-Age" (outRes o) = Some "600")
  /\ (CORS_MAX_AGE env = CORS_MAX_AGE defaultEnv ->
      getHeader "Access-Control-Max-Age" (outRes o) = Some "600")
  /\ outFetched o = None
  /\ outBucket o = b.
Proof.
  intros Hm o. subst o. rewrite (handler_options _ _ _ _ _ _ Hm). simpl.
  split; [reflexivity|]. split; [reflexivity|].
  split; [apply preflight_methods|].
  split; [intros v Hv Hne; exact (preflight_echo _ _ _ _ Hv Hne)|].
  split.
  { intros n Hn Hz. rewrite preflight_max_age, Hn. simpl.
    destruct (Z.eqb_spec n 0); [contradiction | reflexivity]. }
  split.
  { intros [Hn | Hn]; rewrite preflight_max_age, Hn; reflexivity. }
  split; [|split; reflexivity].
  intros Hd. rewrite preflight_max_age, Hd. reflexivity.
Qed.

(** The preflight theorem at a request that asks for [x-custom], with a
    max-age of one day. *)
Lemma C5_preflight_response_witness :
  method (Scenario.request "OPTIONS" "/api/proxy?url=https%3A%2F%2Fexample.com%2F"
            [("access-control-request-headers", "x-custom")]) = "OPTIONS"
  /\ statusCode
       (outRes (handler (Scenario.withMaxAge "86400") Scenario.upstreamOk 0 ∅
                  (Scenario.request "OPTIONS" "/api/proxy?url=https%3A%2F%2Fexample.com%2F"
                     [("access-control-request-headers", "x-custom")])
                  freshResponse)) = 204%Z.
Proof.
  split; [reflexivity|].
  exact (proj1 (C5_preflight_response (Scenario.withMaxAge "86400") Scenario.upstreamOk 0 ∅
                  (Scenario.request "OPTIONS" "/api/proxy?url=https%3A%2F%2Fexample.com%2F"
                     [("access-control-request-headers", "x-custom")])
                  freshResponse eq_refl)).
Defined.

(** The preflight of the specification's own test: [x-custom] is echoed. *)
Example preflight_x_custom :
  let o := handler defaultEnv Scenario.upstreamOk 0 ∅
             (Scenario.request "OPTIONS" "/api/proxy?url=https%3A%2F%2Fexample.com%2F"
                [("access-control-request-headers", "x-custom")])
             freshResponse in
  Scenario.summary o = (204%Z, Some EmptyString, None)
  /\ getHeader "Access-Control-Allow-Headers" (outRes o) = Some "x-custom"
  /\ getHeader "Access-Control-Max-Age" (outRes o) = Some "600".
Proof. repeat split; vm_compute; reflexivity. Qed.

(** ** The exits of [handler] *)

(** Decides a closed membership or non-membership in a list of strings. *)
Ltac decide_mem :=
  match goal with
  | |- ?P => apply (bool_decide_unpack P); vm_compute; exact I
  end.

Lemma corsHeaders_setHeader env req res n v :
  JS.toLowerCase n ∉ corsNames ->
  corsHeaders env req res -> corsHeaders env req (setHeader n v res).
Proof.
  intros Hn [He Ho].
  assert (forall m, JS.toLowerCase m ∈ corsNames ->
                    getHeader m (setHeader n v res) = getHeader m res) as Hget.
  { intros m Hm. apply getHeader_setHeader_ne. intros E. apply Hn. rewrite E. exact Hm. }
  unfold corsHeaders.
  rewrite !Hget by decide_mem.
  split; [exact He | exact Ho].
Qed.

Lemma corsHeaders_reflectCors env req res : corsHeaders env req (reflectCors env req res).
Proof.
  split; [apply reflectCors_expose|].
  destruct (credentials env) eqn:Hc.
  - apply reflectCors_credentials, Hc.
  - apply reflectCors_plain, Hc.
Qed.

Lemma corsHeaders_fail env req res code msg :
  corsHeaders env req res -> corsHeaders env req (fail res code msg).
Proof.
  intros H. unfold fail.
  assert (corsHeaders env req
            (setHeader "Content-Type" "application/json; charset=utf-8" (setStatus code res)))
    as [He Ho].
  { apply corsHeaders_setHeader; [decide_mem|]. exact H. }
  split; [exact He | exact Ho].
Qed.

Lemma corsHeaders_preflight env req res : corsHeaders env req (preflight env req res).
Proof.
  unfold preflight.
  assert (forall r, corsHeaders env req r -> corsHeaders env req (end_ EmptyString (setStatus 204 r)))
    as Hend by (intros r [He Ho]; split; [exact He | exact Ho]).
  apply Hend.
  apply corsHeaders_setHeader; [decide_mem|].
  assert (corsHeaders env req
            (setHeader "Access-Control-Allow-Methods" "GET,HEAD,POST,PUT,PATCH,DELETE,OPTIONS"
               (reflectCors env req res))) as H0.
  { apply corsHeaders_setHeader; [decide_mem|]. apply corsHeaders_reflectCors. }
  destruct (headers req !! "access-control-request-headers") as [v|]; [|exact H0].
  destruct (JS.truthy v); [|exact H0].
  apply corsHeaders_setHeader; [decide_mem | exact H0].
Qed.

Lemma jsonError_fail res code msg : jsonError (fail res code msg).
Proof.
  destruct (fail_shape res code msg) as (_ & Hs & Hc).
  split; [exists msg; exact Hs | exact Hc].
Qed.

Section Exits.

Context `{host : Host}.

Lemma corsHeaders_relay env req res up : corsHeaders env req (relay env req res up).
Proof.
  unfold relay. destruct (upBody up) as [buf | err].
  - destruct (corsHeaders_reflectCors env req
                (fold_left
                   (fun res kv =>
                      if Regex.testi (Regex.Lit "access-control-") (fst kv) then res
                      else setHeader (fst kv) (snd kv) res)
                   (scrubResponseHeaders (upHeaders up)) (setStatus (upStatus up) res)))
      as [He Ho].
    split; [exact He | exact Ho].
  - apply corsHeaders_fail, corsHeaders_reflectCors.
Qed.

Lemma handler_exit env fetch t b req res :
  Exit env fetch req res (handler env fetch t b req res).
Proof.
  unfold handler.
  destruct (String.eqb_spec (method req) "OPTIONS") as [Hm | Hm].
  { apply ExitPreflight; [exact Hm | reflexivity | reflexivity]. }
  destruct (originDenied env req).
  { eapply ExitRejected; [exact Hm | | reflexivity | reflexivity]. decide_mem. }
  destruct (originNotAllowed env req).
  { eapply ExitRejected; [exact Hm | | reflexivity | reflexivity]. decide_mem. }
  destruct (missingRequiredHeader env req) as [rh|].
  { eapply ExitRejected; [exact Hm | | reflexivity | reflexivity]. decide_mem. }
  destruct (keyRejected env req).
  { eapply ExitRejected; [exact Hm | | reflexivity | reflexivity]. decide_mem. }
  destruct (rateLimitAllow env t (getClientIP req) b) as [b' allowed].
  destruct allowed; simpl.
  2: { eapply ExitRejected; [exact Hm | | reflexivity | reflexivity]. decide_mem. }
  destruct (JS.truthy (getTargetFromRequest req)); simpl.
  2: { eapply ExitRejected; [exact Hm | | reflexivity | reflexivity]. decide_mem. }
  destruct (isHttpHttps (getTargetFromRequest req)); simpl.
  2: { eapply ExitRejected; [exact Hm | | reflexivity | reflexivity]. decide_mem. }
  destruct (isBlockedPrivateHost (getTargetFromRequest req)).
  { eapply ExitRejected; [exact Hm | | reflexivity | reflexivity]. decide_mem. }
  match goal with |- context [fetch ?c] => destruct (fetch c) as [err | up] eqn:Hf end.
  - eapply ExitUpstreamFailed; [exact Hm | exact Hf | reflexivity | reflexivity].
  - eapply ExitRelayed; [exact Hm | exact Hf | reflexivity | reflexivity | reflexivity].
Qed.

(** Whatever the exit, the response carries the CORS headers. *)
Lemma handler_corsHeaders env fetch t b req res :
  corsHeaders env req (outRes (handler env fetch t b req res)).
Proof.
  destruct (handler_exit env fetch t b req res)
    as [_ -> _ | ? ? _ _ -> _ | ? ? _ _ -> _ | ? ? _ _ _ -> _].
  - apply corsHeaders_preflight.
  - apply corsHeaders_fail, corsHeaders_reflectCors.
  - apply corsHeaders_fail, corsHeaders_reflectCors.
  - apply corsHeaders_relay.
Qed.

End Exits.

(** ** Credentials mode *)

(** With credentials enabled and no usable [Origin] header, the origin
    the proxy allows is the wildcard. *)
Lemma reflectCors_wildcard env req res :
  credentials env = true ->
  headers req !! "origin" = None \/ headers req !! "origin" = Some EmptyString ->
  getHeader "Access-Control-Allow-Origin" (reflectCors env req res) = Some "*".
Proof.
  intros Hc Ho. destruct (reflectCors_credentials env req res Hc) as [-> _].
  destruct Ho as [-> | ->]; reflexivity.
Qed.

(** C7 (the code departs from the claim): credentials mode is on and the
    request carries no [Origin] header; [reflectCors], and with it the
    response of [handler], sets [Access-Control-Allow-Origin] to the
    wildcard next to [Access-Control-Allow-Credentials: true]. *)
Theorem C7_wildcard_in_credentials_mode :
  credentials Scenario.withCredentials = true
  /\ headers (Scenario.get "https%3A%2F%2Fexample.com%2F") !! "origin" = None
  /\ getHeader "Access-Control-Allow-Origin"
       (reflectCors Scenario.withCredentials (Scenario.get "https%3A%2F%2Fexample.com%2F")
          freshResponse) = Some "*"
  /\ getHeader "Access-Control-Allow-Origin"
       (outRes (handler Scenario.withCredentials Scenario.upstreamOk 0 ∅
                  (Scenario.get "https%3A%2F%2Fexample.com%2F") freshResponse)) = Some "*"
  /\ getHeader "Access-Control-Allow-Credentials"
       (outRes (handler Scenario.withCredentials Scenario.upstreamOk 0 ∅
                  (Scenario.get "https%3A%2F%2Fexample.com%2F") freshResponse)) = Some "true".
Proof. repeat split; vm_compute; reflexivity. Qed.

(** ** Preflight comes before the policy gate *)

(** C10: an OPTIONS request is answered by the preflight before any check
    of the policy gate: two runs whose configurations agree on
    [ENABLE_CREDENTIALS] and [CORS_MAX_AGE] and whose requests agree on
    [Origin] and [Access-Control-Request-Headers] give the same 204
    response, whatever the deny and allow lists, the required headers,
    the API key, the other request headers, the clock and the rate limit
    bucket are; the bucket is not touched and nothing is fetched. *)
Theorem C10_preflight_ignores_policy `{host : Host}
    env1 env2 fetch1 fetch2 t1 t2 b1 b2 req1 req2 res :
  method req1 = "OPTIONS" -> method req2 = "OPTIONS" ->
  ENABLE_CREDENTIALS env1 = ENABLE_CREDENTIALS env2 ->
  CORS_MAX_AGE env1 = CORS_MAX_AGE env2 ->
  headers req1 !! "origin" = headers req2 !! "origin" ->
  headers req1 !! "access-control-request-headers"
    = headers req2 !! "access-control-request-headers" ->
  let o1 := handler env1 fetch1 t1 b1 req1 res in
  let o2 := handler env2 fetch2 t2 b2 req2 res in
  outRes o1 = outRes o2
  /\ statusCode (outRes o1) = 204%Z
  /\ outBucket o1 = b1 /\ outBucket o2 = b2
  /\ outFetched o1 = None /\ outFetched o2 = None.
Proof.
  intros Hm1 Hm2 Hc Ha Ho Hr o1 o2. subst o1 o2.
  rewrite (handler_options env1 _ _ _ _ _ Hm1), (handler_options env2 _ _ _ _ _ Hm2).
  simpl. split; [|repeat split].
  apply preflight_depends; assumption.
Qed.

(** A preflight from a denied origin against the locked-down
    configuration with an exhausted bucket gets the response the default
    configuration gives to the same preflight sent with key and required
    header. *)
Lemma C10_preflight_ignores_policy_witness :
  originDenied Scenario.lockedDown Scenario.evilPreflight = true
  /\ outRes (handler Scenario.lockedDown Scenario.upstreamOk 5 Scenario.exhausted
               Scenario.evilPreflight freshResponse)
     = outRes (handler defaultEnv Scenario.upstreamDown 0 ∅
                 Scenario.keyedPreflight freshResponse).
Proof.
  split; [reflexivity|].
  exact (proj1 (C10_preflight_ignores_policy
                  Scenario.lockedDown defaultEnv Scenario.upstreamOk Scenario.upstreamDown
                  5%Z 0%Z Scenario.exhausted ∅
                  Scenario.evilPreflight Scenario.keyedPreflight freshResponse
                  eq_refl eq_refl eq_refl eq_refl eq_refl eq_refl)).
Defined.

(** ** Error responses *)

Section Errors.

Context `{host : Host}.

Lemma relay_body_failure env req res up err :
  upBody up = inr err ->
  statusCode (relay env req res up) = 502%Z /\ jsonError (relay env req res up).
Proof.
  intros Hb. unfold relay. rewrite Hb. split; [reflexivity | apply jsonError_fail].
Qed.

(** The wrapper answers itself only with its 400 error, which sets the
    status, the content type and the payload, and nothing else. *)
Lemma module_exports_responded req res r :
  Wrapper.module_exports req res = Some (Wrapper.Responded r) ->
  r = end_
        (JS.stringify
           [("error", "Provide target via ?url= or /api/proxy/<url>, only http(s) allowed.")])
        (setHeader "Content-Type" "application/json; charset=utf-8" (setStatus 400 res)).
Proof.
  unfold Wrapper.module_exports.
  destruct (Wrapper.makeCorsAnywherePath req) as [p|]; simpl; [|discriminate].
  destruct (JS.truthy p); simpl; intros E; inversion E; reflexivity.
Qed.

End Errors.

(** C8 (as stated, refuted): the 400 error of the wrapper, for a missing
    target as for a target that is not http(s), carries no CORS header. *)
Lemma C8_counterexample :
  (exists r,
      Wrapper.module_exports (Scenario.request "GET" "/api/proxy" []) freshResponse
      = Some (Wrapper.Responded r)
      /\ statusCode r = 400%Z
      /\ getHeader "Access-Control-Allow-Origin" r = None
      /\ getHeader "Access-Control-Expose-Headers" r = None)
  /\ (exists r,
      Wrapper.module_exports (Scenario.request "GET" "/api/proxy?url=ftp%3A%2F%2Fx%2F" [])
        freshResponse
      = Some (Wrapper.Responded r)
      /\ statusCode r = 400%Z
      /\ getHeader "Access-Control-Allow-Origin" r = None).
Proof.
  split; eexists; (split; [vm_compute; reflexivity|]); repeat split; vm_compute; reflexivity.
Qed.

(** C8 (amended): every error response of the stand-alone [handler] (the
    400, 401, 403 and 429 it answers before any upstream call, and the
    502 after a failed upstream call or a failed read of the upstream
    body) is a JSON object with the single field [error] and carries the
    CORS headers; the wrapper's own 400 error is such a JSON object too,
    but the wrapper adds no header besides [Content-Type] to it. *)
Theorem C8_error_responses `{host : Host} :
  (forall env fetch t b req res,
      let o := handler env fetch t b req res in
      corsHeaders env req (outRes o)
      /\ (method req <> "OPTIONS" -> outFetched o = None ->
          statusCode (outRes o) ∈ [400; 401; 403; 429]%Z /\ jsonError (outRes o))
      /\ (forall call err, outFetched o = Some call -> fetch call = Rejected err ->
          statusCode (outRes o) = 502%Z /\ jsonError (outRes o))
      /\ (forall call up err, outFetched o = Some call -> fetch call = Fulfilled up ->
          upBody up = inr err ->
          statusCode (outRes o) = 502%Z /\ jsonError (outRes o)))
  /\ (forall req res r,
      Wrapper.module_exports req res = Some (Wrapper.Responded r) ->
      statusCode r = 400%Z
      /\ jsonError r
      /\ resHeaders r
         = <["content-type" := ("Content-Type", "application/json; charset=utf-8")]>
             (resHeaders res)).
Proof.
  split.
  - intros env fetch t b req res o. subst o.
    split; [apply handler_corsHeaders|].
    destruct (handler_exit env fetch t b req res)
      as [Hm Hr Hf | code msg Hm Hc Hr Hf | call' err' Hm Hc Hr Hf | call' up' Hm Hc _ Hr Hf];
      rewrite Hr, Hf.
    + split; [intros Hn; contradiction|]. split; intros; discriminate.
    + split.
      { intros _ _. split; [exact Hc | apply jsonError_fail]. }
      split; intros; discriminate.
    + split; [intros _ E; discriminate|]. split.
      * intros call err E _. split; [reflexivity | apply jsonError_fail].
      * intros call up err E Hful. inversion E; subst call. congruence.
    + split; [intros _ E; discriminate|]. split.
      * intros call err E Hrej. inversion E; subst call. congruence.
      * intros call up err E Hful Hb. inversion E; subst call.
        assert (up = up') as -> by congruence.
        apply relay_body_failure with (err := err). exact Hb.
  - intros req res r Hr. apply module_exports_responded in Hr. subst r.
    split; [reflexivity|]. split; [|reflexivity].
    split; [eexists; reflexivity|]. hdr. reflexivity.
Qed.

(** The error of a request for an [ftp] target: JSON, with the CORS
    headers. *)
Lemma C8_error_responses_witness :
  method (Scenario.get "ftp%3A%2F%2Fx%2F") <> "OPTIONS"
  /\ outFetched (handler defaultEnv Scenario.upstreamOk 0 ∅
                   (Scenario.get "ftp%3A%2F%2Fx%2F") freshResponse) = None
  /\ jsonError (outRes (handler defaultEnv Scenario.upstreamOk 0 ∅
                          (Scenario.get "ftp%3A%2F%2Fx%2F") freshResponse))
  /\ corsHeaders defaultEnv (Scenario.get "ftp%3A%2F%2Fx%2F")
       (outRes (handler defaultEnv Scenario.upstreamOk 0 ∅
                  (Scenario.get "ftp%3A%2F%2Fx%2F") freshResponse)).
Proof.
  assert (method (Scenario.get "ftp%3A%2F%2Fx%2F") <> "OPTIONS") as Hm by discriminate.
  assert (outFetched (handler defaultEnv Scenario.upstreamOk 0 ∅
                        (Scenario.get "ftp%3A%2F%2Fx%2F") freshResponse) = None)
    as Hf by reflexivity.
  destruct (proj1 C8_error_responses defaultEnv Scenario.upstreamOk 0%Z ∅
              (Scenario.get "ftp%3A%2F%2Fx%2F") freshResponse) as (Hcors & Hrej & _).
  destruct (Hrej Hm Hf) as [_ Hjson].
  split; [exact Hm|]. split; [exact Hf|]. split; [exact Hjson | exact Hcors].
Defined.

Example handler_errors_run :
  Scenario.summary (handler defaultEnv Scenario.upstreamOk 0 ∅
                      (Scenario.get "ftp%3A%2F%2Fx%2F") freshResponse)
  = (400%Z, Some (JS.stringify [("error", "Only http(s) URLs are allowed.")]), None)
  /\ Scenario.summary (handler defaultEnv Scenario.upstreamDown 0 ∅
                      (Scenario.get "https%3A%2F%2Fexample.com%2F") freshResponse)
  = (502%Z, Some (JS.stringify [("error", "Upstream fetch failed: fetch failed")]),
     Some "https://example.com/").
Proof. split; vm_compute; reflexivity. Qed.

(** ** The policy gate *)

Lemma method_not_options req :
  method req <> "OPTIONS" -> String.eqb (method req) "OPTIONS" = false.
Proof.
  intros Hm. destruct (String.eqb_spec (method req) "OPTIONS"); [contradiction | reflexivity].
Qed.

Lemma originNotAllowed_empty env req :
  allowlist env = [] -> originNotAllowed env req = false.
Proof. intros Ha. unfold originNotAllowed. rewrite Ha. reflexivity. Qed.

Lemma originDenied_empty env req :
  denylist env = [] -> originDenied env req = false.
Proof. intros Ha. unfold originDenied. rewrite Ha. reflexivity. Qed.

(** *** What the checks of the gate test *)

Lemma Set_has_true s x : Set_has s x = true <-> x ∈ s.
Proof.
  unfold Set_has. rewrite existsb_exists. split.
  - intros (y & Hin & E). apply String.eqb_eq in E. subst y.
    apply list_elem_of_In. exact Hin.
  - intros Hin. exists x. split; [apply list_elem_of_In, Hin | apply String.eqb_refl].
Qed.

Lemma Set_new_fold l : forall acc x,
  x ∈ fold_left Set_add l acc <-> x ∈ acc \/ x ∈ l.
Proof.
  induction l as [|a l IH]; intros acc x; simpl.
  - rewrite elem_of_nil. tauto.
  - rewrite IH, elem_of_cons. unfold Set_add.
    destruct (Set_has acc a) eqn:Ha.
    + apply Set_has_true in Ha. split; [tauto|].
      intros [H | [-> | H]]; tauto.
    + rewrite elem_of_app, list_elem_of_singleton. tauto.
Qed.

(** A [Set] built from a list has the elements of the list. *)
Lemma Set_new_elem l x : x ∈ Set_new l <-> x ∈ l.
Proof. unfold Set_new. rewrite Set_new_fold, elem_of_nil. tauto. Qed.

Lemma Set_size_true (s : list string) : Set_size s = true <-> s <> [].
Proof. destruct s; simpl; split; congruence. Qed.

(** The deny list check fails when the lower-cased origin is one of the
    entries of [ORIGIN_DENYLIST]. *)
Lemma originDenied_iff env req :
  originDenied env req = true <-> requestOrigin req ∈ parseCSV (ORIGIN_DENYLIST env).
Proof.
  unfold originDenied, denylist.
  rewrite andb_true_iff, Set_has_true, Set_new_elem, Set_size_true. split; [tauto|].
  intros Hin. split; [|exact Hin].
  intros E. apply Set_new_elem in Hin. rewrite E in Hin. apply elem_of_nil in Hin. exact Hin.
Qed.

(** The allow list check fails when the allow list has entries and the
    lower-cased origin is none of them. *)
Lemma originNotAllowed_iff env req :
  originNotAllowed env req = true
  <-> parseCSV (ORIGIN_ALLOWLIST env) <> []
      /\ requestOrigin req ∉ parseCSV (ORIGIN_ALLOWLIST env).
Proof.
  unfold originNotAllowed, allowlist.
  rewrite andb_true_iff, negb_true_iff, Set_size_true, <- not_true_iff_false, Set_has_true,
    Set_new_elem.
  assert (Set_new (parseCSV (ORIGIN_ALLOWLIST env)) <> []
          <-> parseCSV (ORIGIN_ALLOWLIST env) <> []) as ->; [|tauto].
  destruct (parseCSV (ORIGIN_ALLOWLIST env)) as [|a l] eqn:El.
  - split; intros H; contradiction H; reflexivity.
  - split; intros _; [discriminate|].
    intros E. assert (a ∈ Set_new (a :: l)) as Hin by (apply Set_new_elem; left).
    rewrite E in Hin. apply elem_of_nil in Hin. exact Hin.
Qed.

Lemma hasProperty_true k (m : gmap string string) :
  hasProperty k m = true <-> is_Some (m !! k) \/ k ∈ objectPrototypeKeys.
Proof.
  unfold hasProperty. rewrite orb_true_iff, bool_decide_eq_true, Set_has_true. tauto.
Qed.

(** The required header reported missing is one of [REQUIRE_HEADER],
    lower-cased, and is neither a key of the request headers nor a name
    inherited from [Object.prototype]. *)
Lemma missingRequiredHeader_Some env req rh :
  missingRequiredHeader env req = Some rh ->
  rh ∈ JS.toLowerCase <$> parseCSV (REQUIRE_HEADER env)
  /\ headers req !! rh = None
  /\ rh ∉ objectPrototypeKeys.
Proof.
  unfold missingRequiredHeader, requiredHeaders. intros Hf.
  apply find_some in Hf as [Hin Hp].
  split; [apply Set_new_elem, list_elem_of_In, Hin|].
  apply negb_true_iff, not_true_iff_false in Hp. rewrite hasProperty_true in Hp.
  split.
  - destruct (headers req !! rh) eqn:E; [|reflexivity].
    exfalso. apply Hp. left. eexists. reflexivity.
  - intros Hin'. apply Hp. right. exact Hin'.
Qed.

Lemma missingRequiredHeader_None env req :
  missingRequiredHeader env req = None
  <-> forall rh, rh ∈ JS.toLowerCase <$> parseCSV (REQUIRE_HEADER env) ->
                 hasProperty rh (headers req) = true.
Proof.
  unfold missingRequiredHeader, requiredHeaders. split.
  - intros Hf rh Hin.
    apply Set_new_elem, list_elem_of_In in Hin.
    pose proof (find_none _ _ Hf rh Hin) as Hp. cbv beta in Hp.
    apply negb_false_iff in Hp. exact Hp.
  - intros Hall.
    destruct (List.find _ _) as [rh|] eqn:Hf; [|reflexivity].
    apply find_some in Hf as [Hin Hp].
    apply negb_true_iff in Hp.
    rewrite (Hall rh) in Hp by (apply Set_new_elem, list_elem_of_In, Hin). discriminate.
Qed.

(** The key check fails when a key is configured and the [x-proxy-key]
    header is not equal to it. *)
Lemma keyRejected_iff env req :
  keyRejected env req = true
  <-> API_KEY env <> EmptyString
      /\ JS.opt_or (headers req !! "x-proxy-key") EmptyString <> API_KEY env.
Proof.
  unfold keyRejected. rewrite andb_true_iff, negb_true_iff, String.eqb_neq.
  destruct (API_KEY env); simpl; split; intros [H1 H2]; split; congruence.
Qed.

(** C3: for a request that is not OPTIONS the checks of the policy gate
    run in the order deny list (403), allow list (403, not applied when
    the allow list is empty), required headers (400, for the first
    missing one), API key (401), rate limit (429).  The first check that
    fails decides the response; when it is one of the first four, the
    rate limit bucket is left as it was, so the later checks did not run;
    in no case is anything fetched. *)
Theorem C3_policy_gate_order `{host : Host} env fetch t b req res :
  method req <> "OPTIONS" ->
  let o := handler env fetch t b req res in
  let res0 := reflectCors env req res in
  (originDenied env req = true ->
   outRes o = fail res0 403 "Origin denied." /\ statusCode (outRes o) = 403%Z
   /\ outBucket o = b /\ outFetched o = None)
  /\ (allowlist env = [] -> originNotAllowed env req = false)
  /\ (originDenied env req = false -> originNotAllowed env req = true ->
      outRes o = fail res0 403 "Origin not allowed." /\ statusCode (outRes o) = 403%Z
      /\ outBucket o = b /\ outFetched o = None)
  /\ (forall rh,
      originDenied env req = false -> originNotAllowed env req = false ->
      missingRequiredHeader env req = Some rh ->
      outRes o = fail res0 400 ("Missing required header: " +:+ rh)
      /\ statusCode (outRes o) = 400%Z
      /\ outBucket o = b /\ outFetched o = None)
  /\ (originDenied env req = false -> originNotAllowed env req = false ->
      missingRequiredHeader env req = None -> keyRejected env req = true ->
      outRes o = fail res0 401 "Invalid or missing API key."
      /\ statusCode (outRes o) = 401%Z
      /\ outBucket o = b /\ outFetched o = None)
  /\ (originDenied env req = false -> originNotAllowed env req = false ->
      missingRequiredHeader env req = None -> keyRejected env req = false ->
      snd (rateLimitAllow env t (getClientIP req) b) = false ->
      outRes o = fail res0 429 "Rate limit exceeded. Try later."
      /\ statusCode (outRes o) = 429%Z
      /\ outBucket o = fst (rateLimitAllow env t (getClientIP req) b)
      /\ outFetched o = None).
Proof.
  intros Hm o res0. subst o res0. unfold handler.
  rewrite (method_not_options req Hm).
  split; [intros ->; repeat split|].
  split; [apply originNotAllowed_empty|].
  split; [intros -> ->; repeat split|].
  split; [intros rh -> -> ->; repeat split|].
  split; [intros -> -> -> ->; repeat split|].
  intros -> -> -> ->.
  destruct (rateLimitAllow env t (getClientIP req) b) as [b' allowed]; simpl.
  intros ->. repeat split.
Qed.

(** A request from an origin that is both denied and not allowed: the
    deny list, which comes first, decides. *)
Lemma C3_policy_gate_order_witness :
  method (Scenario.request "GET" "/api/proxy?url=https%3A%2F%2Fexample.com%2F"
            [("origin", "https://evil.example")]) <> "OPTIONS"
  /\ originDenied Scenario.lockedDown
       (Scenario.request "GET" "/api/proxy?url=https%3A%2F%2Fexample.com%2F"
          [("origin", "https://evil.example")]) = true
  /\ originNotAllowed Scenario.lockedDown
       (Scenario.request "GET" "/api/proxy?url=https%3A%2F%2Fexample.com%2F"
          [("origin", "https://evil.example")]) = true
  /\ statusCode
       (outRes (handler Scenario.lockedDown Scenario.upstreamOk 0 ∅
                  (Scenario.request "GET" "/api/proxy?url=https%3A%2F%2Fexample.com%2F"
                     [("origin", "https://evil.example")])
                  freshResponse)) = 403%Z
  /\ sent
       (outRes (handler Scenario.lockedDown Scenario.upstreamOk 0 ∅
                  (Scenario.request "GET" "/api/proxy?url=https%3A%2F%2Fexample.com%2F"
                     [("origin", "https://evil.example")])
                  freshResponse)) = Some (JS.stringify [("error", "Origin denied.")]).
Proof.
  assert (method (Scenario.request "GET" "/api/proxy?url=https%3A%2F%2Fexample.com%2F"
                    [("origin", "https://evil.example")]) <> "OPTIONS") as Hm by discriminate.
  destruct (proj1 (C3_policy_gate_order Scenario.lockedDown Scenario.upstreamOk 0%Z ∅
                     (Scenario.request "GET" "/api/proxy?url=https%3A%2F%2Fexample.com%2F"
                        [("origin", "https://evil.example")])
                     freshResponse Hm) eq_refl) as (Hres & Hst & _).
  split; [exact Hm|]. split; [reflexivity|]. split; [reflexivity|].
  split; [exact Hst|]. rewrite Hres. reflexivity.
Defined.

(** The gate on the locked-down configuration, check by check: a denied
    origin, an origin that is not allowed, a missing required header, a
    wrong key, an exhausted budget, and a request that passes. *)
Example gate_runs :
  let run hs b :=
    let o := handler Scenario.lockedDown Scenario.upstreamOk 0 b
               (Scenario.request "GET" "/api/proxy?url=https%3A%2F%2Fexample.com%2F" hs)
               freshResponse in
    (statusCode (outRes o), outBucket o) in
  run [("origin", "https://evil.example")] ∅ = (403%Z, ∅)
  /\ run [("origin", "https://other.example")] ∅ = (403%Z, ∅)
  /\ run [("origin", "https://app.example")] ∅ = (400%Z, ∅)
  /\ run [("origin", "https://app.example"); ("x-requested-with", "1")] ∅ = (401%Z, ∅)
  /\ run [("origin", "https://app.example"); ("x-requested-with", "1");
          ("x-proxy-key", "s3cret")] Scenario.exhausted
     = (429%Z, {[ "0.0.0.0" := mkRec 6 600000 ]})
  /\ run [("origin", "https://app.example"); ("x-requested-with", "1");
          ("x-proxy-key", "s3cret")] ∅
     = (200%Z, {[ "0.0.0.0" := mkRec 1 600000 ]}).
Proof. repeat split; vm_compute; reflexivity. Qed.

(** ** Rate limiting *)

Lemma rateLimitAllow_opens env t ip b :
  rateLimitMax env <> 0%Z -> windowOpens b ip t ->
  rateLimitAllow env t ip b
  = (<[ip := mkRec 1 (t + WINDOW_MS)]> b, (1 <=? rateLimitMax env)%Z).
Proof.
  intros Hmax Hopen. unfold rateLimitAllow, windowOpens in *.
  destruct (Z.eqb_spec (rateLimitMax env) 0) as [E | _]; [contradiction|].
  destruct (b !! ip) as [r|]; simpl.
  - destruct (Z.gtb_spec t (reset r)) as [_ | Hle]; [reflexivity | lia].
  - destruct (Z.gtb_spec t (t + WINDOW_MS)) as [Hgt | _]; [|reflexivity].
    unfold WINDOW_MS in Hgt. lia.
Qed.

Lemma rateLimitAllow_within env t ip b r :
  rateLimitMax env <> 0%Z -> b !! ip = Some r -> (t <= reset r)%Z ->
  rateLimitAllow env t ip b
  = (<[ip := mkRec (count r + 1) (reset r)]> b, (count r + 1 <=? rateLimitMax env)%Z).
Proof.
  intros Hmax Hr Ht. unfold rateLimitAllow.
  destruct (Z.eqb_spec (rateLimitMax env) 0) as [E | _]; [contradiction|].
  rewrite Hr; simpl.
  destruct (Z.gtb_spec t (reset r)) as [Hgt | _]; [lia | reflexivity].
Qed.

(** A call for one address leaves the records of the others alone. *)
Lemma rateLimitAllow_other env t ip ip' b :
  ip <> ip' -> fst (rateLimitAllow env t ip b) !! ip' = b !! ip'.
Proof.
  intros Hne. unfold rateLimitAllow.
  destruct (rateLimitMax env =? 0)%Z; simpl; [reflexivity|].
  apply lookup_insert_ne, Hne.
Qed.

(** The answer for an address depends on its own record only. *)
Lemma rateLimitAllow_answer env t ip b1 b2 :
  b1 !! ip = b2 !! ip ->
  snd (rateLimitAllow env t ip b1) = snd (rateLimitAllow env t ip b2).
Proof.
  intros Hb. unfold rateLimitAllow.
  destruct (rateLimitMax env =? 0)%Z; simpl; [reflexivity|].
  rewrite Hb. reflexivity.
Qed.

Lemma statusCode_reflectCors env req res :
  statusCode (reflectCors env req res) = statusCode res.
Proof. unfold reflectCors. destruct (credentials env); reflexivity. Qed.

Lemma statusCode_copy (hs : list (string * string)) res :
  statusCode
    (fold_left
       (fun res kv =>
          if Regex.testi (Regex.Lit "access-control-") (fst kv) then res
          else setHeader (fst kv) (snd kv) res)
       hs res)
  = statusCode res.
Proof.
  revert res. induction hs as [|kv hs IH]; intros res; simpl; [reflexivity|].
  rewrite IH. destruct (Regex.testi _ _); reflexivity.
Qed.

(** The relay passes on the status and the body of the upstream. *)
Lemma relay_status_body env req res up buf :
  upBody up = inl buf ->
  statusCode (relay env req res up) = upStatus up
  /\ sent (relay env req res up) = Some buf.
Proof.
  intros Hb. unfold relay. rewrite Hb. split; [|reflexivity].
  change (statusCode (end_ buf ?r)) with (statusCode r).
  rewrite statusCode_reflectCors, statusCode_copy. reflexivity.
Qed.

Section Admission.

Context `{host : Host}.

Lemma gatePassed_inv env req :
  gatePassed env req = true ->
  String.eqb (method req) "OPTIONS" = false
  /\ originDenied env req = false
  /\ originNotAllowed env req = false
  /\ missingRequiredHeader env req = None
  /\ keyRejected env req = false.
Proof.
  unfold gatePassed. intros H.
  repeat (apply andb_prop in H as [H ?]).
  repeat match goal with
         | H : negb _ = true |- _ => apply negb_true_iff in H
         | H : bool_decide _ = true |- _ => apply bool_decide_eq_true in H
         end.
  repeat split; assumption.
Qed.

Lemma admissible_inv env req :
  admissible env req = true ->
  String.eqb (method req) "OPTIONS" = false
  /\ originDenied env req = false
  /\ originNotAllowed env req = false
  /\ missingRequiredHeader env req = None
  /\ keyRejected env req = false
  /\ JS.truthy (getTargetFromRequest req) = true
  /\ isHttpHttps (getTargetFromRequest req) = true
  /\ isBlockedPrivateHost (getTargetFromRequest req) = false.
Proof.
  unfold admissible. intros H.
  do 3 (apply andb_prop in H as [H ?]).
  apply gatePassed_inv in H as (? & ? & ? & ? & ?).
  repeat match goal with
         | H : negb _ = true |- _ => apply negb_true_iff in H
         end.
  repeat split; assumption.
Qed.

(** What the validator answers to a request that has passed the gate and
    the rate limit: 400 for a missing target and for a target that is
    not http(s), 403 for a blocked host. *)
Lemma handler_validator env fetch t b req res :
  gatePassed env req = true ->
  snd (rateLimitAllow env t (getClientIP req) b) = true ->
  let o := handler env fetch t b req res in
  let target := getTargetFromRequest req in
  let res0 := reflectCors env req res in
  (JS.truthy target = false ->
   outRes o = fail res0 400 "Provide a target URL via ?url= or path /api/proxy/<url>."
   /\ outFetched o = None)
  /\ (JS.truthy target = true -> isHttpHttps target = false ->
      outRes o = fail res0 400 "Only http(s) URLs are allowed." /\ outFetched o = None)
  /\ (JS.truthy target = true -> isHttpHttps target = true ->
      isBlockedPrivateHost target = true ->
      outRes o = fail res0 403 "Target host is blocked." /\ outFetched o = None)
  /\ (JS.truthy target = true -> isHttpHttps target = true ->
      isBlockedPrivateHost target = false ->
      outFetched o
      = Some (mkFetchRequest target (JS.or_else (method req) "GET")
                (scrubRequestHeaders (headers req))
                (if Set_has ["GET"; "HEAD"] (JS.or_else (method req) "GET")
                 then None else Some (reqBody req))
                RedirectManual)).
Proof.
  intros Hg Hl o target res0. subst o target res0.
  apply gatePassed_inv in Hg as (Hm & Hd & Hn & Hh & Hk).
  unfold handler. rewrite Hm, Hd, Hn, Hh, Hk.
  destruct (rateLimitAllow env t (getClientIP req) b) as [b' allowed].
  cbn [fst snd] in *. subst allowed. cbn [negb].
  split; [intros ->; split; reflexivity|].
  split; [intros -> ->; split; reflexivity|].
  split; [intros -> -> ->; split; reflexivity|].
  intros -> -> ->. cbn [negb]. cbv zeta.
  match goal with |- context [fetch ?c] => destruct (fetch c) end; reflexivity.
Qed.

(** An admissible request that the rate limit turns away gets the 429. *)
Lemma handler_limited env fetch t b req res :
  admissible env req = true ->
  snd (rateLimitAllow env t (getClientIP req) b) = false ->
  let o := handler env fetch t b req res in
  statusCode (outRes o) = 429%Z
  /\ outBucket o = fst (rateLimitAllow env t (getClientIP req) b)
  /\ outFetched o = None.
Proof.
  intros Ha Hl. apply admissible_inv in Ha as (Hm & Hd & Hn & Hh & Hk & _).
  unfold handler. rewrite Hm, Hd, Hn, Hh, Hk.
  destruct (rateLimitAllow env t (getClientIP req) b) as [b' allowed].
  cbn [fst snd] in *. subst allowed. repeat split.
Qed.

(** An admissible request within its budget is forwarded, and the
    response of the upstream is relayed. *)
Lemma handler_forwarded env fetch t b req res up :
  admissible env req = true ->
  snd (rateLimitAllow env t (getClientIP req) b) = true ->
  fetch (upstreamCall req) = Fulfilled up ->
  let o := handler env fetch t b req res in
  outRes o = relay env req (reflectCors env req res) up
  /\ outBucket o = fst (rateLimitAllow env t (getClientIP req) b)
  /\ outFetched o = Some (upstreamCall req).
Proof.
  intros Ha Hl Hf. apply admissible_inv in Ha as (Hm & Hd & Hn & Hh & Hk & Ht & Hs & Hb).
  unfold handler. rewrite Hm, Hd, Hn, Hh, Hk.
  destruct (rateLimitAllow env t (getClientIP req) b) as [b' allowed].
  cbn [fst snd] in *. subst allowed. cbn [negb]. rewrite Ht, Hs, Hb. cbn [negb].
  unfold upstreamCall in Hf. cbv zeta in *. rewrite Hf. repeat split.
Qed.

(** The bucket after a run differs from the bucket before at most in the
    record of the client of the request. *)
Lemma handler_bucket_other env fetch t b req res ip' :
  getClientIP req <> ip' ->
  outBucket (handler env fetch t b req res) !! ip' = b !! ip'.
Proof.
  intros Hne. unfold handler.
  pose proof (rateLimitAllow_other env t (getClientIP req) ip' b Hne) as Ho.
  destruct (rateLimitAllow env t (getClientIP req) b) as [b' allowed]; simpl in Ho.
  repeat match goal with
         | |- context [if ?c then _ else _] => destruct c; simpl; try reflexivity; try exact Ho
         | |- context [match ?c with _ => _ end] => destruct c; simpl; try reflexivity; try exact Ho
         end.
Qed.

(** The response and the upstream call of a run depend on the bucket only
    through the record of the client of the request. *)
Lemma handler_bucket_local env fetch t b1 b2 req res :
  b1 !! getClientIP req = b2 !! getClientIP req ->
  outRes (handler env fetch t b1 req res) = outRes (handler env fetch t b2 req res)
  /\ outFetched (handler env fetch t b1 req res) = outFetched (handler env fetch t b2 req res).
Proof.
  intros Hb. unfold handler.
  pose proof (rateLimitAllow_answer env t (getClientIP req) b1 b2 Hb) as Ha.
  destruct (rateLimitAllow env t (getClientIP req) b1) as [b1' a1].
  destruct (rateLimitAllow env t (getClientIP req) b2) as [b2' a2].
  simpl in Ha. subst a2.
  repeat match goal with
         | |- context [if ?c then _ else _] => destruct c; simpl; try (split; reflexivity)
         | |- context [match ?c with _ => _ end] => destruct c; simpl; try (split; reflexivity)
         end.
Qed.

End Admission.

(** C4: with a threshold of 2, three admissible requests of one client
    address whose first opens a window and whose other two come before
    the window's reset time are answered 200, 200 (the upstream answering
    200) and 429; a run for one address neither changes the record of
    another address nor the response to its requests; and when the window
    of a record has elapsed, the call restarts the count at 1 in a new
    window and admits the request. *)
Theorem C4_rate_limit_window `{host : Host} env fetch :
  rateLimitMax env = 2%Z ->
  (forall ip b t1 t2 t3 req1 req2 req3 res1 res2 res3 up1 up2 buf1 buf2,
      getClientIP req1 = ip -> getClientIP req2 = ip -> getClientIP req3 = ip ->
      admissible env req1 = true -> admissible env req2 = true ->
      admissible env req3 = true ->
      fetch (upstreamCall req1) = Fulfilled up1 ->
      upStatus up1 = 200%Z -> upBody up1 = inl buf1 ->
      fetch (upstreamCall req2) = Fulfilled up2 ->
      upStatus up2 = 200%Z -> upBody up2 = inl buf2 ->
      windowOpens b ip t1 ->
      (t2 <= t1 + WINDOW_MS)%Z -> (t3 <= t1 + WINDOW_MS)%Z ->
      let o1 := handler env fetch t1 b req1 res1 in
      let o2 := handler env fetch t2 (outBucket o1) req2 res2 in
      let o3 := handler env fetch t3 (outBucket o2) req3 res3 in
      statusCode (outRes o1) = 200%Z
      /\ statusCode (outRes o2) = 200%Z
      /\ statusCode (outRes o3) = 429%Z
      /\ outFetched o3 = None
      /\ outBucket o3 !! ip = Some (mkRec 3 (t1 + WINDOW_MS)))
  /\ (forall t b req res t' req' res',
      getClientIP req <> getClientIP req' ->
      let b' := outBucket (handler env fetch t b req res) in
      b' !! getClientIP req' = b !! getClientIP req'
      /\ outRes (handler env fetch t' b' req' res')
         = outRes (handler env fetch t' b req' res')
      /\ outFetched (handler env fetch t' b' req' res')
         = outFetched (handler env fetch t' b req' res'))
  /\ (forall ip b r t,
      b !! ip = Some r -> (t > reset r)%Z ->
      rateLimitAllow env t ip b = (<[ip := mkRec 1 (t + WINDOW_MS)]> b, true)).
Proof.
  intros Hmax.
  assert (rateLimitMax env <> 0%Z) as Hnz by lia.
  split; [|split].
  - intros ip b t1 t2 t3 req1 req2 req3 res1 res2 res3 up1 up2 buf1 buf2
      Hip1 Hip2 Hip3 Ha1 Ha2 Ha3 Hf1 Hs1 Hb1 Hf2 Hs2 Hb2 Hopen Ht2 Ht3 o1 o2 o3.
    (* first request: a new window, count 1 *)
    pose proof (rateLimitAllow_opens env t1 ip b Hnz Hopen) as Hr1.
    rewrite Hmax in Hr1.
    destruct (handler_forwarded env fetch t1 b req1 res1 up1 Ha1) as (Hres1 & Hbk1 & _);
      [rewrite Hip1, Hr1; reflexivity | exact Hf1 |].
    rewrite Hip1, Hr1 in Hbk1. simpl in Hbk1.
    (* second request: same window, count 2 *)
    assert (outBucket o1 !! ip = Some (mkRec 1 (t1 + WINDOW_MS))) as Hl1.
    { subst o1. rewrite Hbk1. apply lookup_insert_eq. }
    pose proof (rateLimitAllow_within env t2 ip (outBucket o1) _ Hnz Hl1 Ht2) as Hr2.
    rewrite Hmax in Hr2. simpl in Hr2.
    destruct (handler_forwarded env fetch t2 (outBucket o1) req2 res2 up2 Ha2)
      as (Hres2 & Hbk2 & _); [rewrite Hip2, Hr2; reflexivity | exact Hf2 |].
    rewrite Hip2, Hr2 in Hbk2. simpl in Hbk2.
    (* third request: same window, count 3 *)
    assert (outBucket o2 !! ip = Some (mkRec 2 (t1 + WINDOW_MS))) as Hl2.
    { subst o2. rewrite Hbk2. apply lookup_insert_eq. }
    pose proof (rateLimitAllow_within env t3 ip (outBucket o2) _ Hnz Hl2 Ht3) as Hr3.
    rewrite Hmax in Hr3. simpl in Hr3.
    destruct (handler_limited env fetch t3 (outBucket o2) req3 res3 Ha3)
      as (Hst3 & Hbk3 & Hfe3); [rewrite Hip3, Hr3; reflexivity |].
    rewrite Hip3, Hr3 in Hbk3. simpl in Hbk3.
    split.
    { subst o1. rewrite Hres1.
      rewrite (proj1 (relay_status_body env req1 _ up1 buf1 Hb1)). exact Hs1. }
    split.
    { subst o2. rewrite Hres2.
      rewrite (proj1 (relay_status_body env req2 _ up2 buf2 Hb2)). exact Hs2. }
    split; [exact Hst3|]. split; [exact Hfe3|].
    subst o3. rewrite Hbk3. apply lookup_insert_eq.
  - intros t b req res t' req' res' Hne b'.
    assert (b' !! getClientIP req' = b !! getClientIP req') as Hb.
    { subst b'. apply handler_bucket_other, Hne. }
    split; [exact Hb|]. apply handler_bucket_local, Hb.
  - intros ip b r t Hr Ht.
    rewrite rateLimitAllow_opens; [rewrite Hmax; reflexivity | exact Hnz |].
    unfold windowOpens. rewrite Hr. exact Ht.
Qed.

(** Three requests of one address at times 0, 1000 and 2000 against an
    empty bucket: the third is answered 429. *)
Lemma C4_rate_limit_window_witness :
  rateLimitMax (Scenario.withRateLimit "2") = 2%Z
  /\ statusCode
       (outRes (handler (Scenario.withRateLimit "2") Scenario.upstreamOk 2000
                  (outBucket
                     (handler (Scenario.withRateLimit "2") Scenario.upstreamOk 1000
                        (outBucket
                           (handler (Scenario.withRateLimit "2") Scenario.upstreamOk 0 ∅
                              (Scenario.from "203.0.113.7") freshResponse))
                        (Scenario.from "203.0.113.7") freshResponse))
                  (Scenario.from "203.0.113.7") freshResponse)) = 429%Z.
Proof.
  assert (admissible (Scenario.withRateLimit "2") (Scenario.from "203.0.113.7") = true)
    as Ha by (vm_compute; reflexivity).
  assert (getClientIP (Scenario.from "203.0.113.7") = "203.0.113.7") as Hip
    by (vm_compute; reflexivity).
  assert (windowOpens ∅ "203.0.113.7" 0) as Hopen by exact I.
  assert (1000 <= 0 + WINDOW_MS)%Z as Ht2 by (unfold WINDOW_MS; lia).
  assert (2000 <= 0 + WINDOW_MS)%Z as Ht3 by (unfold WINDOW_MS; lia).
  split; [reflexivity|].
  exact (proj1 (proj2 (proj2
           (proj1 (C4_rate_limit_window (Scenario.withRateLimit "2") Scenario.upstreamOk
                     eq_refl)
              "203.0.113.7" ∅ 0%Z 1000%Z 2000%Z
              (Scenario.from "203.0.113.7") (Scenario.from "203.0.113.7")
              (Scenario.from "203.0.113.7")
              freshResponse freshResponse freshResponse
              (mkUpstream 200 [("content-type", "text/plain")] (inl "ok"))
              (mkUpstream 200 [("content-type", "text/plain")] (inl "ok"))
              "ok" "ok" Hip Hip Hip Ha Ha Ha eq_refl eq_refl eq_refl eq_refl eq_refl eq_refl
              Hopen Ht2 Ht3)))).
Defined.

(** The run of the specification's own test: [RATE_LIMIT=2], three
    requests of one address at times 0, 1000 and 2000, then a request of
    another address. *)
Example rate_limit_run :
  let env := Scenario.withRateLimit "2" in
  let req ip := Scenario.request "GET" "/api/proxy?url=https%3A%2F%2Fexample.com%2F"
                  [("x-real-ip", ip)] in
  let o1 := handler env Scenario.upstreamOk 0 ∅ (req "203.0.113.7") freshResponse in
  let o2 := handler env Scenario.upstreamOk 1000 (outBucket o1) (req "203.0.113.7")
              freshResponse in
  let o3 := handler env Scenario.upstreamOk 2000 (outBucket o2) (req "203.0.113.7")
              freshResponse in
  let o4 := handler env Scenario.upstreamOk 3000 (outBucket o3) (req "198.51.100.9")
              freshResponse in
  (statusCode (outRes o1), statusCode (outRes o2), statusCode (outRes o3),
   statusCode (outRes o4)) = (200, 200, 429, 200)%Z.
Proof. vm_compute. reflexivity. Qed.

(** ** The target validator *)

Lemma lowerChar_idem c : JS.lowerChar (JS.lowerChar c) = JS.lowerChar c.
Proof. destruct c as [[] [] [] [] [] [] [] []]; reflexivity. Qed.

Lemma toLowerCase_idem s : JS.toLowerCase (JS.toLowerCase s) = JS.toLowerCase s.
Proof. induction s as [|c s IH]; simpl; [reflexivity|]. rewrite lowerChar_idem, IH. reflexivity. Qed.

Lemma or_else_empty s : JS.or_else s EmptyString = s.
Proof. destruct s; reflexivity. Qed.

(** The comparison of the host name is case-insensitive. *)
Lemma blockedHostname_lower h :
  blockedHostname (JS.toLowerCase h) = blockedHostname h.
Proof. unfold blockedHostname. rewrite !or_else_empty, toLowerCase_idem. reflexivity. Qed.

(** The four names of the guard, in any spelling of their letters. *)
Lemma blockedHostname_names h :
  JS.toLowerCase h ∈ ["localhost"; "0.0.0.0"; "127.0.0.1"; "::1"] ->
  blockedHostname h = true.
Proof.
  intros Hin. rewrite <- blockedHostname_lower.
  repeat (apply elem_of_cons in Hin as [-> | Hin]; [reflexivity|]).
  apply elem_of_nil in Hin. contradiction.
Qed.

(** The private ranges of IPv4, on the dotted decimal form of the
    address: 10.0.0.0/8, 192.168.0.0/16 and 172.16.0.0/12. *)
Lemma blockedHostname_private a b c d :
  a = 10 \/ (a = 192 /\ b = 168) \/ (a = 172 /\ 16 <= b <= 31) ->
  blockedHostname (dottedQuad a b c d) = true.
Proof.
  intros [-> | [[-> ->] | [-> Hb]]]; [reflexivity | reflexivity |].
  do 16 (destruct b as [|b]; [lia|]).
  do 16 (destruct b as [|b]; [reflexivity|]).
  lia.
Qed.

(** The rule on the first two letters applies to every host name, be it
    an address or a domain name. *)
Lemma blockedHostname_fc_fd h :
  JS.startsWith (JS.toLowerCase h) "fc" = true
  \/ JS.startsWith (JS.toLowerCase h) "fd" = true ->
  blockedHostname h = true.
Proof.
  intros Hp.
  assert (JS.startsWith (JS.toLowerCase h) "fc" || JS.startsWith (JS.toLowerCase h) "fd"
          = true) as E
    by (destruct Hp as [-> | ->]; [reflexivity | apply orb_true_r]).
  unfold blockedHostname. rewrite or_else_empty, E.
  repeat match goal with
         | |- (if ?c then true else _) = true =>
             first [reflexivity | destruct c; [reflexivity|]]
         end.
  reflexivity.
Qed.

(** The serialised host of an IPv6 literal starts with a bracket, and no
    test of the guard matches such a name. *)
Lemma blockedHostname_bracket rest :
  blockedHostname (String "[" rest) = false.
Proof. reflexivity. Qed.

Example blockedHostname_samples :
  blockedHostname <$> ["127.0.0.1"; "10.1.2.3"; "192.168.1.1"; "172.20.0.5"; "::1";
                       "fd00::1"; "LOCALHOST"; "0.0.0.0"]
  = [true; true; true; true; true; true; true; true]
  /\ blockedHostname <$> ["93.184.216.34"; "example.com"; "172.15.0.1"; "172.32.0.1";
                          "127.0.0.2"; "11.0.0.1"; "[::1]"; "[fd00::1]"]
     = [false; false; false; false; false; false; false; false].
Proof. split; reflexivity. Qed.

Section Validator.

Context `{host : Host}.

(** Whatever the host, a target whose serialised host name starts with a
    bracket is not blocked. *)
Lemma isBlockedPrivateHost_bracketed target u rest :
  URL_new target None = Some u -> hostname u = String "[" rest ->
  isBlockedPrivateHost target = false.
Proof.
  intros Hu Hh. unfold isBlockedPrivateHost. rewrite Hu, Hh. apply blockedHostname_bracket.
Qed.

(** A request that reaches the validator with an http(s) target is
    answered 403 when the tests on its host name match, and is forwarded
    to the target when they do not. *)
Lemma handler_host_guard env fetch t b req res u :
  gatePassed env req = true ->
  snd (rateLimitAllow env t (getClientIP req) b) = true ->
  getTargetFromRequest req <> EmptyString ->
  URL_new (getTargetFromRequest req) None = Some u ->
  protocol u = "http:" \/ protocol u = "https:" ->
  let o := handler env fetch t b req res in
  (blockedHostname (hostname u) = true ->
   outRes o = fail (reflectCors env req res) 403 "Target host is blocked."
   /\ outFetched o = None)
  /\ (blockedHostname (hostname u) = false ->
      fTarget <$> outFetched o = Some (getTargetFromRequest req)).
Proof.
  intros Hg Hl Hne Hu Hp o.
  assert (JS.truthy (getTargetFromRequest req) = true) as Ht
    by (destruct (getTargetFromRequest req); [congruence | reflexivity]).
  assert (isHttpHttps (getTargetFromRequest req) = true) as Hs.
  { unfold isHttpHttps. rewrite Hu. destruct Hp as [-> | ->]; reflexivity. }
  assert (isBlockedPrivateHost (getTargetFromRequest req) = blockedHostname (hostname u))
    as Hb by (unfold isBlockedPrivateHost; rewrite Hu; reflexivity).
  destruct (handler_validator env fetch t b req res Hg Hl) as (_ & _ & H403 & Hfwd).
  split.
  - intros Hblocked. apply (H403 Ht Hs). rewrite Hb. exact Hblocked.
  - intros Hfree. subst o. rewrite (Hfwd Ht Hs); [reflexivity|]. rewrite Hb. exact Hfree.
Qed.

End Validator.

(** C1 (the code departs from the claim): the targets [http://[::1]/]
    and [http://[fd00::1]/] are URLs of the hosts [::1] and [fd00::1];
    the host serialises them with their brackets, no test of
    [isBlockedPrivateHost] matches, and [handler] forwards both requests
    instead of answering 403.  The dotted IPv4 targets of the claim are
    answered 403 and the public address is forwarded. *)
Theorem C1_ipv6_literals_pass_the_guard :
  getTargetFromRequest (Scenario.get "http%3A%2F%2F%5B%3A%3A1%5D%2F") = "http://[::1]/"
  /\ hostname <$> URL_new "http://[::1]/" None = Some "[::1]"
  /\ hostname <$> URL_new "http://[fd00::1]/" None = Some "[fd00::1]"
  /\ isBlockedPrivateHost "http://[::1]/" = false
  /\ isBlockedPrivateHost "http://[fd00::1]/" = false
  /\ Scenario.summary
       (handler defaultEnv Scenario.upstreamOk 0 ∅
          (Scenario.get "http%3A%2F%2F%5B%3A%3A1%5D%2F") freshResponse)
     = (200%Z, Some "ok", Some "http://[::1]/")
  /\ Scenario.summary
       (handler defaultEnv Scenario.upstreamOk 0 ∅
          (Scenario.get "http%3A%2F%2F%5Bfd00%3A%3A1%5D%2F") freshResponse)
     = (200%Z, Some "ok", Some "http://[fd00::1]/")
  /\ (fun target =>
        statusCode
          (outRes (handler defaultEnv Scenario.upstreamOk 0 ∅ (Scenario.get target)
                     freshResponse)))
     <$> ["http%3A%2F%2F127.0.0.1%2F"; "http%3A%2F%2F10.1.2.3%2F";
          "http%3A%2F%2F192.168.1.1%2F"; "http%3A%2F%2F172.20.0.5%2F";
          "http%3A%2F%2FLocalHost%3A8080%2F"; "http%3A%2F%2F93.184.216.34%2F"]
     = [403; 403; 403; 403; 403; 200]%Z.
Proof. repeat split; vm_compute; reflexivity. Qed.

(** C9 (the code departs from the claim): the rule on [fc] and [fd] is a
    test on the first two letters of the host name, whatever the host
    is; the domain name [fcdn.example.com] is blocked by it and the
    request answered 403, and so is [fdroid.example.org]. *)
Theorem C9_fc_fd_rule_blocks_domain_names :
  hostname <$> URL_new "http://fcdn.example.com/" None = Some "fcdn.example.com"
  /\ blockedHostname "fcdn.example.com" = true
  /\ blockedHostname "cdn.example.com" = false
  /\ isBlockedPrivateHost "http://fcdn.example.com/" = true
  /\ isBlockedPrivateHost "https://fdroid.example.org/" = true
  /\ Scenario.summary
       (handler defaultEnv Scenario.upstreamOk 0 ∅
          (Scenario.get "http%3A%2F%2Ffcdn.example.com%2F") freshResponse)
     = (403%Z, Some (JS.stringify [("error", "Target host is blocked.")]), None).
Proof. repeat split; vm_compute; reflexivity. Qed.

(** ** Targets that do not parse *)

(** C6 (as stated, refuted): the target [not a url] does not parse; the
    request is answered 400 with the message of the scheme check, not
    403. *)
Lemma C6_counterexample :
  getTargetFromRequest (Scenario.get "not%20a%20url") = "not a url"
  /\ URL_new "not a url" None = None
  /\ Scenario.summary
       (handler defaultEnv Scenario.upstreamOk 0 ∅ (Scenario.get "not%20a%20url")
          freshResponse)
     = (400%Z, Some (JS.stringify [("error", "Only http(s) URLs are allowed.")]), None)
  /\ statusCode
       (outRes (handler defaultEnv Scenario.upstreamOk 0 ∅ (Scenario.get "not%20a%20url")
                  freshResponse)) <> 403%Z.
Proof. repeat split; try (vm_compute; reflexivity). vm_compute. discriminate. Qed.

(** C6 (amended): a target that fails to parse as an absolute URL is
    blocked by [isBlockedPrivateHost] taken alone (it fails closed), but
    [handler] asks [isHttpHttps] first, which is false for such a target:
    a request that has passed the policy gate and the rate limit with
    such a target is answered 400 with the error of the scheme check,
    and nothing is fetched. *)
Theorem C6_unparsable_target_is_400 `{host : Host} env fetch t b req res :
  gatePassed env req = true ->
  snd (rateLimitAllow env t (getClientIP req) b) = true ->
  getTargetFromRequest req <> EmptyString ->
  URL_new (getTargetFromRequest req) None = None ->
  let o := handler env fetch t b req res in
  isBlockedPrivateHost (getTargetFromRequest req) = true
  /\ isHttpHttps (getTargetFromRequest req) = false
  /\ outRes o = fail (reflectCors env req res) 400 "Only http(s) URLs are allowed."
  /\ statusCode (outRes o) = 400%Z
  /\ outFetched o = None.
Proof.
  intros Hg Hl Hne Hp o.
  assert (isHttpHttps (getTargetFromRequest req) = false) as Hs
    by (unfold isHttpHttps; rewrite Hp; reflexivity).
  assert (JS.truthy (getTargetFromRequest req) = true) as Ht
    by (destruct (getTargetFromRequest req); [congruence | reflexivity]).
  destruct (handler_validator env fetch t b req res Hg Hl) as (_ & H400 & _).
  destruct (H400 Ht Hs) as [Hres Hf].
  split; [unfold isBlockedPrivateHost; rewrite Hp; reflexivity|].
  split; [exact Hs|]. split; [exact Hres|]. split; [|exact Hf].
  subst o. rewrite Hres. reflexivity.
Qed.

(** The request for the target [not a url] under the default
    configuration. *)
Lemma C6_unparsable_target_is_400_witness :
  gatePassed defaultEnv (Scenario.get "not%20a%20url") = true
  /\ URL_new (getTargetFromRequest (Scenario.get "not%20a%20url")) None = None
  /\ statusCode
       (outRes (handler defaultEnv Scenario.upstreamOk 0 ∅ (Scenario.get "not%20a%20url")
                  freshResponse)) = 400%Z.
Proof.
  split; [reflexivity|]. split; [reflexivity|].
  assert (getTargetFromRequest (Scenario.get "not%20a%20url") <> EmptyString) as Hne
    by (vm_compute; discriminate).
  exact (proj1 (proj2 (proj2 (proj2
           (C6_unparsable_target_is_400 defaultEnv Scenario.upstreamOk 0%Z ∅
              (Scenario.get "not%20a%20url") freshResponse eq_refl eq_refl Hne eq_refl))))).
Defined.

(** ** The relay of the upstream response *)

Lemma getHeader_setHeader n n' v res :
  getHeader n (setHeader n' v res)
  = if String.eqb (JS.toLowerCase n) (JS.toLowerCase n') then Some v else getHeader n res.
Proof.
  destruct (String.eqb_spec (JS.toLowerCase n) (JS.toLowerCase n')) as [E | E].
  - apply getHeader_setHeader_eq. symmetry. exact E.
  - apply getHeader_setHeader_ne. intros E'. apply E. symmetry. exact E'.
Qed.

Lemma getHeader_reflectCors env req res n :
  getHeader n (reflectCors env req res)
  = match corsValue env req (JS.toLowerCase n) with
    | Some v => Some v
    | None => getHeader n res
    end.
Proof.
  unfold reflectCors, corsValue.
  destruct (credentials env); rewrite !getHeader_setHeader;
    repeat match goal with
           | |- context [JS.toLowerCase (String ?c ?s)] =>
               let r := eval vm_compute in (JS.toLowerCase (String c s)) in
               change (JS.toLowerCase (String c s)) with r
           end;
    repeat destruct (String.eqb (JS.toLowerCase n) _); reflexivity.
Qed.

Lemma lastMatch_ext p q l :
  (forall kv, kv ∈ l -> p (fst kv) = q (fst kv)) -> lastMatch p l = lastMatch q l.
Proof.
  induction l as [|kv l IH]; intros H; simpl; [reflexivity|].
  rewrite IH by (intros kv' Hin; apply H; right; exact Hin).
  rewrite (H kv) by left. reflexivity.
Qed.

Lemma lastMatch_guard (b : bool) q l :
  lastMatch (fun k => b && q k) l = if b then lastMatch q l else None.
Proof.
  destruct b; simpl; [reflexivity|].
  induction l as [|kv l IH]; simpl; [reflexivity|]. rewrite IH. reflexivity.
Qed.

Lemma lastValue_absent k (l : list (string * string)) :
  k ∉ l.*1 -> lastValue k l = None.
Proof.
  unfold lastValue. induction l as [|[k0 v0] l IH]; simpl; intros Hn; [reflexivity|].
  apply not_elem_of_cons in Hn as [Hne Hn]. rewrite (IH Hn).
  destruct (String.eqb_spec k k0); [contradiction | reflexivity].
Qed.

(** *** [out[k] = v] *)

Lemma own_set_keys k v out k' :
  k' ∈ (own_set k v out).*1 <-> k' = k \/ k' ∈ out.*1.
Proof.
  induction out as [|[k0 v0] out IH]; simpl.
  - rewrite list_elem_of_singleton, elem_of_nil. tauto.
  - destruct (String.eqb_spec k0 k) as [-> | Hne]; simpl.
    + rewrite !elem_of_cons. tauto.
    + rewrite !elem_of_cons, IH. tauto.
Qed.

Lemma own_set_NoDup k v out : NoDup out.*1 -> NoDup (own_set k v out).*1.
Proof.
  induction out as [|[k0 v0] out IH]; simpl; intros Hnd.
  - apply NoDup_singleton.
  - apply NoDup_cons in Hnd as [Hnotin Hnd].
    destruct (String.eqb_spec k0 k) as [-> | Hne]; simpl.
    + apply NoDup_cons. split; assumption.
    + apply NoDup_cons. split; [|apply IH, Hnd].
      rewrite own_set_keys. intros [E | Hin]; [congruence | contradiction].
Qed.

Lemma lastValue_own_set k v out k' :
  NoDup out.*1 ->
  lastValue k' (own_set k v out) = if String.eqb k' k then Some v else lastValue k' out.
Proof.
  unfold lastValue.
  induction out as [|[k0 v0] out IH]; simpl; intros Hnd.
  - reflexivity.
  - apply NoDup_cons in Hnd as [Hnotin Hnd].
    destruct (String.eqb_spec k0 k) as [-> | Hne]; simpl.
    + destruct (String.eqb_spec k' k) as [E | Hne'].
      * rewrite E. fold (lastValue k out). rewrite (lastValue_absent k out Hnotin).
        reflexivity.
      * reflexivity.
    + rewrite (IH Hnd). destruct (String.eqb k' k); reflexivity.
Qed.

Lemma obj_set_keys k v out k' :
  k' ∈ (obj_set k v out).*1 <-> (k' = k /\ k <> "__proto__") \/ k' ∈ out.*1.
Proof.
  unfold obj_set. destruct (String.eqb_spec k "__proto__") as [E | Hne].
  - tauto.
  - rewrite own_set_keys. tauto.
Qed.

Lemma obj_set_NoDup k v out : NoDup out.*1 -> NoDup (obj_set k v out).*1.
Proof.
  intros Hnd. unfold obj_set. destruct (String.eqb k "__proto__");
    [exact Hnd | apply own_set_NoDup, Hnd].
Qed.

Lemma lastValue_obj_set k v out k' :
  NoDup out.*1 ->
  lastValue k' (obj_set k v out)
  = if String.eqb k' k && negb (String.eqb k "__proto__") then Some v
    else lastValue k' out.
Proof.
  intros Hnd. unfold obj_set. destruct (String.eqb k "__proto__"); cbn [negb].
  - rewrite andb_false_r. reflexivity.
  - rewrite andb_true_r. apply lastValue_own_set, Hnd.
Qed.

(** *** [scrubResponseHeaders] *)

Lemma scrub_fold entries : forall out,
  NoDup out.*1 ->
  let out' :=
    fold_left
      (fun out kv =>
         if Set_has hopByHopHeaders (JS.toLowerCase (fst kv)) then out
         else obj_set (fst kv) (snd kv) out)
      entries out in
  NoDup out'.*1
  /\ (forall k, k ∈ out'.*1 ->
                k ∈ out.*1
                \/ (k ∈ entries.*1 /\ isHopByHop (JS.toLowerCase k) = false
                    /\ isProto k = false))
  /\ (forall k,
        lastValue k out'
        = match lastMatch
                  (fun k' => String.eqb k k'
                             && negb (isHopByHop (JS.toLowerCase k') || isProto k'))
                  entries with
          | Some v => Some v
          | None => lastValue k out
          end).
Proof.
  induction entries as [|[k0 v0] entries IH]; intros out Hnd; cbv zeta;
    cbn [fold_left fst snd].
  - split; [exact Hnd|]. split; [intros k Hk; left; exact Hk | reflexivity].
  - destruct (Set_has hopByHopHeaders (JS.toLowerCase k0)) eqn:Hhop.
    + destruct (IH out Hnd) as (Hnd' & Hkeys & Hval).
      split; [exact Hnd'|]. split.
      * intros k Hk. destruct (Hkeys k Hk) as [H | (H1 & H2 & H3)]; [left; exact H|].
        right. split; [right; exact H1 | split; [exact H2 | exact H3]].
      * intros k. rewrite Hval. cbn [lastMatch fst snd]. unfold isHopByHop.
        rewrite Hhop. cbn [orb negb]. rewrite andb_false_r.
        destruct (lastMatch _ entries); reflexivity.
    + destruct (IH (obj_set k0 v0 out) (obj_set_NoDup k0 v0 out Hnd)) as (Hnd' & Hkeys & Hval).
      split; [exact Hnd'|]. split.
      * intros k Hk. destruct (Hkeys k Hk) as [H | (H1 & H2 & H3)].
        -- apply obj_set_keys in H as [[-> Hp] | H]; [|left; exact H].
           right. split; [left|]. split; [exact Hhop|].
           unfold isProto. destruct (String.eqb_spec k0 "__proto__"); [contradiction|].
           reflexivity.
        -- right. split; [right; exact H1 | split; [exact H2 | exact H3]].
      * intros k. rewrite Hval, (lastValue_obj_set k0 v0 out k Hnd).
        cbn [lastMatch fst snd]. unfold isHopByHop, isProto.
        rewrite Hhop. cbn [orb].
        destruct (lastMatch _ entries); [reflexivity|].
        destruct (String.eqb k k0 && negb (String.eqb k0 "__proto__")); reflexivity.
Qed.

Lemma scrubResponseHeaders_lower entries :
  lowerNames entries -> lowerNames (scrubResponseHeaders entries).
Proof.
  intros Hl. unfold lowerNames in *. rewrite Forall_forall in *.
  intros [k v] Hin.
  destruct (scrub_fold entries [] (NoDup_nil_2)) as (_ & Hkeys & _).
  destruct (Hkeys k) as [H | [H _]].
  - apply list_elem_of_fmap. exists (k, v). split; [reflexivity | exact Hin].
  - apply elem_of_nil in H. contradiction.
  - apply list_elem_of_fmap in H as ([k' v'] & -> & Hin'). exact (Hl _ Hin').
Qed.

(** The object [out] holds, for every name that is neither hop-by-hop
    nor [__proto__], the last value the upstream gave it. *)
Lemma scrubResponseHeaders_value entries k :
  lowerNames entries ->
  lastValue k (scrubResponseHeaders entries)
  = if isHopByHop k || isProto k then None else lastValue k entries.
Proof.
  intros Hl.
  destruct (scrub_fold entries [] (NoDup_nil_2)) as (_ & _ & Hval).
  unfold scrubResponseHeaders. rewrite Hval.
  rewrite (lastMatch_ext _
             (fun k' => negb (isHopByHop k || isProto k) && String.eqb k k')).
  - rewrite lastMatch_guard. unfold lastValue.
    destruct (isHopByHop k || isProto k); cbn [negb]; [reflexivity|].
    destruct (lastMatch (String.eqb k) entries); reflexivity.
  - intros [k' v'] Hin. cbn [fst].
    unfold lowerNames in Hl. rewrite Forall_forall in Hl. specialize (Hl _ Hin).
    cbn [fst] in Hl. rewrite Hl.
    destruct (String.eqb_spec k k') as [-> | _]; [|rewrite andb_false_r; reflexivity].
    rewrite andb_true_r. reflexivity.
Qed.

(** *** The copy onto the response *)

Lemma copyHeaders_get n l : forall res,
  getHeader n (copyHeaders l res)
  = match lastMatch
            (fun k => negb (isAccessControl k)
                      && String.eqb (JS.toLowerCase n) (JS.toLowerCase k)) l with
    | Some v => Some v
    | None => getHeader n res
    end.
Proof.
  unfold copyHeaders.
  induction l as [|[k v] l IH]; intros res; cbn [fold_left lastMatch fst snd]; [reflexivity|].
  rewrite IH. destruct (lastMatch _ l); [reflexivity|].
  destruct (isAccessControl k); cbn [negb andb]; [reflexivity|].
  rewrite getHeader_setHeader.
  destruct (String.eqb (JS.toLowerCase n) (JS.toLowerCase k)); reflexivity.
Qed.

Lemma lastValue_present k l v : lastValue k l = Some v -> k ∈ l.*1.
Proof.
  intros Hv. destruct (decide (k ∈ l.*1)) as [Hin | Hn]; [exact Hin|].
  rewrite (lastValue_absent k l Hn) in Hv. discriminate.
Qed.

Lemma corsValue_Some env req ln v : corsValue env req ln = Some v -> ln ∈ corsNames.
Proof.
  unfold corsValue, corsNames.
  repeat match goal with
         | |- context [String.eqb ln ?s] =>
             destruct (String.eqb_spec ln s) as [-> | _]; [intros _; decide_mem|]
         | |- context [credentials env] => destruct (credentials env)
         end;
    discriminate.
Qed.

Lemma isProto_false k : k <> "__proto__" -> isProto k = false.
Proof.
  intros Hk. unfold isProto. destruct (String.eqb_spec k "__proto__"); [contradiction|].
  reflexivity.
Qed.



Lemma corsValue_plain env req k :
  isAccessControl k = false -> (credentials env = true -> k <> "vary") ->
  corsValue env req k = None.
Proof.
  intros Hac Hvary. destruct (corsValue env req k) as [v|] eqn:Hv; [|reflexivity].
  exfalso. pose proof (corsValue_Some env req k v Hv) as Hin. unfold corsNames in Hin.
  apply elem_of_cons in Hin as [-> | Hin]; [discriminate Hac|].
  apply elem_of_cons in Hin as [-> | Hin].
  { unfold corsValue in Hv. cbn [String.eqb Ascii.eqb Bool.eqb] in Hv.
    destruct (credentials env); [apply Hvary; reflexivity | discriminate Hv]. }
  apply elem_of_cons in Hin as [-> | Hin]; [discriminate Hac|].
  apply elem_of_cons in Hin as [-> | Hin]; [discriminate Hac|].
  apply elem_of_nil in Hin. contradiction.
Qed.




(** The tests of the specification: the round trip of a 201, the 302
    that is relayed with its [Location], and the scrub of the hop-by-hop
    headers. *)
Example relay_runs :
  let run status hs body :=
    let o := handler defaultEnv (Scenario.upstreamAnswers status hs body) 0 ∅
               (Scenario.get "https%3A%2F%2Fexample.com%2F") freshResponse in
    (statusCode (outRes o), sent (outRes o),
     (fun n => getHeader n (outRes o))
       <$> ["X-Test"; "Location"; "Transfer-Encoding"; "Connection";
            "Access-Control-Allow-Origin"]) in
  run 201%Z [("x-test", "1")] "abc"
  = (201%Z, Some "abc", [Some "1"; None; None; None; Some "*"])
  /\ run 302%Z [("location", "https://other.example/")] EmptyString
     = (302%Z, Some EmptyString, [None; Some "https://other.example/"; None; None; Some "*"])
  /\ run 200%Z [("transfer-encoding", "chunked"); ("connection", "keep-alive");
                ("access-control-allow-origin", "https://upstream.example")] "ok"
     = (200%Z, Some "ok", [None; None; None; None; Some "*"]).
Proof. repeat split; vm_compute; reflexivity. Qed.

(** * Further properties of the code *)

Import Laws.

(** ** The client address *)

Lemma opt_or_unusable o d : unusable o -> JS.opt_or o d = d.
Proof. intros [-> | ->]; reflexivity. Qed.

Lemma opt_or_usable v d : v <> EmptyString -> JS.opt_or (Some v) d = v.
Proof. destruct v; [congruence | reflexivity]. Qed.

(** X1: [getClientIP] takes the first usable one of [x-real-ip], the
    first entry of [x-forwarded-for] (trimmed), and the peer address of
    the socket, a header that is present but empty counting as absent;
    when none is usable the address is [0.0.0.0]. *)
Theorem getClientIP_precedence req :
  (forall v, headers req !! "x-real-ip" = Some v -> v <> EmptyString ->
             getClientIP req = v)
  /\ (forall w, unusable (headers req !! "x-real-ip") ->
                firstForwarded req = Some w -> w <> EmptyString ->
                getClientIP req = w)
  /\ (forall a, unusable (headers req !! "x-real-ip") ->
                unusable (firstForwarded req) ->
                remoteAddress req = Some a -> a <> EmptyString ->
                getClientIP req = a)
  /\ (unusable (headers req !! "x-real-ip") ->
      unusable (firstForwarded req) ->
      unusable (remoteAddress req) ->
      getClientIP req = "0.0.0.0").
Proof.
  unfold getClientIP. fold (firstForwarded req).
  split; [intros v -> Hv; apply opt_or_usable, Hv|].
  split; [intros w Hr -> Hw; rewrite (opt_or_unusable _ _ Hr); apply opt_or_usable, Hw|].
  split.
  - intros a Hr Hf -> Ha.
    rewrite (opt_or_unusable _ _ Hr), (opt_or_unusable _ _ Hf). apply opt_or_usable, Ha.
  - intros Hr Hf Ha.
    rewrite (opt_or_unusable _ _ Hr), (opt_or_unusable _ _ Hf), (opt_or_unusable _ _ Ha).
    reflexivity.
Qed.

(** An [x-forwarded-for] chain behind a proxy that sent an empty
    [x-real-ip]: the first hop of the chain is the client. *)
Lemma getClientIP_precedence_witness :
  unusable (headers (Scenario.request "GET" "/"
                       [("x-real-ip", EmptyString);
                        ("x-forwarded-for", " 203.0.113.7 , 10.0.0.1")])
              !! "x-real-ip")
  /\ getClientIP (Scenario.request "GET" "/"
                    [("x-real-ip", EmptyString);
                     ("x-forwarded-for", " 203.0.113.7 , 10.0.0.1")])
     = "203.0.113.7".
Proof.
  assert (unusable (headers (Scenario.request "GET" "/"
                               [("x-real-ip", EmptyString);
                                ("x-forwarded-for", " 203.0.113.7 , 10.0.0.1")])
                      !! "x-real-ip")) as Hr by (right; reflexivity).
  split; [exact Hr|].
  apply (proj1 (proj2 (getClientIP_precedence _)) "203.0.113.7" Hr);
    [reflexivity | discriminate].
Defined.

(** X2: the address [getClientIP] gives is never the empty string, so
    the rate limit bucket has no record under an empty key coming from
    it. *)
Theorem getClientIP_not_empty req : getClientIP req <> EmptyString.
Proof.
  unfold getClientIP, JS.opt_or, JS.or_else.
  repeat match goal with
         | |- context [match ?o with Some _ => _ | None => _ end] => destruct o
         | |- context [if JS.truthy ?s then _ else _] => destruct s; simpl
         end;
    discriminate.
Qed.

(** ** The rate limit in general *)

Lemma replay_within env ip R : forall ts b c,
  rateLimitMax env <> 0%Z ->
  b !! ip = Some (mkRec c R) ->
  Forall (fun t => (t <= R)%Z) ts ->
  replay env ip ts b
  = (<[ip := mkRec (c + Z.of_nat (length ts)) R]> b,
     (fun i => (c + Z.of_nat i <=? rateLimitMax env)%Z) <$> seq 1 (length ts)).
Proof.
  induction ts as [|t ts IH]; intros b c Hmax Hb Hts.
  - cbn [replay length seq fmap list_fmap]. rewrite Z.add_0_r, insert_id by exact Hb.
    reflexivity.
  - apply Forall_cons in Hts as [Ht Hts].
    cbn [replay]. rewrite (rateLimitAllow_within env t ip b _ Hmax Hb Ht).
    cbn [count reset].
    rewrite (IH _ (c + 1)%Z Hmax (lookup_insert_eq _ _ _) Hts).
    rewrite insert_insert_eq.
    replace (c + 1 + Z.of_nat (length ts))%Z with (c + Z.of_nat (length (t :: ts)))%Z
      by (cbn [length]; lia).
    f_equal. cbn [length seq fmap list_fmap]. f_equal.
    rewrite <- (fmap_S_seq 1), <- list_fmap_compose.
    apply list_fmap_ext. intros _ i _. cbn [compose].
    replace (c + 1 + Z.of_nat i)%Z with (c + Z.of_nat (S i))%Z by lia. reflexivity.
Qed.

(** X3: with a threshold [n > 0], of the calls for one address that
    start with a call opening a window at [t0] and come no later than its
    reset time [t0 + WINDOW_MS], exactly the first [n] are admitted; the
    calls that are turned away are counted too, and the window stays
    where the first call put it. *)
Theorem rate_limit_budget env ip t0 ts b :
  (0 < rateLimitMax env)%Z ->
  windowOpens b ip t0 ->
  Forall (fun t => (t <= t0 + WINDOW_MS)%Z) ts ->
  replay env ip (t0 :: ts) b
  = (<[ip := mkRec (Z.of_nat (S (length ts))) (t0 + WINDOW_MS)]> b,
     (fun i => (Z.of_nat i <=? rateLimitMax env)%Z) <$> seq 1 (S (length ts))).
Proof.
  intros Hmax Hopen Hts.
  assert (rateLimitMax env <> 0%Z) as Hnz by lia.
  cbn [replay]. rewrite (rateLimitAllow_opens env t0 ip b Hnz Hopen).
  rewrite (replay_within env ip _ ts _ 1%Z Hnz (lookup_insert_eq _ _ _) Hts).
  rewrite insert_insert_eq.
  replace (1 + Z.of_nat (length ts))%Z with (Z.of_nat (S (length ts))) by lia.
  f_equal. cbn [seq fmap list_fmap]. f_equal.
  rewrite <- (fmap_S_seq 1), <- list_fmap_compose.
  apply list_fmap_ext. intros _ i _. cbn [compose].
  replace (1 + Z.of_nat i)%Z with (Z.of_nat (S i)) by lia. reflexivity.
Qed.

(** Five calls in one window under [RATE_LIMIT=3]. *)
Lemma rate_limit_budget_witness :
  (0 < rateLimitMax (Scenario.withRateLimit "3"))%Z
  /\ snd (replay (Scenario.withRateLimit "3") "203.0.113.7" [0; 10; 20; 600000; 30]%Z ∅)
     = [true; true; true; false; false].
Proof.
  assert (0 < rateLimitMax (Scenario.withRateLimit "3"))%Z as Hmax by reflexivity.
  assert (windowOpens ∅ "203.0.113.7" 0) as Hopen by exact I.
  split; [exact Hmax|].
  rewrite (rate_limit_budget (Scenario.withRateLimit "3") "203.0.113.7" 0%Z
             [10; 20; 600000; 30]%Z ∅ Hmax Hopen).
  - reflexivity.
  - unfold WINDOW_MS. repeat constructor; lia.
Defined.

(** X4: the limiter is off exactly when [RATE_LIMIT] does not parse to a
    positive integer (unset, not a number, zero or negative); then every
    call is admitted and neither [rateLimitAllow] nor [handler] records
    anything in the bucket. *)
Theorem rate_limit_disabled `{host : Host} env :
  (rateLimitMax env = 0%Z
   <-> JS.parseInt (RATE_LIMIT env) = None
       \/ exists n, JS.parseInt (RATE_LIMIT env) = Some n /\ (n <= 0)%Z)
  /\ (rateLimitMax env = 0%Z ->
      (forall t ip b, rateLimitAllow env t ip b = (b, true))
      /\ (forall fetch t b req res, outBucket (handler env fetch t b req res) = b)).
Proof.
  split.
  - unfold rateLimitMax, JS.num_or.
    destruct (JS.parseInt (RATE_LIMIT env)) as [n|].
    + destruct (Z.eqb_spec n 0) as [-> | Hn].
      * split; [intros _; right; exists 0%Z; split; [reflexivity | lia] | reflexivity].
      * split.
        -- intros Hm. right. exists n. split; [reflexivity | lia].
        -- intros [H | (m & E & Hm)]; [discriminate|]. inversion E; subst m. lia.
    + split; [intros _; left; reflexivity | reflexivity].
  - intros Hz.
    assert (forall t ip b, rateLimitAllow env t ip b = (b, true)) as Hoff
      by (intros t ip b; unfold rateLimitAllow; rewrite Hz; reflexivity).
    split; [exact Hoff|].
    intros fetch t b req res. unfold handler. rewrite Hoff.
    repeat match goal with
           | |- context [if ?c then _ else _] => destruct c; simpl; try reflexivity
           | |- context [match ?c with _ => _ end] => destruct c; simpl; try reflexivity
           end.
Qed.

(** X5: the rate limit is charged exactly when the request has passed
    the four checks before it; a request that then fails for its target
    (missing, not http(s), blocked) or for the upstream has used up a
    unit of the budget all the same. *)
Theorem handler_bucket_charge `{host : Host} env fetch t b req res :
  outBucket (handler env fetch t b req res)
  = if gatePassed env req
    then fst (rateLimitAllow env t (getClientIP req) b)
    else b.
Proof.
  unfold handler, gatePassed.
  destruct (String.eqb (method req) "OPTIONS"); [reflexivity|].
  destruct (originDenied env req); [reflexivity|].
  destruct (originNotAllowed env req); [reflexivity|].
  destruct (missingRequiredHeader env req) as [rh|] eqn:Hh.
  { rewrite bool_decide_eq_false_2 by discriminate. reflexivity. }
  rewrite bool_decide_eq_true_2 by reflexivity.
  destruct (keyRejected env req); [reflexivity|].
  cbn [negb andb].
  destruct (rateLimitAllow env t (getClientIP req) b) as [b' allowed]. cbn [fst].
  repeat match goal with
         | |- context [if ?c then _ else _] => destruct c; simpl; try reflexivity
         | |- context [match ?c with _ => _ end] => destruct c; simpl; try reflexivity
         end.
Qed.

(** ** What [handler] fetches *)

Lemma handler_fetched_inv `{host : Host} env fetch t b req res call :
  outFetched (handler env fetch t b req res) = Some call ->
  gatePassed env req = true
  /\ snd (rateLimitAllow env t (getClientIP req) b) = true
  /\ call = upstreamCall req
  /\ fTarget call = getTargetFromRequest req
  /\ fTarget call <> EmptyString
  /\ isHttpHttps (fTarget call) = true
  /\ isBlockedPrivateHost (fTarget call) = false
  /\ fRedirect call = RedirectManual.
Proof.
  unfold handler, gatePassed.
  destruct (String.eqb (method req) "OPTIONS"); [discriminate|].
  destruct (originDenied env req); [discriminate|].
  destruct (originNotAllowed env req); [discriminate|].
  destruct (missingRequiredHeader env req) as [rh|]; [discriminate|].
  destruct (keyRejected env req); [discriminate|].
  destruct (rateLimitAllow env t (getClientIP req) b) as [b' allowed].
  destruct allowed; [|discriminate]. cbn [negb andb fst snd].
  destruct (getTargetFromRequest req) as [|c target] eqn:Ht; [discriminate|].
  cbn [JS.truthy negb]. rewrite <- Ht.
  destruct (isHttpHttps (getTargetFromRequest req)) eqn:Hs; [|discriminate].
  destruct (isBlockedPrivateHost (getTargetFromRequest req)) eqn:Hb; [discriminate|].
  cbn [negb]. cbv zeta.
  intros Hcall.
  assert (call = upstreamCall req) as ->.
  { unfold upstreamCall. cbv zeta.
    match type of Hcall with
    | context [fetch ?c] => destruct (fetch c); inversion Hcall; reflexivity
    end. }
  rewrite bool_decide_eq_true_2 by reflexivity.
  unfold upstreamCall; cbn [fTarget fRedirect].
  split; [reflexivity|]. split; [reflexivity|]. split; [reflexivity|].
  split; [reflexivity|]. split; [rewrite Ht; discriminate|].
  split; [exact Hs|]. split; [exact Hb | reflexivity].
Qed.

(** X6: [handler] makes an upstream call only for a request that is not
    a preflight, has passed the four checks of the gate and the rate
    limit, and names a non-empty target that parses with the scheme http
    or https and that the host guard does not block; the call goes to
    that target with the manual redirect policy. *)
Theorem handler_fetches_only_validated `{host : Host} env fetch t b req res call :
  outFetched (handler env fetch t b req res) = Some call ->
  gatePassed env req = true
  /\ snd (rateLimitAllow env t (getClientIP req) b) = true
  /\ call = upstreamCall req
  /\ fTarget call = getTargetFromRequest req
  /\ fTarget call <> EmptyString
  /\ isHttpHttps (fTarget call) = true
  /\ isBlockedPrivateHost (fTarget call) = false
  /\ fRedirect call = RedirectManual.
Proof. apply handler_fetched_inv. Qed.

(** The request for [https://example.com/] under the default
    configuration is forwarded there. *)
Lemma handler_fetches_only_validated_witness :
  outFetched (handler defaultEnv Scenario.upstreamOk 0 ∅
                (Scenario.get "https%3A%2F%2Fexample.com%2F") freshResponse)
  = Some (upstreamCall (Scenario.get "https%3A%2F%2Fexample.com%2F"))
  /\ isHttpHttps (fTarget (upstreamCall (Scenario.get "https%3A%2F%2Fexample.com%2F"))) = true.
Proof.
  assert (outFetched (handler defaultEnv Scenario.upstreamOk 0 ∅
                        (Scenario.get "https%3A%2F%2Fexample.com%2F") freshResponse)
          = Some (upstreamCall (Scenario.get "https%3A%2F%2Fexample.com%2F"))) as Hf
    by (vm_compute; reflexivity).
  split; [exact Hf|].
  exact (proj1 (proj2 (proj2 (proj2 (proj2 (proj2
           (handler_fetches_only_validated _ _ _ _ _ _ _ Hf))))))).
Defined.

(** X7: the upstream call carries the method of the request ([GET] when
    the request has none), the scrubbed request headers, and the body of
    the request unless the method is [GET] or [HEAD], for which it carries
    none. *)
Theorem handler_fetch_shape `{host : Host} env fetch t b req res call :
  outFetched (handler env fetch t b req res) = Some call ->
  fMethod call = (if String.eqb (method req) EmptyString then "GET" else method req)
  /\ fHeaders call = scrubRequestHeaders (headers req)
  /\ (method req ∈ [EmptyString; "GET"; "HEAD"] -> fBody call = None)
  /\ (method req ∉ [EmptyString; "GET"; "HEAD"] -> fBody call = Some (reqBody req)).
Proof.
  intros Hf.
  destruct (handler_fetched_inv env fetch t b req res call Hf) as (_ & _ & -> & _).
  unfold upstreamCall. cbn [fMethod fHeaders fBody].
  split; [destruct (method req); reflexivity|]. split; [reflexivity|].
  split.
  - intros Hin.
    repeat (apply elem_of_cons in Hin as [-> | Hin]; [reflexivity|]).
    apply elem_of_nil in Hin. contradiction.
  - intros Hn.
    destruct (Set_has ["GET"; "HEAD"] (JS.or_else (method req) "GET")) eqn:Hs;
      [|reflexivity].
    exfalso. apply Hn. apply Set_has_true in Hs.
    destruct (method req) as [|c m] eqn:Hm; [left|].
    cbn [JS.or_else JS.truthy] in Hs. right. exact Hs.
Qed.

(** A [POST] is forwarded with its body. *)
Lemma handler_fetch_shape_witness :
  outFetched (handler defaultEnv Scenario.upstreamOk 0 ∅
                (mkRequest "POST" "/api/proxy?url=https%3A%2F%2Fexample.com%2F" ∅ None "a=1")
                freshResponse)
  = Some (mkFetchRequest "https://example.com/" "POST" ∅ (Some "a=1") RedirectManual)
  /\ fMethod (mkFetchRequest "https://example.com/" "POST" ∅ (Some "a=1") RedirectManual)
     = "POST".
Proof.
  assert (outFetched (handler defaultEnv Scenario.upstreamOk 0 ∅
                        (mkRequest "POST" "/api/proxy?url=https%3A%2F%2Fexample.com%2F"
                           ∅ None "a=1")
                        freshResponse)
          = Some (mkFetchRequest "https://example.com/" "POST" ∅ (Some "a=1") RedirectManual))
    as Hf by (vm_compute; reflexivity).
  split; [exact Hf|].
  exact (proj1 (handler_fetch_shape _ _ _ _ _ _ _ Hf)).
Defined.

(** X8: a target that parses with a scheme other than http and https
    (ftp, file, ...) is answered 400 with the error of the scheme check,
    and nothing is fetched. *)
Theorem handler_rejects_other_schemes `{host : Host} env fetch t b req res u :
  gatePassed env req = true ->
  snd (rateLimitAllow env t (getClientIP req) b) = true ->
  getTargetFromRequest req <> EmptyString ->
  URL_new (getTargetFromRequest req) None = Some u ->
  protocol u <> "http:" -> protocol u <> "https:" ->
  let o := handler env fetch t b req res in
  outRes o = fail (reflectCors env req res) 400 "Only http(s) URLs are allowed."
  /\ statusCode (outRes o) = 400%Z
  /\ outFetched o = None.
Proof.
  intros Hg Hl Hne Hu Hp1 Hp2 o.
  assert (JS.truthy (getTargetFromRequest req) = true) as Ht
    by (destruct (getTargetFromRequest req); [congruence | reflexivity]).
  assert (isHttpHttps (getTargetFromRequest req) = false) as Hs.
  { unfold isHttpHttps. rewrite Hu.
    destruct (String.eqb_spec (protocol u) "http:"); [contradiction|].
    destruct (String.eqb_spec (protocol u) "https:"); [contradiction | reflexivity]. }
  destruct (handler_validator env fetch t b req res Hg Hl) as (_ & H400 & _).
  destruct (H400 Ht Hs) as [Hres Hf]. fold o in Hres, Hf.
  split; [exact Hres|]. split; [rewrite Hres; reflexivity | exact Hf].
Qed.

(** The target [file:///etc/passwd]. *)
Lemma handler_rejects_other_schemes_witness :
  protocol <$> URL_new (getTargetFromRequest (Scenario.get "file%3A%2F%2F%2Fetc%2Fpasswd")) None
  = Some "file:"
  /\ statusCode
       (outRes (handler defaultEnv Scenario.upstreamOk 0 ∅
                  (Scenario.get "file%3A%2F%2F%2Fetc%2Fpasswd") freshResponse)) = 400%Z.
Proof.
  split; [reflexivity|].
  assert (getTargetFromRequest (Scenario.get "file%3A%2F%2F%2Fetc%2Fpasswd") <> EmptyString)
    as Hne by (vm_compute; discriminate).
  assert (URL_new (getTargetFromRequest (Scenario.get "file%3A%2F%2F%2Fetc%2Fpasswd")) None
          = Some (mkURL "file:" EmptyString "/etc/passwd" [])) as Hu
    by (vm_compute; reflexivity).
  refine (proj1 (proj2
            (handler_rejects_other_schemes defaultEnv Scenario.upstreamOk 0%Z ∅
               (Scenario.get "file%3A%2F%2F%2Fetc%2Fpasswd") freshResponse _
               eq_refl eq_refl Hne Hu _ _))); discriminate.
Defined.

(** ** The request headers that are forwarded *)

Lemma list_to_map_filter_key (g : string -> bool) (l : list (string * string)) k :
  (list_to_map (List.filter (fun kv => g (fst kv)) l) : gmap string string) !! k
  = if g k then (list_to_map l : gmap string string) !! k else None.
Proof.
  induction l as [|[k0 v0] l IH]; cbn [List.filter fst].
  - destruct (g k); [reflexivity | apply lookup_empty].
  - destruct (g k0) eqn:Hg0; cbn [list_to_map foldr uncurry fst snd].
    + rewrite !lookup_insert. case_decide as Hk; [subst k0; rewrite Hg0; reflexivity|].
      exact IH.
    + rewrite IH. destruct (g k) eqn:Hg; [|reflexivity].
      rewrite lookup_insert_ne; [reflexivity|]. intros ->. congruence.
Qed.

(** X9: [scrubRequestHeaders] removes the hop-by-hop headers and [host],
    [content-length] and [accept-encoding], whatever the case of their
    names, and passes every other header on with its value; cookies and
    [authorization] are among the headers passed on. *)
Theorem scrubRequestHeaders_lookup (hs : gmap string string) k :
  (JS.toLowerCase k
     ∈ ["connection"; "proxy-connection"; "keep-alive"; "transfer-encoding"; "upgrade";
         "te"; "trailer"; "proxy-authorization"; "proxy-authenticate";
         "host"; "content-length"; "accept-encoding"] ->
   scrubRequestHeaders hs !! k = None)
  /\ (JS.toLowerCase k
        ∉ ["connection"; "proxy-connection"; "keep-alive"; "transfer-encoding"; "upgrade";
            "te"; "trailer"; "proxy-authorization"; "proxy-authenticate";
            "host"; "content-length"; "accept-encoding"] ->
      scrubRequestHeaders hs !! k = hs !! k).
Proof.
  assert (scrubRequestHeaders hs !! k
          = if negb (droppedRequestHeader k) then hs !! k else None) as ->.
  { unfold scrubRequestHeaders.
    rewrite (list_to_map_filter_key (fun k => negb (droppedRequestHeader k))).
    rewrite list_to_map_to_list. reflexivity. }
  split.
  - intros Hin.
    assert (droppedRequestHeader k = true) as ->; [|reflexivity].
    unfold droppedRequestHeader.
    repeat (apply elem_of_cons in Hin as [-> | Hin]; [reflexivity|]).
    apply elem_of_nil in Hin. contradiction.
  - intros Hn.
    assert (droppedRequestHeader k = false) as ->; [|reflexivity].
    apply not_true_iff_false. intros Hd. apply Hn.
    unfold droppedRequestHeader in Hd.
    apply orb_prop in Hd as [Hd | Hd];
      [apply orb_prop in Hd as [Hd | Hd]; [apply orb_prop in Hd as [Hd | Hd]|]|].
    + apply Set_has_true in Hd. vm_compute hopByHopHeaders in Hd.
      repeat (apply elem_of_cons in Hd as [-> | Hd]; [decide_mem|]).
      apply elem_of_nil in Hd. contradiction.
    + apply String.eqb_eq in Hd. rewrite Hd. decide_mem.
    + apply String.eqb_eq in Hd. rewrite Hd. decide_mem.
    + apply String.eqb_eq in Hd. rewrite Hd. decide_mem.
Qed.

(** A request with [Host], [Connection], [Authorization] and [Cookie]:
    the first two are dropped. *)
Lemma scrubRequestHeaders_lookup_witness :
  (fun k =>
     scrubRequestHeaders
       (list_to_map [("host", "proxy.example"); ("connection", "keep-alive");
                     ("authorization", "Bearer t"); ("cookie", "a=1")]) !! k)
  <$> ["host"; "connection"; "authorization"; "cookie"]
  = [None; None; Some "Bearer t"; Some "a=1"].
Proof.
  pose proof (fun k =>
                scrubRequestHeaders_lookup
                  (list_to_map [("host", "proxy.example"); ("connection", "keep-alive");
                                ("authorization", "Bearer t"); ("cookie", "a=1")]) k) as H.
  cbn [fmap list_fmap].
  rewrite (proj1 (H "host")) by decide_mem.
  rewrite (proj1 (H "connection")) by decide_mem.
  rewrite (proj2 (H "authorization")) by decide_mem.
  rewrite (proj2 (H "cookie")) by decide_mem.
  reflexivity.
Defined.

(** ** [reflectCors] as an operation *)

(** X10: [reflectCors] is idempotent, changes neither the status nor the
    payload, and changes no header besides the ones it sets; without
    credentials these are [Access-Control-Allow-Origin] and
    [Access-Control-Expose-Headers] only, so that [Vary] and
    [Access-Control-Allow-Credentials] are left as they were. *)
Theorem reflectCors_idempotent_local env req res :
  reflectCors env req (reflectCors env req res) = reflectCors env req res
  /\ statusCode (reflectCors env req res) = statusCode res
  /\ sent (reflectCors env req res) = sent res
  /\ (forall n, JS.toLowerCase n ∉ corsNames ->
                getHeader n (reflectCors env req res) = getHeader n res)
  /\ (credentials env = false ->
      getHeader "Vary" (reflectCors env req res) = getHeader "Vary" res
      /\ getHeader "Access-Control-Allow-Credentials" (reflectCors env req res)
         = getHeader "Access-Control-Allow-Credentials" res).
Proof.
  split.
  { unfold reflectCors, setHeader. destruct (credentials env); cbn [statusCode resHeaders sent];
      f_equal; apply map_eq; intros i; rewrite !lookup_insert;
      repeat case_decide; congruence. }
  split; [apply statusCode_reflectCors|].
  split; [unfold reflectCors; destruct (credentials env); reflexivity|].
  split.
  { intros n Hn. rewrite getHeader_reflectCors.
    destruct (corsValue env req (JS.toLowerCase n)) eqn:Hv; [|reflexivity].
    apply corsValue_Some in Hv. contradiction. }
  intros Hc. rewrite !getHeader_reflectCors. unfold corsValue. rewrite Hc.
  split; reflexivity.
Qed.

(** ** [parseCSV] *)

Lemma trimStart_head s :
  JS.trimStart s = EmptyString
  \/ exists c r, JS.trimStart s = String c r /\ JS.is_space c = false.
Proof.
  induction s as [|c s IH]; [left; reflexivity|].
  cbn [JS.trimStart]. destruct (JS.is_space c) eqn:Hc; [exact IH|].
  right. exists c, s. split; [reflexivity | exact Hc].
Qed.

Lemma trimEnd_cons c s :
  JS.trimEnd (String c s)
  = match JS.trimEnd s with
    | EmptyString => if JS.is_space c then EmptyString else String c EmptyString
    | String d r => String c (String d r)
    end.
Proof. reflexivity. Qed.

Lemma trimEnd_idem s : JS.trimEnd (JS.trimEnd s) = JS.trimEnd s.
Proof.
  induction s as [|c s IH]; [reflexivity|].
  rewrite trimEnd_cons. destruct (JS.trimEnd s) as [|d r] eqn:Hr.
  - destruct (JS.is_space c) eqn:Hc; [reflexivity|].
    rewrite trimEnd_cons. cbn [JS.trimEnd]. rewrite Hc. reflexivity.
  - rewrite trimEnd_cons, IH. reflexivity.
Qed.

Lemma trimEnd_head c r :
  JS.is_space c = false -> exists r', JS.trimEnd (String c r) = String c r'.
Proof.
  intros Hc. rewrite trimEnd_cons. destruct (JS.trimEnd r) as [|d r'].
  - rewrite Hc. eexists. reflexivity.
  - eexists. reflexivity.
Qed.

Lemma trim_idem s : JS.trim (JS.trim s) = JS.trim s.
Proof.
  unfold JS.trim. destruct (trimStart_head s) as [-> | (c & r & -> & Hc)]; [reflexivity|].
  destruct (trimEnd_head c r Hc) as [r' Hr]. rewrite Hr.
  cbn [JS.trimStart]. rewrite Hc, <- Hr. apply trimEnd_idem.
Qed.

Lemma free_trimStart p s : free p s = true -> free p (JS.trimStart s) = true.
Proof.
  induction s as [|c s IH]; [reflexivity|].
  cbn [JS.trimStart free]. intros H. destruct (JS.is_space c); [|exact H].
  apply andb_prop in H as [_ H]. apply IH, H.
Qed.

Lemma free_trimEnd p s : free p s = true -> free p (JS.trimEnd s) = true.
Proof.
  induction s as [|c s IH]; [reflexivity|].
  rewrite trimEnd_cons. cbn [free]. intros H. apply andb_prop in H as [Hc H].
  specialize (IH H). destruct (JS.trimEnd s) as [|d r].
  - destruct (JS.is_space c); [reflexivity|]. cbn [free]. rewrite Hc. reflexivity.
  - change (free p (String c (String d r))) with (negb (p c) && free p (String d r)).
    rewrite Hc, IH. reflexivity.
Qed.

(** The pieces [split] cuts out hold no separator. *)
Lemma split_free sep s : Forall (fun x => free (Ascii.eqb sep) x = true) (JS.split sep s).
Proof.
  induction s as [|c s IH]; cbn [JS.split]; [repeat constructor|].
  destruct (Ascii.eqb_spec c sep) as [-> | Hne].
  - constructor; [reflexivity | exact IH].
  - destruct (JS.split sep s) as [|x xs]; [repeat constructor|].
    + cbn [free]. destruct (Ascii.eqb_spec sep c); [congruence | reflexivity].
    + apply Forall_cons in IH as [Hx Hxs]. constructor; [|exact Hxs].
      cbn [free]. rewrite Hx. destruct (Ascii.eqb_spec sep c); [congruence | reflexivity].
Qed.

(** X11: every entry [parseCSV] gives is non-empty, holds no comma and
    has no white space at either end. *)
Theorem parseCSV_entries_clean s : Forall cleanEntry (parseCSV s).
Proof.
  unfold parseCSV. apply Forall_forall. intros x Hin.
  apply list_elem_of_In, filter_In in Hin as [Hin Ht].
  apply list_elem_of_In, list_elem_of_fmap in Hin as (y & -> & Hy).
  pose proof (split_free "," s) as Hfree. rewrite Forall_forall in Hfree.
  split; [destruct (JS.trim y); [discriminate | discriminate]|].
  split; [|apply trim_idem].
  unfold JS.trim. apply free_trimEnd, free_trimStart, Hfree, Hy.
Qed.

Lemma split_clean sep x rest :
  free (Ascii.eqb sep) x = true ->
  JS.split sep (x +:+ String sep rest) = x :: JS.split sep rest.
Proof.
  induction x as [|c x IH]; intros Hx.
  - change (EmptyString +:+ String sep rest) with (String sep rest).
    cbn [JS.split]. rewrite Ascii.eqb_refl. reflexivity.
  - cbn [free] in Hx. apply andb_prop in Hx as [Hc Hx].
    change (String c x +:+ String sep rest) with (String c (x +:+ String sep rest)).
    cbn [JS.split]. rewrite (IH Hx).
    destruct (Ascii.eqb_spec c sep) as [-> | _]; [|reflexivity].
    rewrite Ascii.eqb_refl in Hc. discriminate.
Qed.

Lemma split_single sep x :
  free (Ascii.eqb sep) x = true -> JS.split sep x = [x].
Proof.
  induction x as [|c x IH]; intros Hx; [reflexivity|].
  cbn [free] in Hx. apply andb_prop in Hx as [Hc Hx].
  cbn [JS.split]. rewrite (IH Hx).
  destruct (Ascii.eqb_spec c sep) as [-> | _]; [|reflexivity].
  rewrite Ascii.eqb_refl in Hc. discriminate.
Qed.

Lemma split_join l :
  l <> [] -> Forall (fun x => free (Ascii.eqb ",") x = true) l ->
  JS.split "," (join "," l) = l.
Proof.
  induction l as [|x l IH]; intros Hne Hl; [congruence|].
  apply Forall_cons in Hl as [Hx Hl].
  destruct l as [|y l].
  - cbn [join]. apply split_single, Hx.
  - change (join "," (x :: y :: l)) with (x +:+ String "," (join "," (y :: l))).
    rewrite (split_clean "," x _ Hx), IH; [reflexivity | discriminate | exact Hl].
Qed.

(** X12: [parseCSV] reads back a list written with commas: the entries
    of a list of clean entries joined by commas are the list. *)
Theorem parseCSV_join l : Forall cleanEntry l -> parseCSV (join "," l) = l.
Proof.
  intros Hl. destruct l as [|x l]; [reflexivity|].
  unfold parseCSV. rewrite split_join; [|discriminate|].
  - induction Hl as [|y l' (Hne & _ & Ht) _ IH]; [reflexivity|].
    cbn [fmap list_fmap List.filter]. rewrite Ht.
    destruct y; [congruence|]. cbn [JS.truthy]. f_equal. exact IH.
  - eapply Forall_impl; [exact Hl|]. intros y (_ & Hf & _). exact Hf.
Qed.

Lemma parseCSV_join_witness :
  Forall cleanEntry ["https://app.example"; "https://admin.example"]
  /\ parseCSV "https://app.example,https://admin.example"
     = ["https://app.example"; "https://admin.example"].
Proof.
  assert (Forall cleanEntry ["https://app.example"; "https://admin.example"]) as Hl
    by (repeat constructor; discriminate).
  split; [exact Hl|].
  exact (parseCSV_join ["https://app.example"; "https://admin.example"] Hl).
Defined.

(** ** The origin lists and the case of letters *)

Lemma requestOrigin_lower req : JS.toLowerCase (requestOrigin req) = requestOrigin req.
Proof. unfold requestOrigin. apply toLowerCase_idem. Qed.

(** X13: the origin of the request is lower-cased before it is looked up
    but the entries of the lists are not: an entry that holds an
    upper-case letter matches no request.  A deny list of such entries
    denies nothing, and a non-empty allow list of such entries turns every
    request away. *)
Theorem origin_lists_are_case_sensitive env req :
  (Forall (fun e => JS.toLowerCase e <> e) (parseCSV (ORIGIN_DENYLIST env)) ->
   originDenied env req = false)
  /\ (parseCSV (ORIGIN_ALLOWLIST env) <> [] ->
      Forall (fun e => JS.toLowerCase e <> e) (parseCSV (ORIGIN_ALLOWLIST env)) ->
      originNotAllowed env req = true).
Proof.
  split.
  - intros Hall. apply not_true_iff_false. intros Hd.
    apply originDenied_iff in Hd. rewrite Forall_forall in Hall.
    exact (Hall _ Hd (requestOrigin_lower req)).
  - intros Hne Hall. apply originNotAllowed_iff. split; [exact Hne|].
    intros Hin. rewrite Forall_forall in Hall.
    exact (Hall _ Hin (requestOrigin_lower req)).
Qed.

(** An allow list written [https://App.Example] turns away the request
    of that very origin. *)
Lemma origin_lists_are_case_sensitive_witness :
  parseCSV (ORIGIN_ALLOWLIST
              (mkEnv "https://App.Example" EmptyString EmptyString EmptyString
                 "600" "false" "0")) <> []
  /\ originNotAllowed
       (mkEnv "https://App.Example" EmptyString EmptyString EmptyString "600" "false" "0")
       (Scenario.request "GET" "/api/proxy?url=https%3A%2F%2Fexample.com%2F"
          [("origin", "https://App.Example")]) = true.
Proof.
  assert (parseCSV (ORIGIN_ALLOWLIST
                      (mkEnv "https://App.Example" EmptyString EmptyString EmptyString
                         "600" "false" "0")) <> []) as Hne by (vm_compute; discriminate).
  split; [exact Hne|].
  apply (proj2 (origin_lists_are_case_sensitive _ _) Hne).
  vm_compute. repeat constructor. discriminate.
Defined.

(** ** The wrappers *)

Lemma lit_app ci p q : forall s,
  Regex.lit ci (p +:+ q) s
  = match Regex.lit ci p s with
    | Some r => Regex.lit ci q r
    | None => None
    end.
Proof.
  induction p as [|b p IH]; intros s; [reflexivity|].
  change (String b p +:+ q) with (String b (p +:+ q)).
  cbn [Regex.lit]. destruct s as [|a s]; [reflexivity|].
  destruct (Ascii.eqb _ _); [apply IH | reflexivity].
Qed.

Lemma lit_startsWith p : forall s,
  JS.toLowerCase p = p ->
  JS.startsWith (JS.toLowerCase s) p
  = match Regex.lit true p s with Some _ => true | None => false end.
Proof.
  induction p as [|b p IH]; intros s Hp; [destruct s; reflexivity|].
  cbn [JS.toLowerCase] in Hp. inversion Hp as [[Hb Hp']]. rewrite Hb, Hp'.
  destruct s as [|a s]; [reflexivity|].
  cbn [JS.toLowerCase JS.startsWith Regex.lit Regex.canon]. rewrite Hb.
  destruct (Ascii.eqb (JS.lowerChar a) b); [apply IH, Hp' | reflexivity].
Qed.

(** The scheme test of [makeCorsAnywherePath], [/^https?:\/\//i], is the
    test that the lower-cased target starts with [http://] or with
    [https://]. *)
Lemma scheme_test target :
  Regex.testi
    (Regex.Seq (Regex.Lit "http") (Regex.Seq (Regex.Opt (Regex.Lit "s")) (Regex.Lit "://")))
    target
  = JS.startsWith (JS.toLowerCase target) "https://"
    || JS.startsWith (JS.toLowerCase target) "http://".
Proof.
  rewrite !lit_startsWith by reflexivity.
  change "https://" with ("http" +:+ "s" +:+ "://").
  change "http://" with ("http" +:+ "://").
  rewrite !lit_app. unfold Regex.testi. cbn [Regex.run].
  destruct (Regex.lit true "http" target) as [r|]; [|reflexivity].
  rewrite lit_app.
  destruct (Regex.lit true "s" r) as [r'|]; cbn [orb]; [|reflexivity].
  destruct (Regex.lit true "://" r'), (Regex.lit true "://" r); reflexivity.
Qed.

(** X14: the path [makeCorsAnywherePath] gives is empty or a slash
    followed by a target that starts, letter case aside, with [http://]
    or [https://]; both wrappers hand to cors-anywhere only such a path.
    The wrapper of [src/api/proxy.js] answers nothing when [new URL]
    throws on the request target, the exception leaving the function;
    when the request target parses, it answers with its 400 error, a
    status, a content type and a JSON body on the response it was given,
    exactly when the path is empty, and hands the request over under the
    path otherwise. *)
Theorem wrapper_delegates_only_http `{host : Host} req res :
  (forall p, Wrapper.makeCorsAnywherePath req = Some p ->
             p = EmptyString
             \/ exists target,
                 p = "/" +:+ target
                 /\ (JS.startsWith (JS.toLowerCase target) "https://" = true
                     \/ JS.startsWith (JS.toLowerCase target) "http://" = true))
  /\ (forall p, Wrapper.module_exports req res = Some (Wrapper.Delegated p)
                \/ HealthWrapper.module_exports req res = Some (Wrapper.Delegated p) ->
                Wrapper.makeCorsAnywherePath req = Some p /\ p <> EmptyString)
  /\ (forall r, Wrapper.module_exports req res = Some (Wrapper.Responded r) ->
                Wrapper.makeCorsAnywherePath req = Some EmptyString
                /\ statusCode r = 400%Z)
  /\ (URL_new (url req) (Some "http://local") = None ->
      Wrapper.makeCorsAnywherePath req = None
      /\ Wrapper.module_exports req res = None)
  /\ (forall u, URL_new (url req) (Some "http://local") = Some u ->
                exists p, Wrapper.makeCorsAnywherePath req = Some p)
  /\ (Wrapper.makeCorsAnywherePath req = Some EmptyString ->
      Wrapper.module_exports req res
      = Some (Wrapper.Responded
                (end_
                   (JS.stringify
                      [("error",
                        "Provide target via ?url= or /api/proxy/<url>, only http(s) allowed.")])
                   (setHeader "Content-Type" "application/json; charset=utf-8"
                      (setStatus 400 res)))))
  /\ (forall p, Wrapper.makeCorsAnywherePath req = Some p -> p <> EmptyString ->
                Wrapper.module_exports req res = Some (Wrapper.Delegated p)).
Proof.
  split; [|split; [|split; [|split; [|split; [|split]]]]].
  - intros p. unfold Wrapper.makeCorsAnywherePath.
    destruct (URL_new (url req) (Some "http://local")) as [u|]; [|discriminate].
    cbn [mbind option_bind].
    match goal with
    | |- Some (if negb (JS.truthy ?t) then _ else _) = _ -> _ => generalize t; intros target
    end.
    rewrite scheme_test.
    destruct (JS.truthy target); cbn [negb]; [|intros E; inversion E; left; reflexivity].
    destruct (_ || _) eqn:Hs; cbn [negb]; intros E; inversion E; [|left; reflexivity].
    right. exists target. split; [reflexivity|]. apply orb_prop, Hs.
  - intros p [H | H].
    + unfold Wrapper.module_exports in H.
      destruct (Wrapper.makeCorsAnywherePath req) as [q|]; [|discriminate].
      cbn [mbind option_bind] in H. destruct q; cbn in H; inversion H.
      split; [reflexivity | discriminate].
    + unfold HealthWrapper.module_exports in H.
      destruct (URL_new (url req) (Some "http://local")) as [u|]; [|discriminate].
      cbn [mbind option_bind] in H.
      repeat match type of H with
             | (if ?c then _ else _) = _ => destruct c; [discriminate|]
             end.
      destruct (Wrapper.makeCorsAnywherePath req) as [q|]; [|discriminate].
      cbn [mbind option_bind] in H. destruct q; cbn in H; inversion H.
      split; [reflexivity | discriminate].
  - intros r H. unfold Wrapper.module_exports in H.
    destruct (Wrapper.makeCorsAnywherePath req) as [q|]; [|discriminate].
    cbn [mbind option_bind] in H. destruct q; cbn in H; inversion H.
    split; reflexivity.
  - intros Hu. unfold Wrapper.module_exports, Wrapper.makeCorsAnywherePath.
    rewrite Hu. split; reflexivity.
  - intros u Hu. unfold Wrapper.makeCorsAnywherePath. rewrite Hu.
    cbn [mbind option_bind]. eexists. reflexivity.
  - intros Hp. unfold Wrapper.module_exports. rewrite Hp. reflexivity.
  - intros p Hp Hne. unfold Wrapper.module_exports. rewrite Hp.
    cbn [mbind option_bind]. destruct p; [contradiction|]. reflexivity.
Qed.

(** The request [/api/proxy?url=ftp://x/] is answered with the 400
    error. *)
Lemma wrapper_delegates_only_http_witness :
  Wrapper.makeCorsAnywherePath
    (Scenario.request "GET" "/api/proxy?url=ftp%3A%2F%2Fx%2F" []) = Some EmptyString
  /\ Wrapper.module_exports (Scenario.request "GET" "/api/proxy?url=ftp%3A%2F%2Fx%2F" [])
       freshResponse
     = Some (Wrapper.Responded
               (fail freshResponse 400
                  "Provide target via ?url= or /api/proxy/<url>, only http(s) allowed.")).
Proof.
  assert (Wrapper.makeCorsAnywherePath
            (Scenario.request "GET" "/api/proxy?url=ftp%3A%2F%2Fx%2F" []) = Some EmptyString)
    as H by (vm_compute; reflexivity).
  split; [exact H|].
  exact (proj1 (proj2 (proj2 (proj2 (proj2 (proj2
           (wrapper_delegates_only_http _ freshResponse)))))) H).
Defined.

(** The request target [//] does not parse: the wrapper throws, and the
    same request with a target in path style is handed over. *)
Example wrapper_runs :
  URL_new "//" (Some "http://local") = None
  /\ Wrapper.module_exports (Scenario.request "GET" "//" []) freshResponse = None
  /\ Wrapper.module_exports
       (Scenario.request "GET" "/api/proxy/http%3A%2F%2Fa.b%2F" []) freshResponse
     = Some (Wrapper.Delegated "/http://a.b/").
Proof. repeat split; vm_compute; reflexivity. Qed.

(** X15: the health endpoints of the second wrapper.  A [GET] whose
    path is [/] is answered with the health object whatever its query
    is; [/health] and [/api/proxy/health], with or without a final
    slash, are answered [ok], the latter never being taken for a target
    in path style; [/api/proxy], with or without a final slash, is
    answered with the health object when it has no usable [url]
    parameter. *)
Theorem health_endpoints `{host : Host} req res u :
  URL_new (url req) (Some "http://local") = Some u ->
  method req = "GET" ->
  (pathname u = "/" ->
   HealthWrapper.module_exports req res
   = Some (Wrapper.Responded (HealthWrapper.sendHealthJSON res)))
  /\ (pathname u ∈ ["/health"; "/health/"; "/api/proxy/health"; "/api/proxy/health/"] ->
      HealthWrapper.module_exports req res
      = Some (Wrapper.Responded (HealthWrapper.sendHealthText res)))
  /\ (pathname u ∈ ["/api/proxy"; "/api/proxy/"] ->
      unusable (searchParams_get u "url") ->
      HealthWrapper.module_exports req res
      = Some (Wrapper.Responded (HealthWrapper.sendHealthJSON res))).
Proof.
  intros Hu Hm. unfold HealthWrapper.module_exports. rewrite Hu, Hm.
  cbn [mbind option_bind].
  split; [intros ->; reflexivity|].
  split.
  - intros Hin.
    repeat (apply elem_of_cons in Hin as [-> | Hin]; [reflexivity|]).
    apply elem_of_nil in Hin. contradiction.
  - intros Hin Hq.
    assert (JS.truthy (default EmptyString (searchParams_get u "url")) = false) as Ht
      by (destruct Hq as [-> | ->]; reflexivity).
    repeat (apply elem_of_cons in Hin as [-> | Hin]; [cbn; rewrite Ht; reflexivity|]).
    apply elem_of_nil in Hin. contradiction.
Qed.

(** [GET /api/proxy/health] and [GET /?url=https://example.com/]. *)
Lemma health_endpoints_witness :
  URL_new "/api/proxy/health" (Some "http://local")
  = Some (mkURL "http:" "local" "/api/proxy/health" [])
  /\ HealthWrapper.module_exports (Scenario.request "GET" "/api/proxy/health" []) freshResponse
     = Some (Wrapper.Responded (HealthWrapper.sendHealthText freshResponse)).
Proof.
  assert (URL_new (url (Scenario.request "GET" "/api/proxy/health" []))
            (Some "http://local")
          = Some (mkURL "http:" "local" "/api/proxy/health" [])) as Hu by reflexivity.
  split; [exact Hu|].
  apply (proj1 (proj2 (health_endpoints _ freshResponse _ Hu eq_refl))).
  decide_mem.
Defined.

(** X16: the second wrapper answers with a health response only a
    [GET]: every response it gives itself to another method is its 400
    error, a JSON object with the two fields [error] and [example]; and a
    response it gives itself, health or error, adds only [Content-Type] to
    the headers, so it carries no CORS header of the wrapper's making. *)
Theorem health_wrapper_responses `{host : Host} req res r :
  HealthWrapper.module_exports req res = Some (Wrapper.Responded r) ->
  (method req <> "GET" ->
   statusCode r = 400%Z
   /\ sent r = Some (JS.stringify HealthWrapper.errorObject)
   /\ Wrapper.makeCorsAnywherePath req = Some EmptyString)
  /\ (statusCode r = 200%Z \/ statusCode r = 400%Z)
  /\ (forall n, JS.toLowerCase n <> "content-type" -> getHeader n r = getHeader n res)
  /\ (exists v, getHeader "Content-Type" r = Some v).
Proof.
  unfold HealthWrapper.module_exports.
  destruct (URL_new (url req) (Some "http://local")) as [u|]; [|discriminate].
  cbn [mbind option_bind].
  destruct (String.eqb_spec (method req) "GET") as [Hm | Hm]; cbn [andb].
  - intros H.
    assert (r = HealthWrapper.sendHealthJSON res \/ r = HealthWrapper.sendHealthText res
            \/ r = end_ (JS.stringify HealthWrapper.errorObject)
                     (setHeader "Content-Type" "application/json; charset=utf-8"
                        (setStatus 400 res))) as Hr.
    { repeat match type of H with
             | (if ?c then _ else _) = _ =>
                 destruct c; [inversion H; tauto|]
             end.
      destruct (Wrapper.makeCorsAnywherePath req) as [q|]; [|discriminate].
      cbn [mbind option_bind] in H. destruct q; cbn in H; inversion H. tauto. }
    split; [intros Hn; contradiction|].
    destruct Hr as [-> | [-> | ->]];
      unfold HealthWrapper.sendHealthJSON, HealthWrapper.sendHealthText.
    + split; [left; reflexivity|]. split; [|eexists; hdr; reflexivity].
      intros n Hn.
      rewrite getHeader_end, getHeader_setHeader_ne; [reflexivity|].
      intros E. apply Hn. rewrite <- E. reflexivity.
    + split; [left; reflexivity|]. split; [|eexists; hdr; reflexivity].
      intros n Hn.
      rewrite getHeader_end, getHeader_setHeader_ne; [reflexivity|].
      intros E. apply Hn. rewrite <- E. reflexivity.
    + split; [right; reflexivity|]. split; [|eexists; hdr; reflexivity].
      intros n Hn.
      rewrite getHeader_end, getHeader_setHeader_ne; [reflexivity|].
      intros E. apply Hn. rewrite <- E. reflexivity.
  - destruct (Wrapper.makeCorsAnywherePath req) as [q|]; [|discriminate].
    cbn [mbind option_bind]. destruct q; cbn [JS.truthy negb]; intros H; inversion H.
    split; [intros _; repeat split|].
    split; [right; reflexivity|]. split; [|eexists; hdr; reflexivity].
    intros n Hn.
    rewrite getHeader_end, getHeader_setHeader_ne; [reflexivity|].
    intros E. apply Hn. rewrite <- E. reflexivity.
Qed.

(** A [POST] to the root is answered with the 400 error. *)
Lemma health_wrapper_responses_witness :
  method (Scenario.request "POST" "/" []) <> "GET"
  /\ HealthWrapper.module_exports (Scenario.request "POST" "/" []) freshResponse
     = Some (Wrapper.Responded
               (end_ (JS.stringify HealthWrapper.errorObject)
                  (setHeader "Content-Type" "application/json; charset=utf-8"
                     (setStatus 400 freshResponse))))
  /\ getHeader "Access-Control-Allow-Origin"
       (end_ (JS.stringify HealthWrapper.errorObject)
          (setHeader "Content-Type" "application/json; charset=utf-8"
             (setStatus 400 freshResponse))) = None.
Proof.
  assert (method (Scenario.request "POST" "/" []) <> "GET") as Hm by discriminate.
  assert (HealthWrapper.module_exports (Scenario.request "POST" "/" []) freshResponse
          = Some (Wrapper.Responded
                    (end_ (JS.stringify HealthWrapper.errorObject)
                       (setHeader "Content-Type" "application/json; charset=utf-8"
                          (setStatus 400 freshResponse))))) as H
    by (vm_compute; reflexivity).
  split; [exact Hm|]. split; [exact H|].
  destruct (health_wrapper_responses _ freshResponse _ H) as (_ & _ & Hh & _).
  rewrite Hh by (vm_compute; discriminate). reflexivity.
Defined.

(** ** The response headers that are relayed *)

(** X17: the object [scrubResponseHeaders] builds lists no name twice,
    holds no hop-by-hop header in whatever case its name is written and
    no property named [__proto__] (the assignment to that name defines
    none), and holds every other name of the upstream with the last value
    the upstream gave it. *)
Theorem scrubResponseHeaders_invariants entries :
  NoDup (scrubResponseHeaders entries).*1
  /\ (forall k, k ∈ (scrubResponseHeaders entries).*1 ->
                k ∈ entries.*1 /\ isHopByHop (JS.toLowerCase k) = false
                /\ k <> "__proto__")
  /\ (forall k, lastValue k (scrubResponseHeaders entries)
                = if isHopByHop (JS.toLowerCase k) || String.eqb k "__proto__"
                  then None else lastValue k entries).
Proof.
  destruct (scrub_fold entries [] (NoDup_nil_2)) as (Hnd & Hkeys & Hval).
  split; [exact Hnd|]. split.
  - intros k Hk. destruct (Hkeys k Hk) as [H | (H1 & H2 & H3)].
    + apply elem_of_nil in H. contradiction.
    + split; [exact H1|]. split; [exact H2|].
      intros ->. discriminate H3.
  - intros k. unfold scrubResponseHeaders. rewrite Hval.
    fold (isProto k).
    rewrite (lastMatch_ext _
               (fun k' => negb (isHopByHop (JS.toLowerCase k) || isProto k)
                          && String.eqb k k')).
    + rewrite lastMatch_guard. unfold lastValue.
      destruct (isHopByHop (JS.toLowerCase k) || isProto k); cbn [negb]; [reflexivity|].
      destruct (lastMatch (String.eqb k) entries); reflexivity.
    + intros [k' v'] _. cbn [fst].
      destruct (String.eqb_spec k k') as [-> | _]; [|rewrite andb_false_r; reflexivity].
      rewrite andb_true_r. reflexivity.
Qed.

Lemma copied_header env req res entries n :
  lowerNames entries ->
  getHeader n (reflectCors env req (copyHeaders (scrubResponseHeaders entries) res))
  = match corsValue env req (JS.toLowerCase n) with
    | Some v => Some v
    | None =>
        if isAccessControl (JS.toLowerCase n) || isHopByHop (JS.toLowerCase n)
           || isProto (JS.toLowerCase n)
        then getHeader n res
        else match lastValue (JS.toLowerCase n) entries with
             | Some v => Some v
             | None => getHeader n res
             end
    end.
Proof.
  intros Hl. rewrite getHeader_reflectCors.
  destruct (corsValue env req (JS.toLowerCase n)); [reflexivity|].
  rewrite copyHeaders_get.
  rewrite (lastMatch_ext _
             (fun k => negb (isAccessControl (JS.toLowerCase n))
                       && String.eqb (JS.toLowerCase n) k)).
  - rewrite lastMatch_guard.
    fold (lastValue (JS.toLowerCase n) (scrubResponseHeaders entries)).
    rewrite (scrubResponseHeaders_value _ _ Hl).
    destruct (isAccessControl (JS.toLowerCase n)); cbn [negb orb]; [reflexivity|].
    destruct (isHopByHop (JS.toLowerCase n) || isProto (JS.toLowerCase n)); reflexivity.
  - intros [k v] Hin. cbn [fst].
    pose proof (scrubResponseHeaders_lower _ Hl) as Hl'.
    unfold lowerNames in Hl'. rewrite Forall_forall in Hl'.
    specialize (Hl' _ Hin). cbn [fst] in Hl'. rewrite Hl'.
    destruct (String.eqb_spec (JS.toLowerCase n) k) as [-> | _];
      [reflexivity | rewrite !andb_false_r; reflexivity].
Qed.

(** X18: when the upstream has answered but its body cannot be read,
    the response is the 502 error in JSON, with the CORS headers; the
    headers of the upstream that had been copied before the failure stay
    on it, save [Content-Type], which is the one of the error.  The
    copied headers are those of the upstream with their last value, apart
    from the hop-by-hop headers, the access-control headers, a header
    named [__proto__] and, in credentials mode, [Vary]. *)
Theorem handler_body_failure `{host : Host} env fetch t b req res up err :
  admissible env req = true ->
  snd (rateLimitAllow env t (getClientIP req) b) = true ->
  fetch (upstreamCall req) = Fulfilled up ->
  upBody up = inr err ->
  lowerNames (upHeaders up) ->
  let o := handler env fetch t b req res in
  statusCode (outRes o) = 502%Z
  /\ sent (outRes o)
     = Some (JS.stringify [("error", "Upstream fetch failed: " +:+ errText err)])
  /\ getHeader "Content-Type" (outRes o) = Some "application/json; charset=utf-8"
  /\ corsHeaders env req (outRes o)
  /\ (forall k v,
        lastValue k (upHeaders up) = Some v ->
        isHopByHop k = false -> isAccessControl k = false ->
        (credentials env = true -> k <> "vary") -> k <> "content-type" ->
        k <> "__proto__" ->
        getHeader k (outRes o) = Some v).
Proof.
  intros Ha Hl Hf Hb Hlow o.
  destruct (handler_forwarded env fetch t b req res up Ha Hl Hf) as (Hres & _ & _).
  fold o in Hres. rewrite Hres.
  assert (relay env req (reflectCors env req res) up
          = fail (reflectCors env req
                    (copyHeaders (scrubResponseHeaders (upHeaders up))
                       (setStatus (upStatus up) (reflectCors env req res))))
              502 ("Upstream fetch failed: " +:+ errText err)) as ->
    by (unfold relay; rewrite Hb; reflexivity).
  destruct (fail_shape
              (reflectCors env req
                 (copyHeaders (scrubResponseHeaders (upHeaders up))
                    (setStatus (upStatus up) (reflectCors env req res))))
              502 ("Upstream fetch failed: " +:+ errText err)) as (Hst & Hse & Hct).
  split; [exact Hst|]. split; [exact Hse|]. split; [exact Hct|].
  split; [apply corsHeaders_fail, corsHeaders_reflectCors|].
  intros k v Hv Hhop Hac Hvary Hct' Hproto.
  assert (JS.toLowerCase k = k) as Hk.
  { apply lastValue_present in Hv. apply list_elem_of_fmap in Hv as ([k' v'] & -> & Hin).
    unfold lowerNames in Hlow. rewrite Forall_forall in Hlow. exact (Hlow _ Hin). }
  rewrite getHeader_fail by (rewrite Hk; exact Hct').
  rewrite (copied_header env req _ _ k Hlow), Hk.
  rewrite (corsValue_plain env req k Hac Hvary), Hac, Hhop, (isProto_false k Hproto), Hv.
  reflexivity.
Qed.

(** The upstream sends [content-length: 1000] and breaks off: the error
    of the proxy goes out under that length. *)
Lemma handler_body_failure_witness :
  admissible defaultEnv (Scenario.get "https%3A%2F%2Fexample.com%2F") = true
  /\ statusCode
       (outRes (handler defaultEnv Scenario.upstreamBreaks 0 ∅
                  (Scenario.get "https%3A%2F%2Fexample.com%2F") freshResponse)) = 502%Z
  /\ getHeader "content-length"
       (outRes (handler defaultEnv Scenario.upstreamBreaks 0 ∅
                  (Scenario.get "https%3A%2F%2Fexample.com%2F") freshResponse))
     = Some "1000".
Proof.
  assert (admissible defaultEnv (Scenario.get "https%3A%2F%2Fexample.com%2F") = true) as Ha
    by (vm_compute; reflexivity).
  assert (lowerNames [("content-length", "1000"); ("etag", "abc")]) as Hlow
    by (repeat constructor).
  destruct (handler_body_failure defaultEnv Scenario.upstreamBreaks 0%Z ∅
              (Scenario.get "https%3A%2F%2Fexample.com%2F") freshResponse
              (mkUpstream 200 [("content-length", "1000"); ("etag", "abc")]
                 (inr (mkJsError "TypeError" "terminated")))
              (mkJsError "TypeError" "terminated")
              Ha eq_refl eq_refl eq_refl Hlow) as (Hst & _ & _ & _ & Hkeep).
  split; [exact Ha|]. split; [exact Hst|].
  apply Hkeep;
    [reflexivity | reflexivity | reflexivity | discriminate | discriminate | discriminate].
Defined.

(** ** The sources of the target *)

Lemma targetFromPath_prefix `{host : Host} req part :
  url req = "/api/proxy/" +:+ part ->
  targetFromPath req
  = if JS.truthy part then default part (decodeURIComponent part) else EmptyString.
Proof.
  intros Hu. unfold targetFromPath. rewrite Hu.
  assert (JS.indexOf ("/api/proxy/" +:+ part) "/api/proxy/" = Some 0%nat) as ->
    by (destruct part; reflexivity).
  assert (JS.slice ("/api/proxy/" +:+ part) (0 + String.length "/api/proxy/") = part) as ->
    by (destruct part; reflexivity).
  reflexivity.
Qed.

(** X19: the target is the [url] parameter of the query when the request
    target parses and the parameter is not empty; otherwise, for a request
    target that starts with [/api/proxy/], it is what follows, decoded, or
    as it stands when the decoding fails; and it is empty when there is
    neither a usable parameter nor an occurrence of [/api/proxy/]. *)
Theorem getTargetFromRequest_sources `{host : Host} req :
  (forall u q,
      URL_new (url req) (Some "http://x") = Some u ->
      searchParams_get u "url" = Some q -> q <> EmptyString ->
      getTargetFromRequest req = q)
  /\ (unusable (URL_new (url req) (Some "http://x") ≫= (fun u => searchParams_get u "url")) ->
      (forall part d,
          url req = "/api/proxy/" +:+ part -> part <> EmptyString ->
          decodeURIComponent part = Some d ->
          getTargetFromRequest req = d)
      /\ (forall part,
          url req = "/api/proxy/" +:+ part ->
          decodeURIComponent part = None ->
          getTargetFromRequest req = part)
      /\ (JS.indexOf (url req) "/api/proxy/" = None ->
          getTargetFromRequest req = EmptyString)).
Proof.
  split.
  - intros u q Hu Hq Hne. unfold getTargetFromRequest. rewrite Hu. cbn [mbind option_bind].
    rewrite Hq. destruct q; [congruence | reflexivity].
  - intros Hno.
    assert (getTargetFromRequest req = targetFromPath req) as ->.
    { unfold getTargetFromRequest. destruct Hno as [-> | ->]; reflexivity. }
    split; [|split].
    + intros part d Hu Hne Hd. rewrite (targetFromPath_prefix req part Hu), Hd.
      destruct part; [congruence | reflexivity].
    + intros part Hu Hd. rewrite (targetFromPath_prefix req part Hu), Hd.
      destruct part; reflexivity.
    + intros Hi. unfold targetFromPath. rewrite Hi. reflexivity.
Qed.

(** A path whose escape is malformed is taken as it stands. *)
Lemma getTargetFromRequest_sources_witness :
  unusable (URL_new (url (Scenario.request "GET" "/api/proxy/http://x/%zz" []))
              (Some "http://x") ≫= (fun u => searchParams_get u "url"))
  /\ decodeURIComponent "http://x/%zz" = None
  /\ getTargetFromRequest (Scenario.request "GET" "/api/proxy/http://x/%zz" [])
     = "http://x/%zz".
Proof.
  assert (unusable (URL_new (url (Scenario.request "GET" "/api/proxy/http://x/%zz" []))
                      (Some "http://x") ≫= (fun u => searchParams_get u "url"))) as Hno
    by (left; reflexivity).
  assert (decodeURIComponent "http://x/%zz" = None) as Hd by reflexivity.
  split; [exact Hno|]. split; [exact Hd|].
  exact (proj1 (proj2 (proj2 (getTargetFromRequest_sources _) Hno))
           "http://x/%zz" eq_refl Hd).
Defined.

(** ** The host guard on IPv4 addresses *)

(** X20: on the dotted decimal form of an IPv4 address outside 0.0.0.0/8
    and 127.0.0.0/8, the host guard blocks exactly the three private
    ranges 10.0.0.0/8, 172.16.0.0/12 and 192.168.0.0/16: every other
    address, link-local and shared address space included, passes. *)
Theorem blockedHostname_ipv4_exact a b c d :
  a < 256 -> b < 256 -> a <> 0 -> a <> 127 ->
  blockedHostname (dottedQuad a b c d)
  = (a =? 10) || ((a =? 192) && (b =? 168)) || ((a =? 172) && (16 <=? b) && (b <=? 31)).
Proof.
  intros Ha Hb H0 H127.
  do 256 (destruct a as [|a];
          [ first [ congruence
                  | reflexivity
                  | do 256 (destruct b as [|b]; [reflexivity|]); lia ]
          |]).
  lia.
Qed.

(** The address of the metadata service of a cloud host passes. *)
Lemma blockedHostname_ipv4_exact_witness :
  169 < 256 /\ blockedHostname "169.254.169.254" = false.
Proof.
  split; [lia|].
  exact (blockedHostname_ipv4_exact 169 254 169 254
           ltac:(lia) ltac:(lia) ltac:(lia) ltac:(lia)).
Defined.

(** ** The required headers *)

Lemma find_first {A} (p : A -> bool) (l : list A) x :
  List.find p l = Some x ->
  exists l1 l2, l = l1 ++ x :: l2 /\ p x = true /\ Forall (fun y => p y = false) l1.
Proof.
  induction l as [|a l IH]; cbn [List.find]; [discriminate|].
  destruct (p a) eqn:Ha.
  - intros E. inversion E; subst a. exists [], l. repeat split; [exact Ha | constructor].
  - intros Hf. destruct (IH Hf) as (l1 & l2 & -> & Hx & Hl1).
    exists (a :: l1), l2. repeat split; [exact Hx | constructor; assumption].
Qed.

(** X21: the check of the required headers passes exactly when every
    name of [REQUIRE_HEADER], lower-cased, is [in] the object of the
    request headers, that is, is a key of it or one of the names every
    object inherits from [Object.prototype]; when it fails, the header it
    reports is the first one, in the order of the configuration, that is
    not.  So [constructor] and [__proto__] are never reported missing,
    whatever the request sends. *)
Theorem required_headers_check env req :
  (missingRequiredHeader env req = None
   <-> forall name, name ∈ parseCSV (REQUIRE_HEADER env) ->
                    hasProperty (JS.toLowerCase name) (headers req) = true)
  /\ (forall rh, missingRequiredHeader env req = Some rh ->
                 hasProperty rh (headers req) = false
                 /\ exists before after,
                     requiredHeaders env = before ++ rh :: after
                     /\ Forall (fun x => hasProperty x (headers req) = true) before)
  /\ (forall k, hasProperty k (headers req) = true
                <-> is_Some (headers req !! k) \/ k ∈ objectPrototypeKeys)
  /\ missingRequiredHeader env req <> Some "constructor"
  /\ missingRequiredHeader env req <> Some "__proto__".
Proof.
  split.
  { rewrite missingRequiredHeader_None. split.
    - intros H name Hin. apply H, list_elem_of_fmap. exists name.
      split; [reflexivity | exact Hin].
    - intros H rh Hin. apply list_elem_of_fmap in Hin as (name & -> & Hin). apply H, Hin. }
  split.
  { intros rh Hf.
    unfold missingRequiredHeader in Hf. apply find_first in Hf as (l1 & l2 & E & Hx & Hl1).
    split; [apply negb_true_iff, Hx|].
    exists l1, l2. split; [exact E|].
    eapply Forall_impl; [exact Hl1|]. intros x Hy.
    apply negb_false_iff in Hy. exact Hy. }
  split; [intros k; apply hasProperty_true|].
  split; intros Hf; apply missingRequiredHeader_Some in Hf as (_ & _ & Hn);
    apply Hn; decide_mem.
Qed.

(** With [REQUIRE_HEADER=constructor, X-Requested-With] a request
    without headers is told that [x-requested-with] is missing, and a
    request that sends it passes, though neither sends [constructor]. *)
Example required_headers_runs :
  let env := mkEnv EmptyString EmptyString "constructor, X-Requested-With" EmptyString
               "600" "false" "0" in
  missingRequiredHeader env (Scenario.request "GET" "/" []) = Some "x-requested-with"
  /\ missingRequiredHeader env (Scenario.request "GET" "/" [("x-requested-with", "1")])
     = None.
Proof. split; vm_compute; reflexivity. Qed.

(** ** The answer of the host guard *)

(** X22: a request that reaches the validator with a target that parses
    as an http(s) URL is answered 403 [Target host is blocked.] when the
    tests on the host name of the URL match, nothing being fetched, and is
    forwarded to its target when they do not. *)
Theorem handler_host_guard_decides `{host : Host} env fetch t b req res u :
  gatePassed env req = true ->
  snd (rateLimitAllow env t (getClientIP req) b) = true ->
  getTargetFromRequest req <> EmptyString ->
  URL_new (getTargetFromRequest req) None = Some u ->
  protocol u = "http:" \/ protocol u = "https:" ->
  let o := handler env fetch t b req res in
  (blockedHostname (hostname u) = true ->
   outRes o = fail (reflectCors env req res) 403 "Target host is blocked."
   /\ outFetched o = None)
  /\ (blockedHostname (hostname u) = false ->
      fTarget <$> outFetched o = Some (getTargetFromRequest req)).
Proof. apply handler_host_guard. Qed.

(** The target [http://192.168.1.1/]. *)
Lemma handler_host_guard_decides_witness :
  blockedHostname "192.168.1.1" = true
  /\ outFetched (handler defaultEnv Scenario.upstreamOk 0 ∅
                   (Scenario.get "http%3A%2F%2F192.168.1.1%2F") freshResponse) = None.
Proof.
  split; [reflexivity|].
  assert (gatePassed defaultEnv (Scenario.get "http%3A%2F%2F192.168.1.1%2F") = true) as Hg
    by (vm_compute; reflexivity).
  assert (getTargetFromRequest (Scenario.get "http%3A%2F%2F192.168.1.1%2F") <> EmptyString)
    as Hne by (vm_compute; discriminate).
  assert (URL_new (getTargetFromRequest (Scenario.get "http%3A%2F%2F192.168.1.1%2F")) None
          = Some (mkURL "http:" "192.168.1.1" "/" [])) as Hu by (vm_compute; reflexivity).
  exact (proj2 (proj1 (handler_host_guard_decides defaultEnv Scenario.upstreamOk 0%Z ∅
                         (Scenario.get "http%3A%2F%2F192.168.1.1%2F") freshResponse _
                         Hg eq_refl Hne Hu (or_introl eq_refl)) eq_refl)).
Defined.
